(** * SynoLink: a model of the MCP bridge to the Synology FileStation API

    The repository holds two variants of the server:
    - [src/index.ts] (server name "synolink-server"), modelled in module [Index];
    - the second source file (server name "synolink"), modelled in module [Part0].

    Both keep one cached session token, talk to the NAS through axios and
    answer every tool call with a text payload.  The model is a shallow
    embedding: JavaScript values are [json] terms, asynchronous functions are
    computations of the monad [M] (session state, log of HTTP exchanges,
    exceptions, fuel for the polling loops), and the NAS is an arbitrary
    function from the exchanges so far and the request to a response. *)

From Stdlib Require Import String Ascii ZArith List Bool Lia.
From Stdlib Require Import DecimalString.
Import ListNotations.
Local Open Scope Z_scope.
Local Open Scope string_scope.

(** ** JavaScript strings *)

Module Str.

(** [s.startsWith(pre)] *)
Definition startsWith (s pre : string) : bool := String.prefix pre s.

(** [s.endsWith(suf)]: some suffix of [s] is [suf]. *)
Fixpoint endsWith (s suf : string) : bool :=
  if String.eqb s suf then true
  else match s with
       | EmptyString => false
       | String _ s' => endsWith s' suf
       end.

(** [s.slice(0, -1)]: [s] without its last character. *)
Fixpoint dropLast (s : string) : string :=
  match s with
  | EmptyString => EmptyString
  | String _ EmptyString => EmptyString
  | String c s' => String c (dropLast s')
  end.

(** [t.includes(s)] *)
Fixpoint includes (t s : string) : bool :=
  if String.prefix s t then true
  else match t with
       | EmptyString => false
       | String _ t' => includes t' s
       end.

(** Decimal rendering of an integer, as [String(n)] gives for integers. *)
Definition ofZ (n : Z) : string := NilZero.string_of_int (Z.to_int n).

(** [s.lastIndexOf(c)], [-1] when [c] does not occur. *)
Fixpoint lastIndexFrom (i : Z) (s : string) (c : ascii) (found : Z) : Z :=
  match s with
  | EmptyString => found
  | String d rest => lastIndexFrom (i + 1) rest c (if Ascii.eqb d c then i else found)
  end.

Definition lastIndexOf (s : string) (c : ascii) : Z := lastIndexFrom 0 s c (-1).

Definition clamp (s : string) (i : Z) : nat :=
  Nat.min (Z.to_nat i) (String.length s).

(** [s.substring(a, b)]: both ends are clamped to the string and swapped
    when they come in the wrong order. *)
Definition substring (s : string) (a b : Z) : string :=
  let a' := clamp s a in
  let b' := clamp s b in
  String.substring (Nat.min a' b') (Nat.max a' b' - Nat.min a' b') s.

(** [s.substring(a)] *)
Definition substringFrom (s : string) (a : Z) : string :=
  substring s a (Z.of_nat (String.length s)).

End Str.

(** ** Path utilities (second variant) *)

(** [formatSynoPath]: put a slash in front when there is none, then remove
    one trailing slash unless the path is the root. *)
Definition formatSynoPath (filePath : string) : string :=
  let filePath :=
    if negb (Str.startsWith filePath "/") then "/" ++ filePath else filePath in
  let filePath :=
    if negb (filePath =? "/") && Str.endsWith filePath "/"
    then Str.dropLast filePath else filePath in
  filePath.

(** ** Byte sizes ([src/index.ts])

    [bytes] is a byte count, an integer.  [Math.log], the division and
    [Math.pow] are read as exact arithmetic on such counts: the index
    [Math.floor(Math.log(bytes) / Math.log(1024))] is the integer logarithm
    in base 1024, that is [Z.log2 bytes / 10].  A negative count makes
    [Math.log] return [NaN], which the remaining steps print as
    ["NaN undefined"]. *)

Definition sizes : list string :=
  ["Bytes"; "KB"; "MB"; "GB"; "TB"; "PB"; "EB"; "ZB"; "YB"].

(** [sizes[i]]; past the end of the array JavaScript gives [undefined]. *)
Definition sizes_at (i : Z) : string := nth (Z.to_nat i) sizes "undefined".

(** The digits of [n] after the point, on [dm] places, most significant
    first: [n] is smaller than [10 ^ dm]. *)
Fixpoint fracDigits (dm : nat) (n : Z) : string :=
  match dm with
  | O => ""
  | S dm' => Str.ofZ (n / 10 ^ Z.of_nat dm') ++ fracDigits dm' (n mod 10 ^ Z.of_nat dm')
  end.

(** Trailing zeros of a fraction, which [parseFloat] followed by the
    conversion back to a string drops. *)
Fixpoint stripZeros (s : string) : string :=
  match s with
  | EmptyString => EmptyString
  | String c s' =>
      match stripZeros s' with
      | EmptyString => if Ascii.eqb c "0" then EmptyString else String c EmptyString
      | r => String c r
      end
  end.

(** [parseFloat((num / den).toFixed(dm)) + ''] for [num >= 0] and [den > 0]:
    the quotient rounded to [dm] places, ties upwards, printed without
    trailing zeros. *)
Definition toFixedParsed (num den : Z) (dm : nat) : string :=
  let scale := 10 ^ Z.of_nat dm in
  let n := (2 * num * scale + den) / (2 * den) in
  let frac := stripZeros (fracDigits dm (n mod scale)) in
  Str.ofZ (n / scale) ++ (if frac =? "" then "" else "." ++ frac).

Definition formatBytes_dec (bytes decimals : Z) : string :=
  if (bytes =? 0)%Z then "0 Bytes"
  else if (bytes <? 0)%Z then "NaN undefined"
  else
    let k := 1024 in
    let dm := if (decimals <? 0)%Z then 0 else decimals in
    let i := Z.log2 bytes / 10 in
    toFixedParsed bytes (k ^ i) (Z.to_nat dm) ++ " " ++ sizes_at i.

(** [formatBytes(bytes)], with the default [decimals = 2]. *)
Definition formatBytes (bytes : Z) : string := formatBytes_dec bytes 2.


(** ** JavaScript values

    Response bodies, tool arguments and the cached token are JSON values.
    Numbers are the integers (codes, sizes and times of the API). *)

#[warnings="-register-all"] Inductive json : Type :=
| JUndefined
| JNull
| JBool (b : bool)
| JNum (n : Z)
| JStr (s : string)
| JArr (items : list json)
| JObj (fields : list (string * json)).

(** What [throw] carries.  Every value thrown in the two programs is an
    [Error]: the ones they build with [new Error], the [TypeError] of a
    property read on [undefined] or [null], and the error with which axios
    rejects.  The handlers only read its [message]. *)
Inductive exn : Type := Error (message : string).

Definition message (e : exn) : string := let 'Error m := e in m.

(** Pure steps that can throw. *)
Definition E (A : Type) : Type := (exn + A)%type.

Module Js.

(** Truthiness, as [if (v)], [!v], [a && b], [a || b] and [c ? a : b] test it. *)
Definition truthy (v : json) : bool :=
  match v with
  | JUndefined | JNull => false
  | JBool b => b
  | JNum n => negb (n =? 0)%Z
  | JStr s => negb (s =? "")
  | JArr _ | JObj _ => true
  end.

Fixpoint assoc (key : string) (fields : list (string * json)) : json :=
  match fields with
  | [] => JUndefined
  | (k, v) :: rest => if k =? key then v else assoc key rest
  end.

(** The name of the kind of [v], as V8's messages and zod's issues print it. *)
Definition typeof (v : json) : string :=
  match v with
  | JUndefined => "undefined"
  | JNull => "null"
  | JBool _ => "boolean"
  | JNum _ => "number"
  | JStr _ => "string"
  | JArr _ => "array"
  | JObj _ => "object"
  end.

Definition cannotRead (v : json) (key : string) : exn :=
  Error ("Cannot read properties of " ++ typeof v ++ " (reading '" ++ key ++ "')").

(** [v.key]: a [TypeError] on [undefined] and [null], the field of an
    object, [undefined] on the other values (none of the keys read by the
    programs is a property of a string, a number, a boolean or an array). *)
Definition prop (v : json) (key : string) : E json :=
  match v with
  | JUndefined | JNull => inl (cannotRead v key)
  | JObj fields => inr (assoc key fields)
  | _ => inr JUndefined
  end.

(** [v?.key] *)
Definition optProp (v : json) (key : string) : E json :=
  match v with
  | JUndefined | JNull => inr JUndefined
  | _ => prop v key
  end.

(** [a || b] on values. *)
Definition or (a b : json) : json := if truthy a then a else b.

(** [String(v)], which template literals and [URLSearchParams.append] apply. *)
Fixpoint toStr (v : json) : string :=
  match v with
  | JUndefined => "undefined"
  | JNull => "null"
  | JBool true => "true"
  | JBool false => "false"
  | JNum n => Str.ofZ n
  | JStr s => s
  | JArr items =>
      (fix join (l : list json) : string :=
         match l with
         | [] => ""
         | x :: rest =>
             let sx := match x with JUndefined | JNull => "" | _ => toStr x end in
             match rest with [] => sx | _ => sx ++ "," ++ join rest end
         end) items
  | JObj _ => "[object Object]"
  end.

(** The elements of [v] for [v.forEach] and [v.map], where the code names
    the value [name]: a [TypeError] unless [v] is an array. *)
Definition elements (v : json) (name method : string) : E (list json) :=
  match v with
  | JArr items => inr items
  | JUndefined | JNull => inl (cannotRead v method)
  | _ => inl (Error (name ++ "." ++ method ++ " is not a function"))
  end.

Fixpoint indexed (i : Z) (l : list json) : list (string * json) :=
  match l with
  | [] => []
  | x :: rest => (Str.ofZ i, x) :: indexed (i + 1) rest
  end.

(** [Object.entries(v)] *)
Definition entries (v : json) : E (list (string * json)) :=
  match v with
  | JUndefined | JNull => inl (Error "Cannot convert undefined or null to object")
  | JObj fields => inr fields
  | JArr items => inr (indexed 0 items)
  | JStr s => inr (indexed 0 (map (fun c => JStr (String c "")) (list_ascii_of_string s)))
  | _ => inr []
  end.

(** [v[0]] *)
Definition index0 (v : json) : E json :=
  match v with
  | JUndefined | JNull => inl (cannotRead v "0")
  | JArr (x :: _) => inr x
  | JObj fields => inr (assoc "0" fields)
  | JStr (String c _) => inr (JStr (String c ""))
  | _ => inr JUndefined
  end.

(** [v?.[0]] *)
Definition optIndex0 (v : json) : E json :=
  match v with
  | JUndefined | JNull => inr JUndefined
  | _ => index0 v
  end.

End Js.

(** ** The NAS seen through axios *)

Inductive Verb : Type := GET | POST.

(** [/webapi/auth.cgi] and [/webapi/entry.cgi] under the base URL. *)
Inductive Cgi : Type := AuthCgi | EntryCgi.

(** A request: the query or form parameters in the order the code gives
    them.  [URLSearchParams] and URL templates hold strings, the [params]
    object of axios holds the values as they are. *)
Record Request : Type := mkRequest {
  verb : Verb;
  cgi : Cgi;
  params : list (string * json)
}.

(** What [await axios.get(...)] gives: a response, of which the programs
    read only the body [data], or a rejection (no answer, or an HTTP status
    outside 2xx). *)
Inductive Response : Type :=
| Reply (data : json)
| Rejected (reason : string).

Definition Exchange : Type := (Request * Response)%type.

(** The NAS: any function of the exchanges so far and of the request. *)
Definition Remote : Type := list Exchange -> Request -> Response.

Definition param (key : string) (req : Request) : json := Js.assoc key (params req).

Definition isString (v : json) (s : string) : bool :=
  match v with JStr s' => s' =? s | _ => false end.

(** The request calls [method] of [api]. *)
Definition calls (api method : string) (req : Request) : bool :=
  isString (param "api" req) api && isString (param "method" req) method.

Definition isLogin : Request -> bool := calls "SYNO.API.Auth" "login".
Definition isLogout : Request -> bool := calls "SYNO.API.Auth" "logout".
Definition isProbe : Request -> bool := calls "SYNO.API.Info" "query".
Definition isStart : Request -> bool := calls "SYNO.FileStation.Search" "start".
Definition isStatus : Request -> bool := calls "SYNO.FileStation.Search" "status".
Definition isList : Request -> bool := calls "SYNO.FileStation.Search" "list".
Definition isStop : Request -> bool := calls "SYNO.FileStation.Search" "stop".

(** The calls of the search protocol in a log, by method name. *)
Definition isSearchApi (req : Request) : bool := isString (param "api" req) "SYNO.FileStation.Search".

Definition searchCalls (t : list Exchange) : list string :=
  map (fun ex => Js.toStr (param "method" (fst ex))) (filter (fun ex => isSearchApi (fst ex)) t).

Definition count (p : Request -> bool) (t : list Exchange) : nat :=
  length (filter (fun ex => p (fst ex)) t).

(** ** Program state and computations *)

(** The cached session token ([sid] in [src/index.ts], [dsm.sid] in the
    second variant) and the exchanges with the NAS, oldest first.  Writes to
    [console.error] are not part of the state. *)
Record State : Type := mkState {
  sid : json;
  log : list Exchange
}.

(** The outcome of running an [async] function: it returns, it throws, or
    its polling loop is still waiting when the fuel runs out. *)
Inductive Result (A : Type) : Type :=
| Ok (a : A) (st : State)
| Thrown (e : exn) (st : State)
| Pending (st : State).
Arguments Ok {A}.
Arguments Thrown {A}.
Arguments Pending {A}.

Definition M (A : Type) : Type := State -> Result A.

Definition ret {A} (a : A) : M A := fun st => Ok a st.

Definition bind {A B} (m : M A) (k : A -> M B) : M B :=
  fun st =>
    match m st with
    | Ok a st' => k a st'
    | Thrown e st' => Thrown e st'
    | Pending st' => Pending st'
    end.

Definition throw {A} (e : exn) : M A := fun st => Thrown e st.

(** [try { m } catch (error) { handler error }] *)
Definition tryCatch {A} (m : M A) (handler : exn -> M A) : M A :=
  fun st =>
    match m st with
    | Thrown e st' => handler e st'
    | r => r
    end.

Definition pending {A} : M A := fun st => Pending st.

Definition lift {A} (x : E A) : M A :=
  match x with inl e => throw e | inr a => ret a end.

Definition getSid : M json := fun st => Ok (sid st) st.

Definition setSid (v : json) : M unit := fun st => Ok tt (mkState v (log st)).

(** One HTTP request: the exchange is logged and the body returned, or the
    rejection thrown. *)
Definition http (nas : Remote) (req : Request) : M json :=
  fun st =>
    let resp := nas (log st) req in
    let st' := mkState (sid st) (log st ++ [(req, resp)])%list in
    match resp with
    | Reply data => Ok data st'
    | Rejected reason => Thrown (Error reason) st'
    end.

(** How a run ended, and the state it ended in. *)
Inductive Kind : Type := Returned | Raised | Waiting.

Definition kind {A} (r : Result A) : Kind :=
  match r with
  | Ok _ _ => Returned
  | Thrown _ _ => Raised
  | Pending _ => Waiting
  end.

Definition stateOf {A} (r : Result A) : State :=
  match r with
  | Ok _ st | Thrown _ st | Pending st => st
  end.

Declare Scope m_scope.
Delimit Scope m_scope with M.
Notation "x <- m ;; k" := (bind m (fun x => k))
  (at level 61, m at next level, right associativity) : m_scope.
Notation "m ;; k" := (bind m (fun _ => k))
  (at level 61, right associativity) : m_scope.
Local Open Scope m_scope.

(** [v.k1.k2], throwing as soon as a step reads [undefined] or [null]. *)
Definition prop2 (v : json) (k1 k2 : string) : E json :=
  match Js.prop v k1 with
  | inl e => inl e
  | inr x => Js.prop x k2
  end.

(** [v.error?.code] *)
Definition errorCode (v : json) : E json :=
  match Js.prop v "error" with
  | inl e => inl e
  | inr x => Js.optProp x "code"
  end.

(** ** Argument schemas

    The tools describe their arguments with zod: [z.object] of [z.string()]
    fields, some [.optional()] or with a [.default(...)].  [safeParse] is
    modelled after the library: a value that is no object gives one issue
    with an empty path; in an object every field is checked, unknown keys
    are dropped, and each bad field gives an issue whose path is its name. *)

Inductive FieldKind : Type :=
| Required
| Optional
| Default (value : string).

Definition Schema : Type := list (string * FieldKind).

(** An [invalid_type] issue. *)
Record Issue : Type := mkIssue {
  expected : string;
  received : string;
  path : list string
}.

Definition invalidType (expect : string) (v : json) (where_ : list string) : Issue :=
  mkIssue expect (Js.typeof v) where_.

Definition parseField (fields : list (string * json)) (f : string * FieldKind)
  : Issue + option string :=
  let (name, kind) := f in
  match Js.assoc name fields, kind with
  | JStr s, _ => inr (Some s)
  | JUndefined, Optional => inr None
  | JUndefined, Default d => inr (Some d)
  | v, _ => inl (invalidType "string" v [name])
  end.

Fixpoint parseFields (fields : list (string * json)) (schema : Schema)
  : list Issue * list (string * string) :=
  match schema with
  | [] => ([], [])
  | f :: rest =>
      let (issues, data) := parseFields fields rest in
      match parseField fields f with
      | inl issue => (issue :: issues, data)
      | inr (Some s) => (issues, (fst f, s) :: data)
      | inr None => (issues, data)
      end
  end.

(** [schema.safeParse(args)]: the issues of [parsed.error], or [parsed.data]. *)
Definition safeParse (schema : Schema) (args : json) : list Issue + list (string * string) :=
  match args with
  | JObj fields =>
      match parseFields fields schema with
      | ([], data) => inr data
      | (issues, _) => inl issues
      end
  | v => inl [invalidType "object" v []]
  end.

Definition nl : string := String (ascii_of_nat 10) "".
Definition dq : string := String (ascii_of_nat 34) "".
Definition quoted (s : string) : string := dq ++ s ++ dq.

(** [JSON.stringify(path, null, 2)] at the depth of an issue's field. *)
Fixpoint pathItems (p : list string) : string :=
  match p with
  | [] => ""
  | [x] => "      " ++ quoted x ++ nl
  | x :: rest => "      " ++ quoted x ++ "," ++ nl ++ pathItems rest
  end.

Definition pathText (p : list string) : string :=
  match p with
  | [] => "[]"
  | _ => "[" ++ nl ++ pathItems p ++ "    ]"
  end.

Definition issueMessage (i : Issue) : string :=
  if received i =? "undefined" then "Required"
  else "Expected " ++ expected i ++ ", received " ++ received i.

Definition issueText (i : Issue) : string :=
  "  {" ++ nl ++
  "    " ++ quoted "code" ++ ": " ++ quoted "invalid_type" ++ "," ++ nl ++
  "    " ++ quoted "expected" ++ ": " ++ quoted (expected i) ++ "," ++ nl ++
  "    " ++ quoted "received" ++ ": " ++ quoted (received i) ++ "," ++ nl ++
  "    " ++ quoted "path" ++ ": " ++ pathText (path i) ++ "," ++ nl ++
  "    " ++ quoted "message" ++ ": " ++ quoted (issueMessage i) ++ nl ++
  "  }".

Fixpoint issuesText (l : list Issue) : string :=
  match l with
  | [] => ""
  | [i] => issueText i ++ nl
  | i :: rest => issueText i ++ "," ++ nl ++ issuesText rest
  end.

(** [String(parsed.error)]: the message of a [ZodError] is its issues
    printed by [JSON.stringify(issues, null, 2)]. *)
Definition zodMessage (issues : list Issue) : string :=
  match issues with
  | [] => "[]"
  | _ => "[" ++ nl ++ issuesText issues ++ "]"
  end.

(** [parsed.data.key] for a field the schema requires or defaults. *)
Fixpoint field (key : string) (data : list (string * string)) : string :=
  match data with
  | [] => ""
  | (k, v) :: rest => if k =? key then v else field key rest
  end.

(** [parsed.data.key] for an optional field. *)
Fixpoint optField (key : string) (data : list (string * string)) : option string :=
  match data with
  | [] => None
  | (k, v) :: rest => if k =? key then Some v else optField key rest
  end.

(** ** Tool results

    [{ content: [{ type: "text", text }] }], with [isError: true] on the
    error path. *)
Record ToolResult : Type := mkResult {
  text : string;
  isError : bool
}.

(** A result that is well formed: a text, and on the error path a text
    of the form [Error: <message>]. *)
Definition wellFormed (r : ToolResult) : Prop :=
  isError r = false \/ (isError r = true /\ exists m, text r = "Error: " ++ m).

(** How a tool call ended for the caller: a result without the error
    mark, a result with it, or no result yet. *)
Definition toolKind (r : Result ToolResult) : Kind :=
  match r with
  | Ok res _ => if isError res then Raised else Returned
  | Thrown _ _ => Raised
  | Pending _ => Waiting
  end.

(** ** What the programs take from outside

    The NAS, the command line ([USERNAME] and [PASSWORD], [dsm.account] and
    [dsm.passwd]) and the library functions whose output is only copied into
    the text of a result. *)
Record Env : Type := mkEnv {
  nas : Remote;
  account : string;
  passwd : string;
  (** [JSON.stringify(v, null, 2)] *)
  stringify : json -> string;
  (** [new Date(seconds * 1000).toLocaleString()] *)
  toLocaleString : json -> string;
  (** [Math.round((used / total) * 100)] *)
  usedPercent : json -> json -> string;
  (** [formatBytes] applied to a value that is no integer, and the
      difference of two sizes that are not both integers *)
  formatOther : json -> string;
  minusOther : json -> json -> json;
  (** the text of a body asked for with [responseType] text or arraybuffer *)
  bodyText : json -> string;
  (** [path.dirname] and [path.basename] *)
  dirname : string -> string;
  basename : string -> string
}.

(** Pure steps chained: the first throw ends the chain. *)
Definition bindE {A B} (x : E A) (k : A -> E B) : E B :=
  match x with inl e => inl e | inr a => k a end.

(** [items.forEach(item => { result += line item })] *)
Fixpoint appendLines (line : json -> E string) (items : list json) (result : string) : E string :=
  match items with
  | [] => inr result
  | item :: rest => bindE (line item) (fun l => appendLines line rest (result ++ l))
  end.

(** [items.map(shape)] *)
Fixpoint mapE (shape : json -> E json) (items : list json) : E (list json) :=
  match items with
  | [] => inr []
  | item :: rest =>
      bindE (shape item) (fun x => bindE (mapE shape rest) (fun xs => inr (x :: xs)))
  end.

Definition api3 (api version method : string) : list (string * json) :=
  [("api", JStr api); ("version", JStr version); ("method", JStr method)].

(** * [src/index.ts] *)

Module Index.
Section Program.
Context (env : Env).

Definition loginRequest : Request :=
  mkRequest GET AuthCgi
    (api3 "SYNO.API.Auth" "6" "login" ++
     [("account", JStr (account env)); ("passwd", JStr (passwd env));
      ("session", JStr "FileStation"); ("format", JStr "sid")]).

Definition logoutRequest (s : json) : Request :=
  mkRequest GET AuthCgi
    (api3 "SYNO.API.Auth" "6" "logout" ++ [("session", JStr "FileStation"); ("_sid", s)]).

Definition login : M json :=
  tryCatch
    (s <- getSid ;;
     if Js.truthy s then ret s
     else
       body <- http (nas env) loginRequest ;;
       success <- lift (Js.prop body "success") ;;
       if Js.truthy success then
         newSid <- lift (prop2 body "data" "sid") ;;
         setSid newSid ;;
         match newSid with
         | JNull => throw (Error "Failed to get session ID")
         | _ => ret newSid
         end
       else
         code <- lift (errorCode body) ;;
         throw (Error (if Js.truthy code then "Error " ++ Js.toStr code else "Login failed")))
    (fun _ => throw (Error "Failed to authenticate with Synology NAS")).

Definition logout : M unit :=
  s <- getSid ;;
  if negb (Js.truthy s) then ret tt
  else
    tryCatch
      (http (nas env) (logoutRequest s) ;;
       setSid JNull)
      (fun _ => ret tt).

(** [axios.get] on [entry.cgi] with the given [params]. *)
Definition entry (ps : list (string * json)) : M json :=
  http (nas env) (mkRequest GET EntryCgi ps).

(** [const parsed = Schema.safeParse(args); if (!parsed.success) throw ...] *)
Definition parse (schema : Schema) (args : json) : M (list (string * string)) :=
  match safeParse schema args with
  | inl issues => throw (Error ("Invalid arguments: " ++ zodMessage issues))
  | inr data => ret data
  end.

(** [if (!response.data.success) throw new Error(prefix + response.data.error?.code)] *)
Definition check (body : json) (prefix : string) : M unit :=
  success <- lift (Js.prop body "success") ;;
  if Js.truthy success then ret tt
  else
    code <- lift (errorCode body) ;;
    throw (Error (prefix ++ Js.toStr code)).

Definition success (s : string) : ToolResult := mkResult s false.

Definition ListFoldersArgsSchema : Schema := [("path", Required)].
Definition GetFileArgsSchema : Schema := [("path", Required)].
Definition UploadFileArgsSchema : Schema := [("path", Required); ("content", Required)].
Definition CreateFolderArgsSchema : Schema := [("path", Required); ("name", Required)].
Definition DeleteItemArgsSchema : Schema := [("path", Required)].
Definition MoveItemArgsSchema : Schema := [("source", Required); ("destination", Required)].
Definition SearchArgsSchema : Schema := [("keyword", Required); ("path", Default "/")].
Definition GetShareLinksArgsSchema : Schema := [("path", Required)].
Definition GetQuotaInfoArgsSchema : Schema := [("volume", Optional)].

(** One line of a listing: [[DIR]] or [[FILE]] and the entry's [key]. *)
Definition entryLine (key : string) (file : json) : E string :=
  bindE (Js.prop file "isdir") (fun isdir =>
  bindE (Js.prop file key) (fun name =>
  inr ((if Js.truthy isdir then "[DIR]" else "[FILE]") ++ " " ++ Js.toStr name ++ nl))).

(** [response.data.error?.errors?.[0]?.message || 'Unknown error'] *)
Definition firstMessage (body : json) : E json :=
  bindE (Js.prop body "error") (fun error =>
  bindE (Js.optProp error "errors") (fun errors =>
  bindE (Js.optIndex0 errors) (fun first =>
  bindE (Js.optProp first "message") (fun m =>
  inr (Js.or m (JStr "Unknown error")))))).

Definition list_folders (args : json) : M ToolResult :=
  parsed <- parse ListFoldersArgsSchema args ;;
  sessionId <- login ;;
  body <- entry (api3 "SYNO.FileStation.List" "2" "list" ++
                 [("folder_path", JStr (field "path" parsed)); ("_sid", sessionId)]) ;;
  ok <- lift (Js.prop body "success") ;;
  if negb (Js.truthy ok) then
    code <- lift (errorCode body) ;;
    m <- lift (firstMessage body) ;;
    throw (Error ("Error " ++ Js.toStr code ++ ": " ++ Js.toStr m))
  else
    files <- lift (prop2 body "data" "files") ;;
    items <- lift (Js.elements files "files" "forEach") ;;
    result <- lift (appendLines (entryLine "name") items
                      ("Items in " ++ field "path" parsed ++ ":" ++ nl)) ;;
    ret (success result).

Definition get_file (args : json) : M ToolResult :=
  parsed <- parse GetFileArgsSchema args ;;
  sessionId <- login ;;
  info <- entry (api3 "SYNO.FileStation.List" "2" "getinfo" ++
                 [("path", JStr (field "path" parsed)); ("_sid", sessionId)]) ;;
  ok <- lift (Js.prop info "success") ;;
  if negb (Js.truthy ok) then
    throw (Error "Error: File not found or cannot be accessed")
  else
    file <- entry (api3 "SYNO.FileStation.Download" "2" "download" ++
                   [("path", JStr (field "path" parsed)); ("mode", JStr "open");
                    ("_sid", sessionId)]) ;;
    ret (success (bodyText env file)).

(** The multipart form of the upload: the file data with its name, then
    the fields in the order they are appended. *)
Definition upload_file (args : json) : M ToolResult :=
  parsed <- parse UploadFileArgsSchema args ;;
  sessionId <- login ;;
  let p := field "path" parsed in
  let folderPath := Str.substring p 0 (Str.lastIndexOf p "/") in
  let fileName := Str.substringFrom p (Str.lastIndexOf p "/" + 1) in
  body <- http (nas env) (mkRequest POST EntryCgi
            ([("filedata", JStr (field "content" parsed)); ("filename", JStr fileName)] ++
             api3 "SYNO.FileStation.Upload" "2" "upload" ++
             [("path", JStr folderPath); ("create_parents", JStr "true");
              ("overwrite", JStr "true"); ("_sid", sessionId)])) ;;
  check body "Upload failed: " ;;
  ret (success ("Successfully uploaded file to " ++ p)).

Definition create_folder (args : json) : M ToolResult :=
  parsed <- parse CreateFolderArgsSchema args ;;
  sessionId <- login ;;
  body <- entry (api3 "SYNO.FileStation.CreateFolder" "2" "create" ++
                 [("folder_path", JStr (field "path" parsed));
                  ("name", JStr (field "name" parsed));
                  ("create_parents", JStr "true"); ("_sid", sessionId)]) ;;
  check body "Failed to create folder: " ;;
  ret (success ("Successfully created folder " ++ field "name" parsed ++
                " at " ++ field "path" parsed)).

Definition delete_item (args : json) : M ToolResult :=
  parsed <- parse DeleteItemArgsSchema args ;;
  sessionId <- login ;;
  body <- entry (api3 "SYNO.FileStation.Delete" "2" "delete" ++
                 [("path", JStr (field "path" parsed)); ("recursive", JStr "true");
                  ("_sid", sessionId)]) ;;
  check body "Failed to delete item: " ;;
  ret (success ("Successfully deleted " ++ field "path" parsed)).

Definition move_item (args : json) : M ToolResult :=
  parsed <- parse MoveItemArgsSchema args ;;
  sessionId <- login ;;
  let d := field "destination" parsed in
  let destFolder := Str.substring d 0 (Str.lastIndexOf d "/") in
  let newName := Str.substringFrom d (Str.lastIndexOf d "/" + 1) in
  body <- entry (api3 "SYNO.FileStation.Rename" "2" "rename" ++
                 [("path", JStr (field "source" parsed));
                  ("dest_folder_path", JStr destFolder); ("name", JStr newName);
                  ("_sid", sessionId)]) ;;
  check body "Failed to move/rename item: " ;;
  ret (success ("Successfully moved " ++ field "source" parsed ++ " to " ++ d)).

Definition searchRequest (method : string) (taskId sessionId : json) : Request :=
  mkRequest GET EntryCgi
    (api3 "SYNO.FileStation.Search" "2" method ++ [("taskid", taskId); ("_sid", sessionId)]).

(** The text of the search results: a header, one line per match, and a
    last line when there is none. *)
Definition searchText (keyword path : string) (files : json) : E string :=
  bindE (Js.elements files "files" "forEach") (fun items =>
  bindE (appendLines (entryLine "path") items
           ("Search results for " ++ dq ++ keyword ++ dq ++ " in " ++ path ++ ":" ++ nl))
        (fun result =>
  inr (match items with [] => result ++ "No results found." ++ nl | _ => result end))).

(** [while (!isFinished) { ... }]: one unit of fuel per round.  The wait of
    one second before each status request takes time and nothing else. *)
Fixpoint poll (fuel : nat) (taskId sessionId : json) (keyword path : string) : M string :=
  match fuel with
  | O => pending
  | S fuel' =>
      statusBody <- http (nas env) (searchRequest "status" taskId sessionId) ;;
      finished <- lift (prop2 statusBody "data" "finished") ;;
      if Js.truthy finished then
        resultBody <- http (nas env) (searchRequest "list" taskId sessionId) ;;
        ok <- lift (Js.prop resultBody "success") ;;
        result <- (if Js.truthy ok then
                     files <- lift (prop2 resultBody "data" "files") ;;
                     lift (searchText keyword path files)
                   else ret "") ;;
        http (nas env) (searchRequest "stop" taskId sessionId) ;;
        ret result
      else poll fuel' taskId sessionId keyword path
  end.

Definition search (fuel : nat) (args : json) : M ToolResult :=
  parsed <- parse SearchArgsSchema args ;;
  sessionId <- login ;;
  body <- entry (api3 "SYNO.FileStation.Search" "2" "start" ++
                 [("folder_path", JStr (field "path" parsed));
                  ("pattern", JStr (field "keyword" parsed)); ("_sid", sessionId)]) ;;
  check body "Search failed: " ;;
  taskId <- lift (prop2 body "data" "taskid") ;;
  result <- poll fuel taskId sessionId (field "keyword" parsed) (field "path" parsed) ;;
  ret (success result).

Definition linkLines (p : string) (link : json) : E string :=
  bindE (Js.prop link "path") (fun linkPath =>
  if isString linkPath p then
    bindE (Js.prop link "url") (fun url =>
    bindE (Js.prop link "expire_time") (fun expire =>
    inr ("URL: " ++ Js.toStr url ++ nl ++
         (if Js.truthy expire then "Expires: " ++ toLocaleString env expire ++ nl
          else "No expiration date" ++ nl))))
  else inr "").

Definition get_share_links (args : json) : M ToolResult :=
  parsed <- parse GetShareLinksArgsSchema args ;;
  sessionId <- login ;;
  created <- entry (api3 "SYNO.FileStation.Sharing" "3" "create" ++
                    [("path", JStr (field "path" parsed)); ("_sid", sessionId)]) ;;
  check created "Failed to create share link: " ;;
  listed <- entry (api3 "SYNO.FileStation.Sharing" "3" "list" ++ [("_sid", sessionId)]) ;;
  check listed "Failed to list share links: " ;;
  links <- lift (prop2 listed "data" "links") ;;
  items <- lift (Js.elements links "links" "forEach") ;;
  result <- lift (appendLines (linkLines (field "path" parsed)) items
                    ("Share links for " ++ field "path" parsed ++ ":" ++ nl)) ;;
  ret (success result).

Fixpoint protocolLines (l : list (string * json)) : string :=
  match l with
  | [] => ""
  | (fs, supported) :: rest =>
      "  - " ++ fs ++ ": " ++ (if Js.truthy supported then "Yes" else "No") ++ nl ++
      protocolLines rest
  end.

Definition get_server_info : M ToolResult :=
  sessionId <- login ;;
  body <- entry (api3 "SYNO.FileStation.Info" "2" "get" ++ [("_sid", sessionId)]) ;;
  check body "Failed to get server info: " ;;
  info <- lift (Js.prop body "data") ;;
  hostname <- lift (Js.prop info "hostname") ;;
  version <- lift (Js.prop info "version") ;;
  time <- lift (Js.prop info "time") ;;
  protocols <- lift (bindE (Js.prop info "support_virtual_protocol") Js.entries) ;;
  ret (success ("Synology Server Information:" ++ nl ++
                "Hostname: " ++ Js.toStr hostname ++ nl ++
                "DSM Version: " ++ Js.toStr version ++ nl ++
                "Time: " ++ toLocaleString env time ++ nl ++
                "Filesystem support:" ++ nl ++
                protocolLines protocols)).

(** [formatBytes(v)] on a value of a response. *)
Definition sizeText (v : json) : string :=
  match v with
  | JNum n => formatBytes n
  | _ => formatOther env v
  end.

Definition minus (a b : json) : json :=
  match a, b with
  | JNum x, JNum y => JNum (x - y)
  | _, _ => minusOther env a b
  end.

Definition volumeText (volume : json) : E string :=
  bindE (Js.prop volume "name") (fun name =>
  bindE (Js.prop volume "status") (fun status =>
  bindE (Js.prop volume "filesystem") (fun filesystem =>
  bindE (Js.prop volume "total_size") (fun totalSize =>
  bindE (Js.prop volume "free_size") (fun freeSize =>
  let usedSize := minus totalSize freeSize in
  inr ("Volume: " ++ Js.toStr name ++ nl ++
       "  - Status: " ++ Js.toStr status ++ nl ++
       "  - File System: " ++ Js.toStr filesystem ++ nl ++
       "  - Total Size: " ++ sizeText totalSize ++ nl ++
       "  - Used: " ++ sizeText usedSize ++ " (" ++ usedPercent env usedSize totalSize ++ "%)" ++ nl ++
       "  - Free: " ++ sizeText freeSize ++ nl)))))).

(** [!parsed.data.volume || volume.name === parsed.data.volume] guards the
    lines of a volume. *)
Definition volumeLines (wanted : option string) (volume : json) : E string :=
  match wanted with
  | None => volumeText volume
  | Some w =>
      if w =? "" then volumeText volume
      else bindE (Js.prop volume "name") (fun name =>
           if isString name w then volumeText volume else inr "")
  end.

Definition get_quota_info (args : json) : M ToolResult :=
  parsed <- parse GetQuotaInfoArgsSchema args ;;
  sessionId <- login ;;
  body <- entry (api3 "SYNO.FileStation.Volume" "1" "list" ++ [("_sid", sessionId)]) ;;
  check body "Failed to get quota info: " ;;
  volumes <- lift (prop2 body "data" "volumes") ;;
  items <- lift (Js.elements volumes "volumes" "forEach") ;;
  result <- lift (appendLines (volumeLines (optField "volume" parsed)) items
                    ("Storage Volume Information:" ++ nl)) ;;
  ret (success result).

(** The [switch (name)] of the [CallToolRequestSchema] handler. *)
Definition handle (fuel : nat) (name : string) (args : json) : M ToolResult :=
  if name =? "login" then
    sessionId <- login ;;
    ret (success ("Successfully logged in with session ID: " ++ Js.toStr sessionId))
  else if name =? "logout" then
    logout ;; ret (success "Successfully logged out")
  else if name =? "list_folders" then list_folders args
  else if name =? "get_file" then get_file args
  else if name =? "upload_file" then upload_file args
  else if name =? "create_folder" then create_folder args
  else if name =? "delete_item" then delete_item args
  else if name =? "move_item" then move_item args
  else if name =? "search" then search fuel args
  else if name =? "get_share_links" then get_share_links args
  else if name =? "get_server_info" then get_server_info
  else if name =? "get_quota_info" then get_quota_info args
  else throw (Error ("Unknown tool: " ++ name)).

(** The handler of [CallToolRequestSchema]: [request.params.name] and
    [request.params.arguments] ([JUndefined] when the request has none). *)
Definition callTool (fuel : nat) (name : string) (args : json) : M ToolResult :=
  tryCatch (handle fuel name args)
    (fun error => ret (mkResult ("Error: " ++ message error) true)).

(** The tools of the [ListToolsRequestSchema] handler, each with the
    schema of its arguments. *)
Definition tools : list (string * Schema) :=
  [("login", []); ("logout", []);
   ("list_folders", ListFoldersArgsSchema); ("get_file", GetFileArgsSchema);
   ("upload_file", UploadFileArgsSchema); ("create_folder", CreateFolderArgsSchema);
   ("delete_item", DeleteItemArgsSchema); ("move_item", MoveItemArgsSchema);
   ("search", SearchArgsSchema); ("get_share_links", GetShareLinksArgsSchema);
   ("get_server_info", []); ("get_quota_info", GetQuotaInfoArgsSchema)].

End Program.
End Index.

(** * The second variant (server name "synolink") *)

Module Part0.
Section Program.
Context (env : Env).

(** [const params = new URLSearchParams(); params.append(...)] and the URL
    templates hold every value as a string. *)
Definition str (v : json) : json := JStr (Js.toStr v).

(** [dsm.sid.substring(0, 5)] in the log line after a login. *)
Definition sidPrefix (v : json) : E string :=
  match v with
  | JStr s => inr (Str.substring s 0 5)
  | JUndefined | JNull => inl (Js.cannotRead v "substring")
  | _ => inl (Error "dsm.sid.substring is not a function")
  end.

Definition loginRequest : Request :=
  mkRequest POST AuthCgi
    (api3 "SYNO.API.Auth" "3" "login" ++
     [("account", JStr (account env)); ("passwd", JStr (passwd env));
      ("session", JStr "FileStation"); ("format", JStr "sid")]).

(** The logout goes to [entry.cgi] here. *)
Definition logoutRequest (s : json) : Request :=
  mkRequest GET EntryCgi
    (api3 "SYNO.API.Auth" "6" "logout" ++ [("session", JStr "FileStation"); ("_sid", str s)]).

Definition probeRequest (s : json) : Request :=
  mkRequest GET EntryCgi
    (api3 "SYNO.API.Info" "1" "query" ++ [("query", JStr "SYNO.API.Auth"); ("_sid", str s)]).

Definition synoLogin : M bool :=
  tryCatch
    (body <- http (nas env) loginRequest ;;
     ok <- (if Js.truthy body then lift (Js.prop body "success") else ret body) ;;
     if Js.truthy ok then
       newSid <- lift (prop2 body "data" "sid") ;;
       setSid newSid ;;
       lift (sidPrefix newSid) ;;
       ret true
     else ret false)
    (fun _ => ret false).

Definition synoLogout : M bool :=
  tryCatch
    (s <- getSid ;;
     if negb (Js.truthy s) then ret true
     else
       body <- http (nas env) (logoutRequest s) ;;
       ok <- (if Js.truthy body then lift (Js.prop body "success") else ret body) ;;
       if Js.truthy ok then setSid (JStr "") ;; ret true
       else ret false)
    (fun _ => ret false).

Definition ensureLogin : M bool :=
  s <- getSid ;;
  (if negb (Js.truthy s) then
     loginSuccess <- synoLogin ;;
     if negb loginSuccess then throw (Error "Failed to log in to Synology NAS")
     else ret tt
   else ret tt) ;;
  ret true.

(** [response.data && !response.data.success && response.data.error &&
    response.data.error.code === 119] *)
Definition sessionExpired (body : json) : E bool :=
  if negb (Js.truthy body) then inr false
  else
    bindE (Js.prop body "success") (fun ok =>
    if Js.truthy ok then inr false
    else
      bindE (Js.prop body "error") (fun error =>
      if negb (Js.truthy error) then inr false
      else
        bindE (Js.prop error "code") (fun code =>
        inr (match code with JNum n => (n =? 119)%Z | _ => false end)))).

(** The answer to the probe after which [refreshSession] logs in again:
    error 119, or no answer at all. *)
Definition needsLogin (resp : Response) : bool :=
  match resp with
  | Rejected _ => true
  | Reply body => match sessionExpired body with inr b => b | inl _ => true end
  end.

Definition refreshSession : M bool :=
  tryCatch
    (s <- getSid ;;
     body <- http (nas env) (probeRequest s) ;;
     expired <- lift (sessionExpired body) ;;
     if expired then synoLogin else ret true)
    (fun _ => synoLogin).

(** [axios.get] on [entry.cgi] with the parameters of the URL; the session
    token is read when the URL is built.  [listShares], [listDirectory],
    [readFile], [writeFile] and [getFileInfo] write the token into the URL
    as it is: the parameters are those of the URL for a token of unreserved
    characters ([urlSafe] below); a token that holds a delimiter such as
    [&] would add parameters of its own there. *)
Definition entry (verb_ : Verb) (ps : list (string * json)) : M json :=
  s <- getSid ;;
  http (nas env) (mkRequest verb_ EntryCgi (ps ++ [("_sid", str s)])).

(** [response.data && response.data.success] *)
Definition succeeded (body : json) : E bool :=
  if Js.truthy body then bindE (Js.prop body "success") (fun ok => inr (Js.truthy ok))
  else inr false.

(** [throw new Error(prefix + response.data.error.code)] *)
Definition fail {A} (body : json) (prefix : string) : M A :=
  code <- lift (prop2 body "error" "code") ;;
  throw (Error (prefix ++ Js.toStr code)).

(** [try { ... } catch (error) { console.error(...); throw error; }] *)
Definition logged {A} (m : M A) : M A := tryCatch m (fun error => throw error).

Definition listShares : M json :=
  logged
    (refreshSession ;;
     body <- entry GET (api3 "SYNO.FileStation.List" "2" "list_share") ;;
     ok <- lift (succeeded body) ;;
     if ok then lift (prop2 body "data" "shares")
     else fail body "Failed to list shares: ").

Definition listDirectory (dirPath : string) : M json :=
  logged
    (refreshSession ;;
     let formattedPath := formatSynoPath dirPath in
     body <- entry GET (api3 "SYNO.FileStation.List" "2" "list" ++
                        [("folder_path", JStr formattedPath)]) ;;
     ok <- lift (succeeded body) ;;
     if ok then lift (prop2 body "data" "files")
     else fail body "Failed to list directory: ").

Definition readFile (filePath : string) : M string :=
  logged
    (refreshSession ;;
     let formattedPath := formatSynoPath filePath in
     body <- entry GET (api3 "SYNO.FileStation.Download" "2" "download" ++
                        [("path", JStr formattedPath); ("mode", JStr "download")]) ;;
     ret (bodyText env body)).

(** The upload posts the form (destination, flags, file with its name) to
    a URL that carries the API triple and the session token. *)
Definition writeFile (filePath content : string) : M bool :=
  logged
    (refreshSession ;;
     let formattedPath := formatSynoPath (dirname env filePath) in
     let fileName := basename env filePath in
     s <- getSid ;;
     body <- http (nas env) (mkRequest POST EntryCgi
               (api3 "SYNO.FileStation.Upload" "2" "upload" ++
                [("_sid", str s); ("path", JStr formattedPath);
                 ("create_parents", JStr "true"); ("overwrite", JStr "true");
                 ("file", JStr content); ("filename", JStr fileName)])) ;;
     ok <- lift (succeeded body) ;;
     if ok then ret true
     else fail body "Failed to write file: ").

Definition createDirectory (dirPath : string) : M bool :=
  logged
    (refreshSession ;;
     let formattedPath := formatSynoPath dirPath in
     let parentPath := dirname env formattedPath in
     let folderName := basename env formattedPath in
     body <- entry POST (api3 "SYNO.FileStation.CreateFolder" "2" "create" ++
                         [("folder_path", JStr parentPath); ("name", JStr folderName);
                          ("create_parents", JStr "true")]) ;;
     ok <- lift (succeeded body) ;;
     if ok then ret true
     else fail body "Failed to create directory: ").

Definition searchRequest (verb_ : Verb) (method : string) (taskId s : json) : Request :=
  mkRequest verb_ EntryCgi
    ((api3 "SYNO.FileStation.Search" "2" method ++ [("taskid", str taskId)]) ++
     [("_sid", str s)]).

Definition searchCall (verb_ : Verb) (method : string) (taskId : json) : M json :=
  entry verb_ (api3 "SYNO.FileStation.Search" "2" method ++ [("taskid", str taskId)]).

(** [while (!isFinished) { ... }]: one unit of fuel per round.  The wait of
    half a second between two status requests takes time and nothing else. *)
Fixpoint waitFinished (fuel : nat) (taskId : json) : M unit :=
  match fuel with
  | O => pending
  | S fuel' =>
      status <- searchCall GET "status" taskId ;;
      ok <- lift (Js.prop status "success") ;;
      if negb (Js.truthy ok) then fail status "Search status check failed: "
      else
        isFinished <- lift (prop2 status "data" "finished") ;;
        if Js.truthy isFinished then ret tt
        else waitFinished fuel' taskId
  end.

(** [searchFiles] once the task is started: wait for the search to
    complete, get the results, clean up the task. *)
Definition finishSearch (fuel : nat) (taskId : json) : M json :=
  waitFinished fuel taskId ;;
  resultBody <- searchCall GET "list" taskId ;;
  ok <- lift (succeeded resultBody) ;;
  if negb ok then fail resultBody "Failed to get search results: "
  else
    searchCall POST "stop" taskId ;;
    lift (prop2 resultBody "data" "files").

Definition searchFiles (fuel : nat) (searchPath pattern : string) : M json :=
  logged
    (refreshSession ;;
     let formattedPath := formatSynoPath searchPath in
     startBody <- entry POST (api3 "SYNO.FileStation.Search" "2" "start" ++
                              [("folder_path", JStr formattedPath); ("pattern", JStr pattern)]) ;;
     started <- lift (succeeded startBody) ;;
     if negb started then fail startBody "Failed to start search: "
     else
       taskId <- lift (prop2 startBody "data" "taskid") ;;
       finishSearch fuel taskId).

Definition getFileInfo (filePath : string) : M json :=
  logged
    (refreshSession ;;
     let formattedPath := formatSynoPath filePath in
     s <- getSid ;;
     body <- http (nas env) (mkRequest GET EntryCgi
               (api3 "SYNO.FileStation.List" "2" "getinfo" ++
                [("path", JStr formattedPath); ("additional", JStr "time,size,owner,perm");
                 ("_sid", str s)])) ;;
     ok <- lift (succeeded body) ;;
     if ok then lift (bindE (prop2 body "data" "files") Js.index0)
     else fail body "Failed to get file info: ").

Definition ListDirectoryArgsSchema : Schema := [("path", Required)].
Definition ReadFileArgsSchema : Schema := [("path", Required)].
Definition WriteFileArgsSchema : Schema := [("path", Required); ("content", Required)].
Definition CreateDirectoryArgsSchema : Schema := [("path", Required)].
Definition SearchFilesArgsSchema : Schema := [("path", Required); ("pattern", Required)].
Definition GetFileInfoArgsSchema : Schema := [("path", Required)].

(** [const parsed = Schema.safeParse(args); if (!parsed.success) throw ...] *)
Definition parse (tool : string) (schema : Schema) (args : json) : M (list (string * string)) :=
  match safeParse schema args with
  | inl issues =>
      throw (Error ("Invalid arguments for " ++ tool ++ ": " ++ zodMessage issues))
  | inr data => ret data
  end.

Definition success (s : string) : ToolResult := mkResult s false.

Definition kindOf (isdir : json) : json :=
  JStr (if Js.truthy isdir then "directory" else "file").

Definition shareShape (share : json) : E json :=
  bindE (Js.prop share "name") (fun name =>
  bindE (Js.prop share "path") (fun p =>
  bindE (Js.prop share "desc") (fun desc =>
  inr (JObj [("name", name); ("path", p); ("description", desc)])))).

Definition entryShape (file : json) : E json :=
  bindE (Js.prop file "name") (fun name =>
  bindE (Js.prop file "isdir") (fun isdir =>
  bindE (Js.prop file "size") (fun size =>
  bindE (prop2 file "time" "mtime") (fun mtime =>
  inr (JObj [("name", name); ("type", kindOf isdir); ("size", size);
             ("modified", mtime)]))))).

Definition matchShape (file : json) : E json :=
  bindE (Js.prop file "name") (fun name =>
  bindE (Js.prop file "path") (fun p =>
  bindE (Js.prop file "isdir") (fun isdir =>
  bindE (Js.prop file "size") (fun size =>
  inr (JObj [("name", name); ("path", p); ("type", kindOf isdir); ("size", size)]))))).

(** [info.additional?.a?.b || "unknown"] *)
Definition additional (info : json) (a b : string) : E json :=
  bindE (Js.prop info "additional") (fun x =>
  bindE (Js.optProp x a) (fun y =>
  bindE (Js.optProp y b) (fun z =>
  inr (Js.or z (JStr "unknown"))))).

Definition infoShape (info : json) : E json :=
  bindE (Js.prop info "name") (fun name =>
  bindE (Js.prop info "path") (fun p =>
  bindE (Js.prop info "isdir") (fun isdir =>
  bindE (Js.prop info "size") (fun size =>
  bindE (additional info "owner" "user") (fun owner =>
  bindE (additional info "owner" "group") (fun group =>
  bindE (additional info "perm" "posix") (fun permissions =>
  bindE (additional info "time" "crtime") (fun created =>
  bindE (additional info "time" "mtime") (fun modified =>
  bindE (additional info "time" "atime") (fun accessed =>
  inr (JObj [("name", name); ("path", p); ("type", kindOf isdir); ("size", size);
             ("owner", owner); ("group", group); ("permissions", permissions);
             ("created", created); ("modified", modified);
             ("accessed", accessed)]))))))))))).

(** [JSON.stringify(items.map(shape), null, 2)] as the text of a result. *)
Definition shaped (name : string) (shape : json -> E json) (v : json) : M ToolResult :=
  items <- lift (Js.elements v name "map") ;;
  formatted <- lift (mapE shape items) ;;
  ret (success (stringify env (JArr formatted))).

(** The [switch (name)] of the [CallToolRequestSchema] handler. *)
Definition handle (fuel : nat) (name : string) (args : json) : M ToolResult :=
  if name =? "list_shares" then
    shares <- listShares ;;
    shaped "shares" shareShape shares
  else if name =? "list_directory" then
    parsed <- parse "list_directory" ListDirectoryArgsSchema args ;;
    files <- listDirectory (field "path" parsed) ;;
    shaped "files" entryShape files
  else if name =? "read_file" then
    parsed <- parse "read_file" ReadFileArgsSchema args ;;
    content <- readFile (field "path" parsed) ;;
    ret (success content)
  else if name =? "write_file" then
    parsed <- parse "write_file" WriteFileArgsSchema args ;;
    writeFile (field "path" parsed) (field "content" parsed) ;;
    ret (success ("Successfully wrote to " ++ field "path" parsed))
  else if name =? "create_directory" then
    parsed <- parse "create_directory" CreateDirectoryArgsSchema args ;;
    createDirectory (field "path" parsed) ;;
    ret (success ("Successfully created directory " ++ field "path" parsed))
  else if name =? "search_files" then
    parsed <- parse "search_files" SearchFilesArgsSchema args ;;
    results <- searchFiles fuel (field "path" parsed) (field "pattern" parsed) ;;
    shaped "results" matchShape results
  else if name =? "get_file_info" then
    parsed <- parse "get_file_info" GetFileInfoArgsSchema args ;;
    info <- getFileInfo (field "path" parsed) ;;
    formatted <- lift (infoShape info) ;;
    ret (success (stringify env formatted))
  else throw (Error ("Unknown tool: " ++ name)).

(** The handler of [CallToolRequestSchema]: [request.params.name] and
    [request.params.arguments] ([JUndefined] when the request has none). *)
Definition callTool (fuel : nat) (name : string) (args : json) : M ToolResult :=
  tryCatch (handle fuel name args)
    (fun error => ret (mkResult ("Error: " ++ message error) true)).

(** The tools of the [ListToolsRequestSchema] handler, each with the
    schema of its arguments. *)
Definition tools : list (string * Schema) :=
  [("list_shares", []);
   ("list_directory", ListDirectoryArgsSchema); ("read_file", ReadFileArgsSchema);
   ("write_file", WriteFileArgsSchema); ("create_directory", CreateDirectoryArgsSchema);
   ("search_files", SearchFilesArgsSchema); ("get_file_info", GetFileInfoArgsSchema)].

End Program.
End Part0.

(** * The search protocol on a log *)

(** ** What a response says *)

(** The response is a body whose [success] is set. *)
Definition isSuccess (resp : Response) : bool :=
  match resp with
  | Reply data =>
      match Js.prop data "success" with
      | inr ok => Js.truthy ok
      | inl _ => false
      end
  | Rejected _ => false
  end.

(** The response grants a session: a success body whose [data.sid] is a
    string that is not empty.  This is what the NAS answers to a login
    request with valid credentials. *)
Definition grantsSid (resp : Response) : bool :=
  isSuccess resp &&
  match resp with
  | Reply data =>
      match Js.prop data "data" with
      | inr d => match Js.prop d "sid" with
                 | inr (JStr s) => negb (s =? "")
                 | _ => false
                 end
      | inl _ => false
      end
  | Rejected _ => false
  end.

(** The response to a status request reports the task finished: the
    [finished] flag of its [data] is set. *)
Definition reportsFinished (resp : Response) : bool :=
  match resp with
  | Reply body =>
      match Js.prop body "data" with
      | inr d => match Js.prop d "finished" with
                 | inr f => Js.truthy f
                 | inl _ => false
                 end
      | inl _ => false
      end
  | Rejected _ => false
  end.

(** The response starts a search task: a success body whose [data]
    holds a [taskid]. *)
Definition startsTask (resp : Response) : bool :=
  isSuccess resp &&
  match resp with
  | Reply body =>
      match Js.prop body "data" with
      | inr d => match Js.prop d "taskid" with inr _ => true | inl _ => false end
      | inl _ => false
      end
  | Rejected _ => false
  end.

(** What a status response says: a success body whose [data] tells
    whether the task is finished; [None] for any other response. *)
Definition statusAnswer (resp : Response) : option bool :=
  match resp with
  | Reply body =>
      if isSuccess resp then
        match Js.prop body "data" with
        | inr d => match Js.prop d "finished" with
                   | inr f => Some (Js.truthy f)
                   | inl _ => None
                   end
        | inl _ => None
        end
      else None
  | Rejected _ => None
  end.

Definition isObject (v : json) : bool :=
  match v with JObj _ => true | _ => false end.

(** The response lists the matches: a success body whose [data.files] is
    an array of objects. *)
Definition listsFiles (resp : Response) : bool :=
  isSuccess resp &&
  match resp with
  | Reply body =>
      match Js.prop body "data" with
      | inr d => match Js.prop d "files" with
                 | inr (JArr items) => forallb isObject items
                 | _ => false
                 end
      | inl _ => false
      end
  | Rejected _ => false
  end.

(** ** What a log shows *)

(** The ordering of the search protocol, checked along a log: a list
    request comes only once a status response has reported the task
    finished ([fin]), a stop request only after a list request ([lst]) and
    only once ([stp]). *)
Fixpoint ordered (fin lst stp : bool) (t : list Exchange) : bool :=
  match t with
  | [] => true
  | (req, resp) :: rest =>
      if isList req then fin && ordered fin true stp rest
      else if isStop req then lst && negb stp && ordered fin lst true rest
      else if isStatus req then ordered (fin || reportsFinished resp) lst stp rest
      else ordered fin lst stp rest
  end.

(** The request is a status, list or stop request of the search protocol:
    one of those that name a task. *)
Definition namesTask (req : Request) : bool := isStatus req || isList req || isStop req.

(** A status exchange for [req] that does not report the task finished. *)
Definition unfinished (req : Request) (ex : Exchange) : Prop :=
  fst ex = req /\ reportsFinished (snd ex) = false.

(** How the exchanges of a search end after the unfinished polls: nothing
    more when the loop is still waiting; a status request that failed; a
    finished status and a list request that failed; or a finished status,
    the list request and the stop request. *)
Definition PollTail (statusReq listReq stopReq : Request) (k : Kind)
  (tail : list Exchange) : Prop :=
  (tail = [] /\ k = Waiting) \/
  (exists r1, tail = [(statusReq, r1)] /\ k = Raised) \/
  (exists r1 r2, tail = [(statusReq, r1); (listReq, r2)] /\
                 reportsFinished r1 = true /\ k = Raised) \/
  (exists r1 r2 r3, tail = [(statusReq, r1); (listReq, r2); (stopReq, r3)] /\
                    reportsFinished r1 = true /\ k <> Waiting).

Definition PollRun (statusReq listReq stopReq : Request) (fuel : nat)
  {A} (st : State) (r : Result A) : Prop :=
  exists polls tail,
    log (stateOf r) = (log st ++ polls ++ tail)%list /\
    Forall (unfinished statusReq) polls /\
    PollTail statusReq listReq stopReq (kind r) tail /\
    (kind r = Waiting -> length polls = fuel) /\
    sid (stateOf r) = sid st.

(** The requests of the session functions of the second variant. *)
Definition isSession (req : Request) : bool := isProbe req || isLogin req.

(** Every stop request in [t] comes after a list request for the same task. *)
Definition StopAfterList (t : list Exchange) : Prop :=
  forall t1 ex t2, t = (t1 ++ ex :: t2)%list -> isStop (fst ex) = true ->
    exists ex', In ex' t1 /\ isList (fst ex') = true /\
                param "taskid" (fst ex') = param "taskid" (fst ex).

(** There is at most one stop request in [t]. *)
Definition StopOnce (t : list Exchange) : Prop := (count isStop t <= 1)%nat.

(** Every list request in [t] comes after a status response for the same
    task that reports it finished. *)
Definition ListAfterFinished (t : list Exchange) : Prop :=
  forall t1 ex t2, t = (t1 ++ ex :: t2)%list -> isList (fst ex) = true ->
    exists ex', In ex' t1 /\ isStatus (fst ex') = true /\
                reportsFinished (snd ex') = true /\
                param "taskid" (fst ex') = param "taskid" (fst ex).

(** [t] holds a start request answered with a task and ends with the one
    stop request, which names that task. *)
Definition StartedAndStopped (idOf : json -> json) (t : list Exchange) : Prop :=
  exists t1 startReq body taskId t2 stopReq resp,
    t = (t1 ++ (startReq, Reply body) :: t2 ++ [(stopReq, resp)])%list /\
    isStart startReq = true /\ prop2 body "data" "taskid" = inr taskId /\
    isStop stopReq = true /\ param "taskid" stopReq = idOf taskId /\
    count isStop t = 1%nat.

(** The exchanges of one search invocation.  First those of the session
    ([isPre]); then nothing more when the invocation fails before the start
    request; or the start request alone when it fails or names no task; or
    the start request answered with a task, the unfinished polls and their
    end, all naming that task ([idOf] is how the program writes the task
    identifier in a request). *)
Definition SearchTrace (isPre : Request -> bool) (idOf : json -> json) (fuel : nat)
  (k : Kind) (t : list Exchange) : Prop :=
  exists pre,
    Forall (fun ex => isPre (fst ex) = true) pre /\
    ((t = pre /\ k = Raised) \/
     (exists startReq startResp,
        isStart startReq = true /\ t = (pre ++ [(startReq, startResp)])%list /\ k = Raised) \/
     (exists startReq body taskId statusReq listReq stopReq polls tail,
        isStart startReq = true /\ isSuccess (Reply body) = true /\
        prop2 body "data" "taskid" = inr taskId /\
        (isStatus statusReq = true /\ isList listReq = true /\ isStop stopReq = true) /\
        (param "taskid" statusReq = idOf taskId /\ param "taskid" listReq = idOf taskId /\
         param "taskid" stopReq = idOf taskId) /\
        t = (pre ++ (startReq, Reply body) :: polls ++ tail)%list /\
        Forall (unfinished statusReq) polls /\
        PollTail statusReq listReq stopReq k tail /\
        (k = Waiting -> length polls = fuel))).

(** The polling loop has gone [fuel] rounds from [st] to [st'] and is
    still waiting: [fuel] status requests, none answered with a finished
    task. *)
Definition StillPolling (fuel : nat) (st st' : State) : Prop :=
  exists t, log st' = (log st ++ t)%list /\ count isStatus t = fuel /\
            forall ex, In ex t -> isStatus (fst ex) = true -> reportsFinished (snd ex) = false.

(** [m] ends, whatever the state and the NAS: it returns a value that
    satisfies [P], or throws. *)
Definition Ends {A} (P : A -> Prop) (m : M A) : Prop :=
  forall st,
    match m st with
    | Ok a _ => P a
    | Thrown _ _ => True
    | Pending _ => False
    end.

(** From a state that satisfies [Q], [m] only sends requests that
    satisfy [P], and leaves a state that satisfies [Q]. *)
Definition Sends (Q : State -> Prop) (P : Request -> bool) {A} (m : M A) : Prop :=
  forall st, Q st ->
    exists t, log (stateOf (m st)) = (log st ++ t)%list /\
              Forall (fun ex => P (fst ex) = true) t /\
              Q (stateOf (m st)).

(** [m] does not touch the state: it sends nothing. *)
Definition Silent {A} (m : M A) : Prop := forall st, stateOf (m st) = st.

Definition notLogin (req : Request) : bool := negb (isLogin req).

(** A session token is cached. *)
Definition cached (st : State) : Prop := Js.truthy (sid st) = true.

(** The response is an error envelope with code 119, the session timeout:
    the test of [refreshSession]. *)
Definition timedOut (resp : Response) : bool :=
  match resp with
  | Reply body => match Part0.sessionExpired body with inr b => b | inl _ => false end
  | Rejected _ => false
  end.

(** The exchanges of one authentication cycle of the second variant, from
    the state [st]: the probe, one login request when the probe asks for
    it, and then requests that are no login. *)
Definition Cycle (env : Env) (st : State) (t : list Exchange) : Prop :=
  t = [] \/
  let probe := Part0.probeRequest (sid st) in
  let r0 := nas env (log st) probe in
  let h := (log st ++ [(probe, r0)])%list in
  exists rest,
    t = ((probe, r0) ::
         (if Part0.needsLogin r0
          then [(Part0.loginRequest env, nas env h (Part0.loginRequest env))]
          else []) ++ rest)%list /\
    Forall (fun ex => notLogin (fst ex) = true) rest.

Definition OneCycle (env : Env) {A} (m : M A) : Prop :=
  forall st, exists t, log (stateOf (m st)) = (log st ++ t)%list /\ Cycle env st t.

(** The scenario of the three polls, from the state [st]: the NAS grants
    the session to a login request, starts a task on a start request,
    answers the first two status requests of the invocation with an
    unfinished task and the third with a finished one, and answers a list
    request with the matches. *)
Definition ThirdPollFinishes (env : Env) (st : State) : Prop :=
  (forall h req, isLogin req = true -> grantsSid (nas env h req) = true) /\
  (forall h req, isStart req = true -> startsTask (nas env h req) = true) /\
  (forall t req, isStatus req = true ->
     statusAnswer (nas env (log st ++ t)%list req) = Some (2 <=? count isStatus t)%nat) /\
  (forall h req, isList req = true -> listsFiles (nas env h req) = true).

(** * A NAS and an environment to run the programs on *)

Definition obj (fields : list (string * json)) : json := JObj fields.

(** The library functions of [Env], fixed to simple printers. *)
Definition labEnv (remote : Remote) : Env :=
  mkEnv remote "admin" "secret"
    (fun v => Js.toStr v) (fun v => Js.toStr v) (fun _ _ => "0")
    (fun _ => "NaN undefined") (fun _ _ => JUndefined)
    (fun v => Js.toStr v) (fun s => s) (fun s => s).

(** A NAS on which nothing goes through. *)
Definition deadNas : Remote := fun _ _ => Rejected "connect ECONNREFUSED".

(** A NAS that answers every request with the same body. *)
Definition constNas (body : json) : Remote := fun _ _ => Reply body.

Definition okBody (data : list (string * json)) : json :=
  obj [("success", JBool true); ("data", obj data)].

Definition errorBody (code : Z) : json :=
  obj [("success", JBool false); ("error", obj [("code", JNum code)])].

(** A NAS that never reports a search finished. *)
Definition busyNas : Remote :=
  fun h req =>
    if isLogin req then Reply (okBody [("sid", JStr "s3cr3t")])
    else if isStart req then Reply (okBody [("taskid", JStr "task-1")])
    else if isStatus req then Reply (okBody [("finished", JBool false)])
    else Reply (okBody []).

(** A NAS in working order: it grants a session, starts a search task,
    reports it finished from the third status request on, lists one match
    and accepts everything else. *)
Definition healthyNas : Remote :=
  fun h req =>
    if isLogin req then Reply (okBody [("sid", JStr "s3cr3t")])
    else if isStart req then Reply (okBody [("taskid", JStr "task-1")])
    else if isStatus req then
      Reply (okBody [("finished", JBool (2 <=? count isStatus h)%nat)])
    else if isList req then
      Reply (okBody [("files", JArr [obj [("name", JStr "a.txt"); ("path", JStr "/photos/a.txt");
                                          ("isdir", JBool false); ("size", JNum 3)]])])
    else Reply (okBody []).

(** The working NAS, except that status requests are rejected. *)
Definition statusDownNas : Remote :=
  fun h req => if isStatus req then Rejected "socket hang up" else healthyNas h req.

(** The working NAS, except that list requests are answered with an error. *)
Definition listErrorNas : Remote :=
  fun h req => if isList req then Reply (errorBody 401) else healthyNas h req.

(** A NAS whose session has timed out: every request to [entry.cgi] that
    is not the probe is answered with error 119. *)
Definition expiredNas : Remote :=
  fun h req =>
    if isLogin req then Reply (okBody [("sid", JStr "s3cr3t")])
    else if isProbe req then Reply (okBody [])
    else Reply (errorBody 119).

Definition searchArgs : json := obj [("keyword", JStr "report"); ("path", JStr "/photos")].

Definition searchFilesArgs : json := obj [("path", JStr "/photos"); ("pattern", JStr "report")].

Definition fresh : State := mkState JNull [].

Definition freshPart0 : State := mkState (JStr "") [].

(** * More of the two programs *)

(** ** Line endings (second variant) *)

Definition cr : ascii := ascii_of_nat 13.
Definition lf : ascii := ascii_of_nat 10.

(** The two characters of a Windows line ending. *)
Definition crlf : string := String cr (String lf "").

(** [normalizeLineEndings]: [text.replace(/\r\n/g, '\n')].  The matches
    are found from left to right and do not overlap: a carriage return
    that is followed by a line feed is dropped, every other character is
    kept. *)
Fixpoint normalizeLineEndings (text : string) : string :=
  match text with
  | EmptyString => EmptyString
  | String c rest =>
      match rest with
      | String d rest' =>
          if Ascii.eqb c cr && Ascii.eqb d lf
          then String lf (normalizeLineEndings rest')
          else String c (normalizeLineEndings rest)
      | EmptyString => String c EmptyString
      end
  end.

(** ** Folder and name of a path ([src/index.ts])

    [upload_file] and [move_item] cut a path at its last slash:
    [p.substring(0, p.lastIndexOf('/'))] is the folder and
    [p.substring(p.lastIndexOf('/') + 1)] the name. *)

Definition folderOf (p : string) : string :=
  Str.substring p 0 (Str.lastIndexOf p "/").

Definition nameOf (p : string) : string :=
  Str.substringFrom p (Str.lastIndexOf p "/" + 1).

(** ** More of what a response says *)

(** The files of a response: a success body whose [data.files] is an
    array gives its items. *)
Definition listedFiles (resp : Response) : option (list json) :=
  match resp with
  | Reply body =>
      if isSuccess resp then
        match prop2 body "data" "files" with
        | inr (JArr items) => Some items
        | _ => None
        end
      else None
  | Rejected _ => None
  end.

(** The response is a body that says it failed: its [success] can be
    read and is not set. *)
Definition isFailure (resp : Response) : bool :=
  match resp with
  | Reply body =>
      match Js.prop body "success" with
      | inr ok => negb (Js.truthy ok)
      | inl _ => false
      end
  | Rejected _ => false
  end.

(** The response is a body, whatever it says. *)
Definition isAnswer (resp : Response) : bool :=
  match resp with Reply _ => true | Rejected _ => false end.

(** ** More of the lab *)

(** A NAS that answers every request with a folder and a file. *)
Definition folderNas : Remote :=
  constNas (okBody [("files", JArr [obj [("name", JStr "2024"); ("isdir", JBool true)];
                                    obj [("name", JStr "a.txt"); ("isdir", JBool false)]])]).

(** ** Paths in requests *)

(** A parameter that is absent, or a string that starts with a slash. *)
Definition startsSlash (v : json) : bool :=
  match v with
  | JUndefined => true
  | JStr s => Str.startsWith s "/"
  | _ => false
  end.

(** The request names no folder and no path, or ones that start with a
    slash. *)
Definition slashed (req : Request) : bool :=
  startsSlash (param "folder_path" req) && startsSlash (param "path" req).

(** A NAS on which a search finishes at once and then fails to list its
    matches. *)
Definition listDownNas : Remote :=
  fun h req =>
    if isList req then Reply (errorBody 401)
    else Reply (okBody [("taskid", JStr "task-1"); ("finished", JBool true)]).

(** ** Logins of a call *)

(** Whatever the state, [m] sends at most one login request. *)
Definition LogsInOnce {A} (m : M A) : Prop :=
  forall st, exists t,
    log (stateOf (m st)) = (log st ++ t)%list /\ (count isLogin t <= 1)%nat.

(** * Start and end of the process (second variant) *)

(** How the process goes on: it serves requests, or it ends with
    [process.exit(code)]. *)
Inductive Outcome : Type := Serving | Exit (code : Z).

Module Startup.
Section Program.
Context (env : Env).

(** [runServer]: log in, then connect the server to its transport.
    [connect] stands for [server.connect(transport)], which returns or
    throws. *)
Definition runServer (connect : E unit) : M Outcome :=
  tryCatch
    (loginSuccess <- Part0.synoLogin env ;;
     if negb loginSuccess then ret (Exit 1)
     else lift connect ;; ret Serving)%M
    (fun _ => Part0.synoLogout env ;; ret (Exit 1))%M.

(** The handlers of [SIGINT] and [SIGTERM]. *)
Definition onSignal : M Outcome := (Part0.synoLogout env ;; ret (Exit 0))%M.

End Program.
End Startup.

(** ** Session tokens in URLs *)

(** The unreserved characters of a URL: letters, digits, [-], [.], [_]
    and [~].  In a query string they stand for themselves. *)
Definition unreserved (c : ascii) : bool :=
  let n := nat_of_ascii c in
  ((48 <=? n) && (n <=? 57) || (65 <=? n) && (n <=? 90) || (97 <=? n) && (n <=? 122) ||
   (n =? 45) || (n =? 46) || (n =? 95) || (n =? 126))%nat.

Fixpoint urlSafe (s : string) : bool :=
  match s with
  | EmptyString => true
  | String c rest => unreserved c && urlSafe rest
  end.

(** The request carries no token, or one of unreserved characters. *)
Definition tokenParam (req : Request) : bool :=
  match param "_sid" req with
  | JUndefined => true
  | JStr s => urlSafe s
  | _ => false
  end.

(** The paths and the token of the request are as above. *)
Definition wellAddressed (req : Request) : bool := slashed req && tokenParam req.

(** A token that is a string of unreserved characters. *)
Definition safeToken (v : json) : bool :=
  match v with
  | JStr s => urlSafe s
  | _ => false
  end.

(** The cached token is such a string. *)
Definition safeSession (st : State) : Prop := safeToken (sid st) = true.

(** Every token the NAS hands out in answer to a login is such a
    string. *)
Definition GrantsSafeTokens (env : Env) : Prop :=
  forall h body v,
    nas env h (Part0.loginRequest env) = Reply body ->
    prop2 body "data" "sid" = inr v ->
    safeToken v = true.

(** * Facts about strings *)

Module StrFacts.
Import Str.

Lemma prefix_refl s : String.prefix s s = true.
Proof. induction s as [|c s IH]; simpl; [reflexivity|]. now destruct (ascii_dec c c). Qed.

Lemma prefix_app s t : String.prefix s (s ++ t) = true.
Proof.
  induction s as [|c s IH]; simpl; [now destruct t|].
  now destruct (ascii_dec c c).
Qed.

Lemma includes_here s t : includes (s ++ t) s = true.
Proof.
  destruct s as [|c s].
  - now destruct t.
  - pose proof (prefix_app (String c s) t) as H.
    simpl in *. now rewrite H.
Qed.

Lemma includes_app_l a t s : includes t s = true -> includes (a ++ t) s = true.
Proof.
  intros H. induction a as [|c a IH]; [exact H|].
  change (String c a ++ t) with (String c (a ++ t)).
  cbn [includes]. rewrite IH. now destruct (String.prefix s _).
Qed.

(** An occurrence of [s] between any two strings is found. *)
Lemma includes_mid a s b : includes (a ++ s ++ b) s = true.
Proof. apply includes_app_l, includes_here. Qed.

Lemma endsWith_cons d s suf :
  endsWith s suf = true -> endsWith (String d s) suf = true.
Proof. intros H. cbn [endsWith]. rewrite H. now destruct (String.eqb _ _). Qed.

Lemma endsWith_app q c : endsWith (q ++ String c "") (String c "") = true.
Proof.
  induction q as [|d q IH].
  - simpl. now rewrite Ascii.eqb_refl.
  - apply endsWith_cons, IH.
Qed.

Lemma endsWith_inv s c :
  endsWith s (String c "") = true -> exists q, s = q ++ String c "".
Proof.
  induction s as [|d s IH]; [discriminate|].
  cbn [endsWith]. destruct (String.eqb (String d s) (String c "")) eqn:E.
  - intros _. apply String.eqb_eq in E. exists "". exact E.
  - intros H. destruct (IH H) as [q ->]. now exists (String d q).
Qed.

Lemma dropLast_app q c : dropLast (q ++ String c "") = q.
Proof.
  induction q as [|d q IH]; simpl; [reflexivity|].
  rewrite IH. now destruct q.
Qed.

Lemma endsWith_refl s : endsWith s s = true.
Proof. destruct s; cbn [endsWith]; now rewrite String.eqb_refl. Qed.

Lemma endsWith_suffix a suf : endsWith (a ++ suf) suf = true.
Proof.
  induction a as [|d a IH].
  - apply endsWith_refl.
  - apply endsWith_cons, IH.
Qed.

Lemma startsWith_slash_cons c s :
  startsWith (String c s) "/" = true -> c = "/"%char.
Proof.
  unfold startsWith. cbn [String.prefix].
  destruct (ascii_dec "/" c) as [<-|]; [reflexivity|intros H; discriminate H].
Qed.

Lemma startsWith_slash s : startsWith (String "/" s) "/" = true.
Proof.
  unfold startsWith. cbn [String.prefix].
  destruct (ascii_dec "/" "/"); [now destruct s|congruence].
Qed.

Lemma app_assoc_str (a b c : string) : (a ++ b) ++ c = a ++ b ++ c.
Proof. induction a as [|d a IH]; simpl; [reflexivity|now rewrite IH]. Qed.

End StrFacts.

(** * The path and size helpers *)

Section FormatSynoPath.
Import Str StrFacts.

(** A path that already starts with a slash and does not end with one,
    or is the root, is left as it is. *)
Lemma formatSynoPath_fixed q :
  startsWith q "/" = true ->
  (q = "/" \/ endsWith q "/" = false) ->
  formatSynoPath q = q.
Proof.
  intros Hs Hq. unfold formatSynoPath. rewrite Hs. cbn [negb].
  destruct Hq as [-> | He]; [reflexivity|].
  rewrite He. now rewrite andb_false_r.
Qed.

(** The second step of [formatSynoPath], on a path that starts with a slash
    and does not end with two. *)
Lemma strip_one q :
  startsWith q "/" = true ->
  endsWith q "//" = false ->
  let r := if negb (q =? "/") && endsWith q "/" then dropLast q else q in
  startsWith r "/" = true /\ (r = "/" \/ endsWith r "/" = false).
Proof.
  intros Hs H2. cbn zeta.
  destruct (q =? "/") eqn:Eroot; cbn [negb andb].
  - apply String.eqb_eq in Eroot. subst. auto.
  - destruct (endsWith q "/") eqn:Ee; [|auto].
    destruct (endsWith_inv _ _ Ee) as [q0 ->].
    rewrite dropLast_app.
    destruct q0 as [|c q0].
    + simpl in Eroot. discriminate.
    + split.
      * apply startsWith_slash_cons in Hs. subst c. apply startsWith_slash.
      * right. destruct (endsWith (String c q0) "/") eqn:E0; [|reflexivity].
        destruct (endsWith_inv _ _ E0) as [q1 E1]. rewrite E1 in H2.
        rewrite app_assoc_str in H2.
        change ("/" ++ "/") with "//" in H2.
        now rewrite endsWith_suffix in H2.
Qed.

(** The first step of [formatSynoPath] gives a path that starts with a
    slash, and adds no second trailing slash. *)
Lemma lead_slash p :
  endsWith p "//" = false ->
  let q := if negb (startsWith p "/") then "/" ++ p else p in
  startsWith q "/" = true /\ endsWith q "//" = false.
Proof.
  intros H2. cbn zeta. destruct (startsWith p "/") eqn:Hs; cbn [negb]; [auto|].
  change ("/" ++ p) with (String "/" p).
  split; [apply startsWith_slash|]. cbn [endsWith]. rewrite H2.
  destruct (String.eqb (String "/" p) "//") eqn:E; [|reflexivity].
  apply String.eqb_eq in E. injection E as ->. discriminate.
Qed.

(** Whatever the path, the result starts with a slash. *)
Lemma formatSynoPath_slash (p : string) : startsWith (formatSynoPath p) "/" = true.
Proof.
  unfold formatSynoPath.
  set (q := if negb (startsWith p "/") then "/" ++ p else p).
  assert (Hq : startsWith q "/" = true).
  { subst q. destruct (startsWith p "/") eqn:Hs; cbn [negb]; [exact Hs|].
    apply startsWith_slash. }
  destruct (negb (q =? "/") && endsWith q "/") eqn:Hc; [|exact Hq].
  apply andb_prop in Hc as [Hroot He]. clearbody q.
  destruct q as [|c q]; [discriminate|].
  apply startsWith_slash_cons in Hq. subst c.
  destruct q as [|d q]; [discriminate|].
  change (dropLast (String "/" (String d q))) with (String "/" (dropLast (String d q))).
  apply startsWith_slash.
Qed.

(** A slash behind a path that starts with one is taken away again. *)
Lemma formatSynoPath_strip (p : string) :
  startsWith p "/" = true -> formatSynoPath (p ++ "/") = p.
Proof.
  intros Hs. destruct p as [|c p]; [discriminate|].
  apply startsWith_slash_cons in Hs. subst c.
  unfold formatSynoPath.
  change (String "/" p ++ "/") with (String "/" (p ++ "/")).
  rewrite startsWith_slash. cbn [negb].
  assert (Hn : (String "/" (p ++ "/") =? "/") = false).
  { apply String.eqb_neq. intros [= H]. destruct p; discriminate. }
  rewrite Hn. cbn [negb andb].
  change (String "/" (p ++ "/")) with (String "/" p ++ "/").
  now rewrite endsWith_app, dropLast_app.
Qed.

Lemma endsWith_split s suf : endsWith s suf = true -> exists q, s = q ++ suf.
Proof.
  induction s as [|d s IH]; cbn [endsWith].
  - destruct (String.eqb "" suf) eqn:E; [|discriminate].
    apply String.eqb_eq in E. subst. now exists "".
  - destruct (String.eqb (String d s) suf) eqn:E.
    + intros _. apply String.eqb_eq in E. exists "". exact E.
    + intros H. destruct (IH H) as [q ->]. now exists (String d q).
Qed.

Lemma append_longer (b : string) c : b ++ String c "" <> b.
Proof. induction b as [|d b IH]; cbn; [discriminate|]. intros [= H]. now apply IH. Qed.

(** The second step of [formatSynoPath] on a path that ends with two
    slashes takes one of them away. *)
Lemma strip_doubled b :
  b <> "" ->
  (if negb (b ++ "//" =? "/") && endsWith (b ++ "//") "/"
   then dropLast (b ++ "//") else b ++ "//") = b ++ "/".
Proof.
  intros Hb.
  assert (E : b ++ "//" = (b ++ "/") ++ "/") by now rewrite app_assoc_str.
  rewrite E, endsWith_app, dropLast_app.
  replace ((b ++ "/") ++ "/" =? "/") with false; [reflexivity|].
  symmetry. apply String.eqb_neq. destruct b as [|c b]; [now elim Hb|].
  cbn. intros [= _ H]. destruct b; discriminate.
Qed.

(** A path that ends with two slashes and is more than those keeps one
    of them. *)
Lemma formatSynoPath_doubled p :
  endsWith p "//" = true -> p <> "//" ->
  exists b, startsWith b "/" = true /\ formatSynoPath p = b ++ "/".
Proof.
  intros H2 Hne. destruct (endsWith_split _ _ H2) as [a ->].
  assert (Ha : a <> "") by (intros ->; now apply Hne).
  unfold formatSynoPath. destruct (startsWith (a ++ "//") "/") eqn:Hs; cbn [negb].
  - exists a. split; [|now apply strip_doubled].
    destruct a as [|c a]; [now elim Ha|].
    apply startsWith_slash_cons in Hs. subst c. apply startsWith_slash.
  - exists ("/" ++ a). split; [apply startsWith_slash|].
    change ("/" ++ a ++ "//") with (("/" ++ a) ++ "//"). now apply strip_doubled.
Qed.

End FormatSynoPath.

(** C10, as stated: a counterexample.  For ["a//"] the result is ["/a/"]:
    it ends with a slash without being the root, and formatting it again
    gives ["/a"]. *)
Lemma formatSynoPath_two_slashes :
  ~ (forall p : string,
       Str.startsWith (formatSynoPath p) "/" = true /\
       (Str.endsWith (formatSynoPath p) "/" = true -> formatSynoPath p = "/") /\
       formatSynoPath (formatSynoPath p) = formatSynoPath p).
Proof.
  intros H. destruct (H "a//") as (_ & _ & Hidem).
  vm_compute in Hidem. discriminate.
Qed.

(** C10, amended: [formatSynoPath p] starts with a slash, whatever [p]
    is.  When [p] does not end with two slashes, or is ["//"], the result
    does not end with a slash unless it is the root, and formatting it
    again changes nothing.  For every other [p] the result does end with
    a slash without being the root, and formatting it again changes it. *)
Theorem formatSynoPath_normal (p : string) :
  Str.startsWith (formatSynoPath p) "/" = true /\
  (Str.endsWith p "//" = false \/ p = "//" ->
   (Str.endsWith (formatSynoPath p) "/" = true -> formatSynoPath p = "/") /\
   formatSynoPath (formatSynoPath p) = formatSynoPath p) /\
  (Str.endsWith p "//" = true -> p <> "//" ->
   Str.endsWith (formatSynoPath p) "/" = true /\
   formatSynoPath p <> "/" /\
   formatSynoPath (formatSynoPath p) <> formatSynoPath p).
Proof.
  split; [apply formatSynoPath_slash|]. split.
  - intros [H2| ->]; [|split; reflexivity].
    destruct (lead_slash p H2) as [Hs Hq].
    destruct (strip_one _ Hs Hq) as [Hr Hroot].
    change (if negb (_ =? "/") && _ then _ else _) with (formatSynoPath p) in Hr, Hroot.
    split.
    + intros He. destruct Hroot as [|Hn]; [assumption|]. rewrite Hn in He. discriminate.
    + now apply formatSynoPath_fixed.
  - intros H2 Hne. destruct (formatSynoPath_doubled p H2 Hne) as (b & Hb & ->).
    split; [apply StrFacts.endsWith_app|]. split.
    + destruct b as [|c b]; [discriminate|]. cbn. intros [= _ H]. destruct b; discriminate.
    + rewrite (formatSynoPath_strip b Hb). intros H. symmetry in H.
      now apply append_longer in H.
Qed.

(** The amended C10 on the paths ["photos/"] and ["//"], which are put
    into normal form, and on ["photos//"], which is not. *)
Lemma formatSynoPath_normal_witness :
  (formatSynoPath "photos/" = "/photos" /\
   formatSynoPath (formatSynoPath "photos/") = formatSynoPath "photos/") /\
  (formatSynoPath "//" = "/" /\
   formatSynoPath (formatSynoPath "//") = formatSynoPath "//") /\
  (Str.endsWith (formatSynoPath "photos//") "/" = true /\
   formatSynoPath "photos//" <> "/" /\
   formatSynoPath (formatSynoPath "photos//") <> formatSynoPath "photos//").
Proof.
  split; [|split].
  - destruct (formatSynoPath_normal "photos/") as (_ & H & _).
    destruct (H (or_introl eq_refl)) as [_ Hi]. split; [reflexivity|exact Hi].
  - destruct (formatSynoPath_normal "//") as (_ & H & _).
    destruct (H (or_intror eq_refl)) as [_ Hi]. split; [reflexivity|exact Hi].
  - destruct (formatSynoPath_normal "photos//") as (_ & _ & H).
    apply H; [reflexivity|discriminate].
Defined.

Example formatBytes_1536 : formatBytes 1536 = "1.5 KB".
Proof. reflexivity. Qed.

Example formatBytes_1023 : formatBytes 1023 = "1023 Bytes".
Proof. reflexivity. Qed.

Example formatBytes_1234567 : formatBytes 1234567 = "1.18 MB".
Proof. reflexivity. Qed.

(** C9: [formatBytes(1073741824)] is ["1 GB"] and [formatBytes(0)] is
    ["0 Bytes"]. *)
Theorem formatBytes_GB_and_zero :
  formatBytes 1073741824 = "1 GB" /\ formatBytes 0 = "0 Bytes".
Proof. split; reflexivity. Qed.

(** * Running computations *)

(** Unfold the operations of [M] and reduce. *)
Ltac run :=
  repeat (unfold lift, bind, tryCatch, http, getSid, setSid, throw, ret, pending;
          cbn beta iota zeta).

(** * Session management *)

Section Session.
Context (env : Env).

Lemma isSuccess_reply data :
  isSuccess (Reply data) =
  match (if Js.truthy data then Js.prop data "success" else inr data) with
  | inr ok => Js.truthy ok
  | inl _ => false
  end.
Proof.
  destruct data as [| |[]|n|s| |]; cbn; try reflexivity.
  - destruct (Z.eqb n 0) eqn:E; cbn; [now rewrite E|reflexivity].
  - destruct (String.eqb s "") eqn:E; cbn; [now rewrite E|reflexivity].
Qed.

(** [logout] of [src/index.ts] with no token cached: nothing happens. *)
Lemma Index_logout_cold st :
  Js.truthy (sid st) = false -> Index.logout env st = Ok tt st.
Proof. intros H. unfold Index.logout, bind, getSid. now rewrite H. Qed.

(** [logout] of [src/index.ts] with a token: one request; the token is
    dropped when the request is answered, and kept when it is rejected. *)
Lemma Index_logout_warm st :
  Js.truthy (sid st) = true ->
  let req := Index.logoutRequest (sid st) in
  let resp := nas env (log st) req in
  Index.logout env st =
  Ok tt (mkState (match resp with Reply _ => JNull | Rejected _ => sid st end)
                 (log st ++ [(req, resp)])).
Proof.
  intros H. cbn zeta. unfold Index.logout, bind, getSid, tryCatch, http, setSid, ret.
  rewrite H. cbn [negb]. now destruct (nas env (log st) _).
Qed.

Lemma Part0_synoLogout_cold st :
  Js.truthy (sid st) = false -> Part0.synoLogout env st = Ok true st.
Proof. intros H. unfold Part0.synoLogout, tryCatch, bind, getSid. now rewrite H. Qed.

(** [synoLogout] with a token: one request; the token is dropped only when
    the answer is a success body. *)
Lemma Part0_synoLogout_warm st :
  Js.truthy (sid st) = true ->
  let req := Part0.logoutRequest (sid st) in
  let resp := nas env (log st) req in
  Part0.synoLogout env st =
  Ok (isSuccess resp)
     (mkState (if isSuccess resp then JStr "" else sid st) (log st ++ [(req, resp)])).
Proof.
  intros H. cbn zeta.
  unfold Part0.synoLogout. run. rewrite H. cbn [negb].
  destruct (nas env (log st) _) as [data|reason]; [|reflexivity].
  rewrite isSuccess_reply.
  destruct (Js.truthy data) eqn:Hd.
  - destruct (Js.prop data "success") as [e|ok] eqn:Hp.
    + destruct data; discriminate.
    + run. now destruct (Js.truthy ok).
  - run. now rewrite Hd.
Qed.

(** What a granted session looks like. *)
Lemma grantsSid_inv resp :
  grantsSid resp = true ->
  exists data ok d s,
    resp = Reply data /\ Js.prop data "success" = inr ok /\ Js.truthy ok = true /\
    Js.truthy data = true /\
    Js.prop data "data" = inr d /\ Js.prop d "sid" = inr (JStr s) /\ (s =? "") = false.
Proof.
  unfold grantsSid, isSuccess. destruct resp as [data|]; [|now rewrite andb_false_r].
  destruct (Js.prop data "success") as [|ok] eqn:Hs; [discriminate|].
  destruct (Js.prop data "data") as [|d] eqn:Hd; [now rewrite andb_false_r|].
  destruct (Js.prop d "sid") as [|[]] eqn:Hsid; try now rewrite andb_false_r.
  intros H. apply andb_prop in H as [H1 H2]. apply negb_true_iff in H2.
  exists data, ok, d, s. repeat split; auto.
  destruct data; try discriminate; try reflexivity.
  all: cbn in Hs; injection Hs as <-; discriminate.
Qed.

Lemma Index_login_cached st :
  Js.truthy (sid st) = true -> Index.login env st = Ok (sid st) st.
Proof. intros H. unfold Index.login. run. now rewrite H. Qed.

(** [login] of [src/index.ts] with no token, on a NAS that grants the
    session: one request, and the token of the answer is cached. *)
Lemma Index_login_granted st :
  Js.truthy (sid st) = false ->
  let resp := nas env (log st) (Index.loginRequest env) in
  grantsSid resp = true ->
  exists s, (s =? "") = false /\
    Index.login env st =
    Ok (JStr s) (mkState (JStr s) (log st ++ [(Index.loginRequest env, resp)])).
Proof.
  intros H resp G. subst resp.
  destruct (grantsSid_inv _ G) as (data & ok & d & s & E & Hs & Hok & _ & Hd & Hsid & Hne).
  exists s. split; [exact Hne|].
  unfold Index.login. run. rewrite H, E. run. rewrite Hs. run. rewrite Hok.
  unfold prop2. rewrite Hd, Hsid. reflexivity.
Qed.

(** [synoLogin] on a NAS that grants the session. *)
Lemma Part0_synoLogin_granted st :
  let resp := nas env (log st) (Part0.loginRequest env) in
  grantsSid resp = true ->
  exists s, (s =? "") = false /\
    Part0.synoLogin env st =
    Ok true (mkState (JStr s) (log st ++ [(Part0.loginRequest env, resp)])).
Proof.
  intros resp G. subst resp.
  destruct (grantsSid_inv _ G) as (data & ok & d & s & E & Hs & Hok & Ht & Hd & Hsid & Hne).
  exists s. split; [exact Hne|].
  unfold Part0.synoLogin. run. rewrite E. run. rewrite Ht, Hs. run. rewrite Hok.
  unfold prop2. rewrite Hd, Hsid. reflexivity.
Qed.

Lemma Part0_ensureLogin_cached st :
  Js.truthy (sid st) = true -> Part0.ensureLogin env st = Ok true st.
Proof. intros H. unfold Part0.ensureLogin. run. now rewrite H. Qed.

Lemma count_one p (ex : Exchange) : (count p [ex] <= 1)%nat.
Proof. unfold count. cbn. destruct (p (fst ex)); cbn; lia. Qed.

Lemma app_nil_end_log (l : list Exchange) : l = (l ++ [])%list.
Proof. now rewrite app_nil_r. Qed.

End Session.

(** C4, as stated: a counterexample.  A token is cached and the NAS is out
    of reach: both programs keep the token after the logout, and a second
    logout sends a second request. *)
Lemma logout_keeps_token_when_rejected :
  let env := labEnv deadNas in
  let st := mkState (JStr "abc") [] in
  (exists st1 st2,
     Index.logout env st = Ok tt st1 /\ Js.truthy (sid st1) = true /\
     Index.logout env st1 = Ok tt st2 /\ count isLogout (log st2) = 2%nat) /\
  (exists b1 st1 b2 st2,
     Part0.synoLogout env st = Ok b1 st1 /\ Js.truthy (sid st1) = true /\
     Part0.synoLogout env st1 = Ok b2 st2 /\ count isLogout (log st2) = 2%nat).
Proof.
  cbn zeta. split.
  - eexists _, _. repeat split; reflexivity.
  - eexists _, _, _, _. repeat split; reflexivity.
Qed.

(** C4, amended: logout never raises; with no token cached it sends
    nothing and changes nothing; with a token cached it sends exactly one
    logout request, and when that request is answered with a success body
    the token is cleared, so that a second logout sends nothing. *)
Theorem logout_clears_on_success (env : Env) (st : State) :
  (exists st1,
     Index.logout env st = Ok tt st1 /\
     (Js.truthy (sid st) = false -> st1 = st) /\
     (Js.truthy (sid st) = true ->
      let req := Index.logoutRequest (sid st) in
      isLogout req = true /\
      log st1 = (log st ++ [(req, nas env (log st) req)])%list /\
      (isSuccess (nas env (log st) req) = true ->
       Js.truthy (sid st1) = false /\ Index.logout env st1 = Ok tt st1))) /\
  (exists b st1,
     Part0.synoLogout env st = Ok b st1 /\
     (Js.truthy (sid st) = false -> st1 = st) /\
     (Js.truthy (sid st) = true ->
      let req := Part0.logoutRequest (sid st) in
      isLogout req = true /\
      log st1 = (log st ++ [(req, nas env (log st) req)])%list /\
      (isSuccess (nas env (log st) req) = true ->
       Js.truthy (sid st1) = false /\ Part0.synoLogout env st1 = Ok true st1))).
Proof.
  destruct (Js.truthy (sid st)) eqn:H; split.
  - eexists. split; [apply (Index_logout_warm env st H)|].
    split; [discriminate|]. intros _. cbn zeta.
    split; [reflexivity|]. split; [reflexivity|].
    intros Hs. destruct (nas env (log st) _); [|discriminate].
    split; [reflexivity|]. now apply Index_logout_cold.
  - eexists _, _. split; [apply (Part0_synoLogout_warm env st H)|].
    split; [discriminate|]. intros _. cbn zeta.
    split; [reflexivity|]. split; [reflexivity|].
    intros Hs. rewrite Hs. split; [reflexivity|]. now apply Part0_synoLogout_cold.
  - exists st. split; [now apply Index_logout_cold|]. split; [reflexivity|discriminate].
  - exists true, st. split; [now apply Part0_synoLogout_cold|]. split; [reflexivity|discriminate].
Qed.

(** The amended C4 on the working NAS, with a token cached: the logout
    goes through, the token is cleared and a second logout sends nothing. *)
Lemma logout_clears_on_success_witness :
  (exists st1,
     Index.logout (labEnv healthyNas) (mkState (JStr "s3cr3t") []) = Ok tt st1 /\
     Js.truthy (sid st1) = false /\ Index.logout (labEnv healthyNas) st1 = Ok tt st1) /\
  (exists b st1,
     Part0.synoLogout (labEnv healthyNas) (mkState (JStr "s3cr3t") []) = Ok b st1 /\
     Js.truthy (sid st1) = false /\ Part0.synoLogout (labEnv healthyNas) st1 = Ok true st1).
Proof.
  destruct (logout_clears_on_success (labEnv healthyNas) (mkState (JStr "s3cr3t") []))
    as [(st1 & H1 & _ & H3) (b & st2 & H4 & _ & H6)].
  split.
  - exists st1. split; [exact H1|].
    destruct (H3 eq_refl) as (_ & _ & H). exact (H eq_refl).
  - exists b, st2. split; [exact H4|].
    destruct (H6 eq_refl) as (_ & _ & H). exact (H eq_refl).
Defined.

(** C5: on a NAS that grants the session to every login request (valid
    credentials), two calls in a row of the function that ensures the
    session send at most one login request, and the second call sends
    nothing: it returns the cached token. *)
Theorem ensure_twice_one_login (env : Env) (st : State) :
  (forall h req, isLogin req = true -> grantsSid (nas env h req) = true) ->
  (exists v st1 t,
     Index.login env st = Ok v st1 /\ Index.login env st1 = Ok v st1 /\
     log st1 = (log st ++ t)%list /\ (count isLogin t <= 1)%nat) /\
  (exists st1 t,
     Part0.ensureLogin env st = Ok true st1 /\ Part0.ensureLogin env st1 = Ok true st1 /\
     log st1 = (log st ++ t)%list /\ (count isLogin t <= 1)%nat).
Proof.
  intros Hvalid. destruct (Js.truthy (sid st)) eqn:H; split.
  - exists (sid st), st, []. rewrite Index_login_cached by assumption.
    repeat split; [apply app_nil_end_log | cbn; lia].
  - exists st, []. rewrite Part0_ensureLogin_cached by assumption.
    repeat split; [apply app_nil_end_log | cbn; lia].
  - destruct (Index_login_granted env st H (Hvalid (log st) (Index.loginRequest env) eq_refl)) as (s & Hne & ->).
    eexists _, _, _. split; [reflexivity|]. split.
    + apply Index_login_cached. cbn. now rewrite Hne.
    + split; [reflexivity|apply count_one].
  - destruct (Part0_synoLogin_granted env st (Hvalid (log st) (Part0.loginRequest env) eq_refl)) as (s & Hne & E).
    eexists _, _. split.
    + unfold Part0.ensureLogin. run. rewrite H. cbn [negb]. run. rewrite E. reflexivity.
    + split; [apply Part0_ensureLogin_cached; cbn; now rewrite Hne|].
      split; [reflexivity|apply count_one].
Qed.

(** C5 on the working NAS, from a state without token. *)
Lemma ensure_twice_one_login_witness :
  let env := labEnv healthyNas in
  let st := mkState JNull [] in
  (exists v st1 t,
     Index.login env st = Ok v st1 /\ Index.login env st1 = Ok v st1 /\
     log st1 = (log st ++ t)%list /\ (count isLogin t <= 1)%nat) /\
  (exists st1 t,
     Part0.ensureLogin env st = Ok true st1 /\ Part0.ensureLogin env st1 = Ok true st1 /\
     log st1 = (log st ++ t)%list /\ (count isLogin t <= 1)%nat).
Proof.
  cbn zeta. apply (ensure_twice_one_login (labEnv healthyNas) (mkState JNull [])).
  intros h req H. unfold labEnv, nas, healthyNas. rewrite H. reflexivity.
Defined.

(** * The polling protocol *)

Lemma PollRun_step statusReq listReq stopReq fuel {A} st resp (r : Result A) :
  reportsFinished resp = false ->
  PollRun statusReq listReq stopReq fuel
    (mkState (sid st) (log st ++ [(statusReq, resp)])) r ->
  PollRun statusReq listReq stopReq (S fuel) st r.
Proof.
  intros Hu (polls & tail & Hlog & Hpolls & Htail & Hlen & Hsid).
  exists ((statusReq, resp) :: polls), tail. cbn [log sid] in *.
  split; [rewrite Hlog, <- app_assoc; reflexivity|].
  split; [constructor; [split; auto|assumption]|].
  split; [assumption|]. split; [|assumption].
  intros Hw. cbn [length]. now rewrite Hlen.
Qed.

Ltac poll_done tail_ :=
  exists [], tail_; cbn [stateOf log sid kind app];
  rewrite <- ?app_assoc; cbn [app];
  split; [reflexivity|]; split; [constructor|];
  split; [|split; [discriminate|reflexivity]].

Section PollIndex.
Context (env : Env) (taskId sessionId : json) (keyword path : string).

Let statusReq := Index.searchRequest "status" taskId sessionId.
Let listReq := Index.searchRequest "list" taskId sessionId.
Let stopReq := Index.searchRequest "stop" taskId sessionId.

(** The exchanges of the polling loop of [src/index.ts]. *)
Lemma Index_poll_run fuel : forall st,
  PollRun statusReq listReq stopReq fuel st
    (Index.poll env fuel taskId sessionId keyword path st).
Proof.
  induction fuel as [|fuel IH]; intros st.
  - exists [], []. cbn. rewrite app_nil_r. repeat split; auto.
    left. auto.
  - cbn [Index.poll]. run. fold statusReq listReq stopReq.
    destruct (nas env (log st) statusReq) as [body|reason] eqn:E1.
    2:{ poll_done [(statusReq, Rejected reason)]. right; left. eauto. }
    unfold prop2. destruct (Js.prop body "data") as [e|d] eqn:Hd.
    { poll_done [(statusReq, Reply body)]. right; left. eauto. }
    destruct (Js.prop d "finished") as [e|f] eqn:Hf.
    { poll_done [(statusReq, Reply body)]. right; left. eauto. }
    destruct (Js.truthy f) eqn:Ht.
    2:{ apply (PollRun_step _ _ _ _ st (Reply body)); [cbn; now rewrite Hd, Hf|apply IH]. }
    assert (Hfin : reportsFinished (Reply body) = true) by (cbn; now rewrite Hd, Hf).
    run. cbn [log sid].
    destruct (nas env _ listReq) as [body2|reason2] eqn:E2.
    2:{ poll_done [(statusReq, Reply body); (listReq, Rejected reason2)].
        right; right; left. eauto. }
    destruct (Js.prop body2 "success") as [e|ok] eqn:Hs.
    { poll_done [(statusReq, Reply body); (listReq, Reply body2)].
      right; right; left. eauto. }
    run. destruct (Js.truthy ok) eqn:Hok.
    + destruct (Js.prop body2 "data") as [e|d2] eqn:Hd2.
      { poll_done [(statusReq, Reply body); (listReq, Reply body2)].
        right; right; left. eauto. }
      destruct (Js.prop d2 "files") as [e|files] eqn:Hfiles.
      { poll_done [(statusReq, Reply body); (listReq, Reply body2)].
        right; right; left. eauto. }
      run. destruct (Index.searchText keyword path files) as [e|result] eqn:Htext.
      { poll_done [(statusReq, Reply body); (listReq, Reply body2)].
        right; right; left. eauto. }
      run. cbn [log sid].
      destruct (nas env _ stopReq) as [body3|reason3] eqn:E3.
      * poll_done [(statusReq, Reply body); (listReq, Reply body2); (stopReq, Reply body3)].
        right; right; right. eexists _, _, _. repeat split; auto. discriminate.
      * poll_done [(statusReq, Reply body); (listReq, Reply body2); (stopReq, Rejected reason3)].
        right; right; right. eexists _, _, _. repeat split; auto. discriminate.
    + run. cbn [log sid].
      destruct (nas env _ stopReq) as [body3|reason3] eqn:E3.
      * poll_done [(statusReq, Reply body); (listReq, Reply body2); (stopReq, Reply body3)].
        right; right; right. eexists _, _, _. repeat split; auto. discriminate.
      * poll_done [(statusReq, Reply body); (listReq, Reply body2); (stopReq, Rejected reason3)].
        right; right; right. eexists _, _, _. repeat split; auto. discriminate.
Qed.

End PollIndex.

Section PollPart0.
Context (env : Env) (taskId : json).

(** The exchanges of the waiting loop of [searchFiles]: unfinished polls,
    then nothing (still waiting), a status request that failed, or one
    that reports the task finished. *)
Lemma Part0_waitFinished_run fuel : forall st,
  let statusReq := Part0.searchRequest GET "status" taskId (sid st) in
  let r := Part0.waitFinished env fuel taskId st in
  exists polls,
    Forall (unfinished statusReq) polls /\ sid (stateOf r) = sid st /\
    ((kind r = Waiting /\ log (stateOf r) = (log st ++ polls)%list /\ length polls = fuel) \/
     (kind r = Raised /\ exists r1, log (stateOf r) = (log st ++ polls ++ [(statusReq, r1)])%list) \/
     (kind r = Returned /\ exists r1, log (stateOf r) = (log st ++ polls ++ [(statusReq, r1)])%list /\
                                       reportsFinished r1 = true)).
Proof.
  induction fuel as [|fuel IH]; intros st; cbn zeta.
  - exists []. cbn. rewrite app_nil_r. split; [constructor|]. split; [reflexivity|].
    left. auto.
  - cbn [Part0.waitFinished]. unfold Part0.searchCall, Part0.entry. run.
    change (mkRequest GET EntryCgi _) with (Part0.searchRequest GET "status" taskId (sid st)).
    set (statusReq := Part0.searchRequest GET "status" taskId (sid st)).
    destruct (nas env (log st) statusReq) as [body|reason] eqn:E1.
    2:{ exists []. cbn. repeat split; auto. right; left. eauto. }
    destruct (Js.prop body "success") as [e|ok] eqn:Hs.
    { exists []. cbn. repeat split; auto. right; left. eauto. }
    run. destruct (Js.truthy ok) eqn:Hok; cbn [negb].
    2:{ unfold Part0.fail. run.
        destruct (prop2 body "error" "code"); exists []; cbn; repeat split; auto;
          right; left; eauto. }
    unfold prop2. destruct (Js.prop body "data") as [e|d] eqn:Hd.
    { exists []. cbn. repeat split; auto. right; left. eauto. }
    destruct (Js.prop d "finished") as [e|f] eqn:Hf.
    { exists []. cbn. repeat split; auto. right; left. eauto. }
    run. destruct (Js.truthy f) eqn:Ht.
    + exists []. cbn. repeat split; auto. right; right. split; [reflexivity|].
      exists (Reply body). split; [reflexivity|]. cbn. now rewrite Hd, Hf.
    + specialize (IH (mkState (sid st) (log st ++ [(statusReq, Reply body)]))).
      cbn zeta in IH. cbn [sid log] in IH. fold statusReq in IH.
      destruct IH as (polls & Hpolls & Hsid & Hcases).
      exists ((statusReq, Reply body) :: polls).
      split; [constructor; [split; [reflexivity|cbn; now rewrite Hd, Hf]|assumption]|].
      split; [assumption|].
      destruct Hcases as [(Hk & Hlog & Hlen) | [(Hk & r1 & Hlog) | (Hk & r1 & Hlog & Hfin)]].
      * left. split; [assumption|]. split; [now rewrite Hlog, <- app_assoc|cbn; now rewrite Hlen].
      * right; left. split; [assumption|]. exists r1. now rewrite Hlog, <- !app_assoc.
      * right; right. split; [assumption|]. exists r1.
        split; [now rewrite Hlog, <- !app_assoc|assumption].
Qed.

Lemma Part0_finishSearch_run fuel st :
  PollRun (Part0.searchRequest GET "status" taskId (sid st))
          (Part0.searchRequest GET "list" taskId (sid st))
          (Part0.searchRequest POST "stop" taskId (sid st))
          fuel st (Part0.finishSearch env fuel taskId st).
Proof.
  unfold Part0.finishSearch, bind at 1.
  pose proof (Part0_waitFinished_run fuel st) as W. cbn zeta in W.
  set (statusReq := Part0.searchRequest GET "status" taskId (sid st)) in *.
  set (listReq := Part0.searchRequest GET "list" taskId (sid st)).
  set (stopReq := Part0.searchRequest POST "stop" taskId (sid st)).
  destruct (Part0.waitFinished env fuel taskId st) as [[] st1|e st1|st1];
    cbn [kind stateOf] in W; destruct W as (polls & Hpolls & Hsid & Hcases).
  - destruct Hcases as [(Hk & _) | [(Hk & _) | (_ & r1 & Hlog & Hfin)]]; try discriminate.
    assert (Hshape : forall {A} (r : Result A) tail,
               log (stateOf r) = (log st1 ++ tail)%list -> sid (stateOf r) = sid st1 ->
               PollTail statusReq listReq stopReq (kind r) ((statusReq, r1) :: tail) ->
               PollRun statusReq listReq stopReq fuel st r).
    { intros A r tail Hl Hs Ht. exists polls, ((statusReq, r1) :: tail).
      rewrite Hl, Hlog, <- !app_assoc. cbn [app].
      repeat split; auto; [|congruence].
      intros Hw. destruct Ht as [(?&?)|[(?&?&?)|[(?&?&?&?&?)|(?&?&?&?&?&Hn)]]];
        try discriminate; try congruence. }
    unfold Part0.searchCall, Part0.entry. run. rewrite Hsid.
    change (mkRequest GET EntryCgi _) with listReq.
    destruct (nas env (log st1) listReq) as [body2|reason2] eqn:E2.
    2:{ apply (Hshape _ _ [(listReq, Rejected reason2)]); cbn; auto.
        right; right; left. eauto. }
    destruct (Part0.succeeded body2) as [e|ok] eqn:Hs.
    { run. apply (Hshape _ _ [(listReq, Reply body2)]); cbn; auto.
      right; right; left. eauto. }
    run. destruct ok; cbn [negb].
    2:{ unfold Part0.fail. run.
        destruct (prop2 body2 "error" "code");
          apply (Hshape _ _ [(listReq, Reply body2)]); cbn; auto;
          right; right; left; eauto. }
    run. cbn [sid log].
    change (mkRequest POST EntryCgi _) with stopReq.
    destruct (nas env _ stopReq) as [body3|reason3] eqn:E3.
    + destruct (prop2 body2 "data" "files");
        apply (Hshape _ _ [(listReq, Reply body2); (stopReq, Reply body3)]);
        cbn; rewrite <- ?app_assoc; auto;
        right; right; right; eexists _, _, _; repeat split; auto; discriminate.
    + apply (Hshape _ _ [(listReq, Reply body2); (stopReq, Rejected reason3)]);
        cbn; rewrite <- ?app_assoc; auto.
      right; right; right. eexists _, _, _. repeat split; auto. discriminate.
  - destruct Hcases as [(Hk & _) | [(_ & r1 & Hlog) | (Hk & _)]]; try discriminate.
    exists polls, [(statusReq, r1)]. cbn [stateOf kind].
    repeat split; auto; [right; left; eauto|discriminate].
  - destruct Hcases as [(_ & Hlog & Hlen) | [(Hk & _) | (Hk & _)]]; try discriminate.
    exists polls, []. cbn [stateOf kind]. rewrite app_nil_r.
    repeat split; auto. left. auto.
Qed.

End PollPart0.

(** * The exchanges of the session functions *)

Section SessionTraces.
Context (env : Env).

(** [login] of [src/index.ts] sends nothing or one login request, and
    always ends. *)
Lemma Index_login_run st :
  let r := Index.login env st in
  kind r <> Waiting /\
  ((log (stateOf r) = log st /\ (kind r = Returned -> Js.truthy (sid st) = true)) \/
   (Js.truthy (sid st) = false /\
    log (stateOf r) =
      (log st ++ [(Index.loginRequest env, nas env (log st) (Index.loginRequest env))])%list)).
Proof.
  cbn zeta. unfold Index.login. run.
  destruct (Js.truthy (sid st)) eqn:H.
  - cbn. split; [discriminate|]. left. auto.
  - run. destruct (nas env (log st) _) as [body|reason].
    2:{ cbn. split; [discriminate|]. right. auto. }
    destruct (Js.prop body "success") as [|ok]; run.
    { cbn. split; [discriminate|]. right. auto. }
    destruct (Js.truthy ok).
    + destruct (prop2 body "data" "sid") as [|[]]; run; cbn;
        (split; [discriminate|]); right; auto.
    + destruct (errorCode body); run; cbn; (split; [discriminate|]); right; auto.
Qed.

(** [synoLogin] sends one login request and returns. *)
Lemma Part0_synoLogin_run st :
  exists b st1,
    Part0.synoLogin env st = Ok b st1 /\
    log st1 = (log st ++ [(Part0.loginRequest env,
                           nas env (log st) (Part0.loginRequest env))])%list.
Proof.
  unfold Part0.synoLogin. run.
  destruct (nas env (log st) _) as [body|reason]; [|eauto].
  destruct (Js.truthy body); run.
  - destruct (Js.prop body "success") as [|ok]; run; [eauto|].
    destruct (Js.truthy ok); [|eauto].
    destruct (prop2 body "data" "sid") as [|v]; run; [eauto|].
    destruct (Part0.sidPrefix v); run; eauto.
  - destruct (Js.truthy body); eauto.
    destruct (prop2 body "data" "sid") as [|v]; run; [eauto|].
    destruct (Part0.sidPrefix v); run; eauto.
Qed.

(** [refreshSession] sends the probe, then one login request when the
    probe is answered with error 119 or not answered, and returns. *)
Lemma Part0_refreshSession_run st :
  let probe := Part0.probeRequest (sid st) in
  let r0 := nas env (log st) probe in
  let h := (log st ++ [(probe, r0)])%list in
  exists b st1,
    Part0.refreshSession env st = Ok b st1 /\
    log st1 = (h ++ if Part0.needsLogin r0
                    then [(Part0.loginRequest env, nas env h (Part0.loginRequest env))]
                    else [])%list.
Proof.
  cbn zeta. unfold Part0.refreshSession. run.
  destruct (nas env (log st) _) as [body|reason] eqn:E; cbn [Part0.needsLogin].
  - destruct (Part0.sessionExpired body) as [e|[]]; run.
    + destruct (Part0_synoLogin_run (mkState (sid st) (log st ++ [(Part0.probeRequest (sid st), Reply body)])))
        as (b & st1 & -> & Hlog). eauto.
    + destruct (Part0_synoLogin_run (mkState (sid st) (log st ++ [(Part0.probeRequest (sid st), Reply body)])))
        as (b & st1 & -> & Hlog). eauto.
    + eexists _, _. split; [reflexivity|]. cbn. now rewrite app_nil_r.
  - destruct (Part0_synoLogin_run (mkState (sid st) (log st ++ [(Part0.probeRequest (sid st), Rejected reason)])))
      as (b & st1 & -> & Hlog). eauto.
Qed.

End SessionTraces.

(** * The exchanges of a search invocation *)

Section SearchInvocation.
Context (env : Env).

Lemma Index_handle_search fuel args :
  Index.handle env fuel "search" args = Index.search env fuel args.
Proof. reflexivity. Qed.

Lemma Part0_handle_search fuel args :
  Part0.handle env fuel "search_files" args =
  (parsed <- Part0.parse "search_files" Part0.SearchFilesArgsSchema args ;;
   results <- Part0.searchFiles env fuel (field "path" parsed) (field "pattern" parsed) ;;
   Part0.shaped env "results" Part0.matchShape results)%M.
Proof. reflexivity. Qed.

(** The handler turns what the case of the tool did into a result. *)
Lemma callTool_wrap (h : Result ToolResult) :
  (forall a st', h = Ok a st' -> isError a = false) ->
  let r := tryCatch (fun _ => h)
             (fun error => ret (mkResult ("Error: " ++ message error) true))
             (stateOf h) in
  stateOf r = stateOf h /\ toolKind r = kind h.
Proof.
  intros H. cbn zeta. unfold tryCatch, ret. destruct h as [a st1|e st1|st1]; cbn; auto.
  now rewrite (H a st1 eq_refl).
Qed.

(** The exchanges of the [search] case of [src/index.ts]. *)
Lemma Index_search_run fuel args st r :
  r = Index.search env fuel args st ->
  (forall a st', r = Ok a st' -> isError a = false) /\
  exists t, log (stateOf r) = (log st ++ t)%list /\
            SearchTrace isLogin (fun v => v) fuel (kind r) t.
Proof.
  unfold Index.search, Index.parse.
  destruct (safeParse Index.SearchArgsSchema args) as [issues|parsed].
  { run. intros ->. split; [discriminate|]. exists []. cbn. rewrite app_nil_r.
    split; [reflexivity|]. exists []. split; [constructor|]. left. auto. }
  unfold bind at 1. unfold ret at 1. unfold bind at 1.
  pose proof (Index_login_run env st) as L. cbn zeta in L.
  destruct (Index.login env st) as [sessionId st1|e st1|st1] eqn:EL;
    cbn [kind stateOf] in L; destruct L as [Lk L].
  3:{ congruence. }
  2:{ intros ->. split; [discriminate|]. cbn [stateOf kind].
      destruct L as [[L _]|[_ L]]; rewrite L.
      - exists []. rewrite app_nil_r. split; [reflexivity|].
        exists []. split; [constructor|]. left. auto.
      - eexists. split; [reflexivity|].
        eexists. split; [|left; split; reflexivity].
        constructor; [reflexivity|constructor]. }
  assert (Hpre : exists pre, log st1 = (log st ++ pre)%list /\
                             Forall (fun ex => isLogin (fst ex) = true) pre).
  { destruct L as [[L _]|[_ L]]; rewrite L.
    - exists []. now rewrite app_nil_r.
    - eexists. split; [reflexivity|]. constructor; [reflexivity|constructor]. }
  clear L Lk EL. destruct Hpre as (pre & Hlog1 & Hpre).
  unfold Index.entry. run.
  set (startReq := mkRequest GET EntryCgi _).
  assert (Hstart : isStart startReq = true) by reflexivity.
  destruct (nas env (log st1) startReq) as [body|reason] eqn:E.
  2:{ intros ->. split; [discriminate|]. cbn [stateOf kind log]. rewrite Hlog1, <- app_assoc.
      eexists. split; [reflexivity|]. exists pre. split; [assumption|].
      right; left. eauto. }
  assert (Hfail : forall e,
    r = Thrown e (mkState (sid st1) (log st1 ++ [(startReq, Reply body)])) ->
    (forall a st', r = Ok a st' -> isError a = false) /\
    exists t, log (stateOf r) = (log st ++ t)%list /\
              SearchTrace isLogin (fun v => v) fuel (kind r) t).
  { intros e ->. split; [discriminate|]. cbn [stateOf kind log]. rewrite Hlog1, <- app_assoc.
    eexists. split; [reflexivity|]. exists pre. split; [assumption|].
    right; left. eauto. }
  unfold Index.check. run.
  destruct (Js.prop body "success") as [e|ok] eqn:Hs; run; [apply Hfail|].
  destruct (Js.truthy ok) eqn:Hok; run.
  2:{ destruct (errorCode body); run; apply Hfail. }
  destruct (prop2 body "data" "taskid") as [e|taskId] eqn:Ht; run; [apply Hfail|].
  clear Hfail.
  pose proof (Index_poll_run env taskId sessionId (field "keyword" parsed)
                (field "path" parsed) fuel
                (mkState (sid st1) (log st1 ++ [(startReq, Reply body)]))) as P.
  destruct P as (polls & tail & Hlog & Hpolls & Htail & Hlen & _).
  cbn [log] in Hlog.
  set (p := Index.poll env fuel taskId sessionId _ _ _) in *.
  assert (Hall : forall k, k = kind p ->
    SearchTrace isLogin (fun v => v) fuel k (pre ++ (startReq, Reply body) :: polls ++ tail)).
  { intros k ->. exists pre. split; [assumption|]. right; right.
    exists startReq, body, taskId, (Index.searchRequest "status" taskId sessionId),
      (Index.searchRequest "list" taskId sessionId),
      (Index.searchRequest "stop" taskId sessionId), polls, tail.
    split; [assumption|]. split; [cbn; now rewrite Hs|].
    split; [assumption|]. split; [repeat split; reflexivity|].
    split; [repeat split; reflexivity|].
    split; [reflexivity|]. auto. }
  assert (Hl : log (stateOf p) = (log st ++ pre ++ (startReq, Reply body) :: polls ++ tail)%list).
  { rewrite Hlog, Hlog1, <- !app_assoc. reflexivity. }
  destruct p as [result st2|e st2|st2]; intros ->; cbn [stateOf kind] in *;
    (split; [intros a st' [= <- _]; reflexivity || discriminate | ]);
    eexists; (split; [exact Hl|]); apply Hall; reflexivity.
Qed.

(** The exchanges of a [search] call of [src/index.ts]. *)
Lemma Index_search_trace fuel args st :
  let r := Index.callTool env fuel "search" args st in
  exists t, log (stateOf r) = (log st ++ t)%list /\
            SearchTrace isLogin (fun v => v) fuel (toolKind r) t.
Proof.
  cbn zeta. unfold Index.callTool. rewrite Index_handle_search.
  destruct (Index_search_run fuel args st _ eq_refl) as (Hok & t & Hlog & Htr).
  exists t. unfold tryCatch, ret.
  destruct (Index.search env fuel args st) as [a st1|e st1|st1]; cbn in *; auto.
  now rewrite (Hok a st1 eq_refl).
Qed.

Lemma logged_run {A} (m : M A) st : Part0.logged m st = m st.
Proof. unfold Part0.logged, tryCatch, throw. now destruct (m st). Qed.

(** Shaping the items of a response sends nothing. *)
Lemma Part0_shaped_run name shape v st :
  (exists a, Part0.shaped env name shape v st = Ok a st /\ isError a = false) \/
  (exists e, Part0.shaped env name shape v st = Thrown e st).
Proof.
  unfold Part0.shaped. run.
  destruct (Js.elements v name "map") as [e|items]; run; [eauto|].
  destruct (mapE shape items); run; eauto.
Qed.

Lemma PollTail_returned statusReq listReq stopReq tail k :
  PollTail statusReq listReq stopReq Returned tail -> k <> Waiting ->
  PollTail statusReq listReq stopReq k tail.
Proof.
  intros [(_ & H)|[(r1 & _ & H)|[(r1 & r2 & _ & _ & H)|(r1 & r2 & r3 & Ht & Hf & _)]]] Hk;
    try discriminate.
  right; right; right. eauto 10.
Qed.

(** The exchanges of the [search_files] case of the second variant. *)
Lemma Part0_search_run fuel args st r :
  r = Part0.handle env fuel "search_files" args st ->
  (forall a st', r = Ok a st' -> isError a = false) /\
  exists t, log (stateOf r) = (log st ++ t)%list /\
            SearchTrace isSession Part0.str fuel (kind r) t.
Proof.
  rewrite Part0_handle_search. unfold Part0.parse.
  destruct (safeParse Part0.SearchFilesArgsSchema args) as [issues|parsed].
  { run. intros ->. split; [discriminate|]. exists []. cbn. rewrite app_nil_r.
    split; [reflexivity|]. exists []. split; [constructor|]. left. auto. }
  unfold bind at 1. unfold ret at 1. unfold bind at 1.
  unfold Part0.searchFiles. rewrite logged_run. unfold bind at 1.
  destruct (Part0_refreshSession_run env st) as (b & st1 & -> & Hlog1).
  assert (Hpre : exists pre, log st1 = (log st ++ pre)%list /\
                             Forall (fun ex => isSession (fst ex) = true) pre).
  { rewrite Hlog1, <- app_assoc. eexists. split; [reflexivity|].
    constructor; [reflexivity|]. destruct (Part0.needsLogin _); repeat constructor. }
  clear Hlog1. destruct Hpre as (pre & Hlog1 & Hpre).
  unfold Part0.entry. run.
  set (startReq := mkRequest POST EntryCgi _).
  assert (Hstart : isStart startReq = true) by reflexivity.
  destruct (nas env (log st1) startReq) as [body|reason] eqn:E.
  2:{ intros ->. split; [discriminate|]. cbn [stateOf kind log]. rewrite Hlog1, <- app_assoc.
      eexists. split; [reflexivity|]. exists pre. split; [assumption|].
      right; left. eauto. }
  assert (Hfail : forall e,
    r = Thrown e (mkState (sid st1) (log st1 ++ [(startReq, Reply body)])) ->
    (forall a st', r = Ok a st' -> isError a = false) /\
    exists t, log (stateOf r) = (log st ++ t)%list /\
              SearchTrace isSession Part0.str fuel (kind r) t).
  { intros e ->. split; [discriminate|]. cbn [stateOf kind log]. rewrite Hlog1, <- app_assoc.
    eexists. split; [reflexivity|]. exists pre. split; [assumption|].
    right; left. eauto. }
  destruct (Part0.succeeded body) as [e|started] eqn:Hs; run; [apply Hfail|].
  destruct started; cbn [negb].
  2:{ unfold Part0.fail. run. destruct (prop2 body "error" "code"); run; apply Hfail. }
  destruct (prop2 body "data" "taskid") as [e|taskId] eqn:Ht; run; [apply Hfail|].
  clear Hfail.
  pose proof (Part0_finishSearch_run env taskId fuel
                (mkState (sid st1) (log st1 ++ [(startReq, Reply body)]))) as P.
  destruct P as (polls & tail & Hlog & Hpolls & Htail & Hlen & Hsid).
  cbn [log sid] in Hlog, Hsid, Hpolls, Htail.
  set (p := Part0.finishSearch env fuel taskId _) in *.
  assert (Hall : forall k, (kind p = Returned -> k <> Waiting) ->
                           (kind p <> Returned -> k = kind p) ->
    SearchTrace isSession Part0.str fuel k (pre ++ (startReq, Reply body) :: polls ++ tail)).
  { intros k Hk1 Hk2. exists pre. split; [assumption|]. right; right.
    exists startReq, body, taskId, (Part0.searchRequest GET "status" taskId (sid st1)),
      (Part0.searchRequest GET "list" taskId (sid st1)),
      (Part0.searchRequest POST "stop" taskId (sid st1)), polls, tail.
    split; [assumption|].
    split. { rewrite isSuccess_reply. unfold Part0.succeeded in Hs.
             destruct (Js.truthy body); [|discriminate].
             destruct (Js.prop body "success"); [discriminate|]. now injection Hs. }
    split; [assumption|]. split; [repeat split; reflexivity|].
    split; [repeat split; reflexivity|].
    split; [reflexivity|]. split; [assumption|].
    destruct (kind p) eqn:Kp.
    - split; [apply PollTail_returned; auto|]. intros ->. now elim Hk1.
    - rewrite (Hk2 ltac:(discriminate)). auto.
    - rewrite (Hk2 ltac:(discriminate)). auto. }
  assert (Hl : log (stateOf p) = (log st ++ pre ++ (startReq, Reply body) :: polls ++ tail)%list).
  { rewrite Hlog, Hlog1, <- !app_assoc. reflexivity. }
  destruct p as [results st2|e st2|st2]; cbn [stateOf kind] in *.
  - destruct (Part0_shaped_run "results" Part0.matchShape results st2)
      as [(a & -> & Ha)|(e & ->)]; intros ->; cbn [stateOf kind].
    + split; [intros ? ? [= <- _]; exact Ha|].
      eexists. split; [exact Hl|]. apply Hall; [discriminate|congruence].
    + split; [discriminate|].
      eexists. split; [exact Hl|]. apply Hall; [discriminate|congruence].
  - intros ->. split; [discriminate|]. cbn [stateOf kind].
    eexists. split; [exact Hl|]. apply Hall; [discriminate|reflexivity].
  - intros ->. split; [discriminate|]. cbn [stateOf kind].
    eexists. split; [exact Hl|]. apply Hall; [discriminate|reflexivity].
Qed.

(** The exchanges of a [search_files] call of the second variant. *)
Lemma Part0_search_trace fuel args st :
  let r := Part0.callTool env fuel "search_files" args st in
  exists t, log (stateOf r) = (log st ++ t)%list /\
            SearchTrace isSession Part0.str fuel (toolKind r) t.
Proof.
  cbn zeta. unfold Part0.callTool.
  destruct (Part0_search_run fuel args st _ eq_refl) as (Hok & t & Hlog & Htr).
  exists t. unfold tryCatch, ret.
  destruct (Part0.handle env fuel "search_files" args st) as [a st1|e st1|st1];
    cbn in *; auto.
  now rewrite (Hok a st1 eq_refl).
Qed.

End SearchInvocation.

(** * The ordering of the search protocol *)

Section Ordering.

Lemma isString_true v a : isString v a = true -> v = JStr a.
Proof.
  destruct v; try discriminate. cbn. intros H. apply String.eqb_eq in H. now subst.
Qed.

Lemma isString_other v a b : isString v a = true -> a <> b -> isString v b = false.
Proof.
  intros H Hab. apply isString_true in H. subst. cbn.
  apply String.eqb_neq. exact Hab.
Qed.

(** A request calls one method of one API. *)
Lemma calls_other api m api' m' req :
  calls api m req = true -> (api <> api' \/ m <> m') -> calls api' m' req = false.
Proof.
  unfold calls. intros H Hne. apply andb_prop in H as [H1 H2].
  destruct Hne as [Hne|Hne].
  - now rewrite (isString_other _ _ _ H1 Hne).
  - rewrite (isString_other _ _ _ H2 Hne). apply andb_false_r.
Qed.

Ltac other H := apply (calls_other _ _ _ _ _ H); (left + right); discriminate.

Lemma isLogin_quiet req : isLogin req = true -> namesTask req = false /\ isStart req = false.
Proof.
  intros H. unfold namesTask, isStatus, isList, isStop, isStart.
  rewrite !(calls_other _ _ "SYNO.FileStation.Search" _ _ H) by (left; discriminate).
  auto.
Qed.

Lemma isSession_quiet req : isSession req = true -> namesTask req = false /\ isStart req = false.
Proof.
  unfold isSession. intros H. apply orb_prop in H as [H|H]; [|now apply isLogin_quiet].
  unfold namesTask, isStatus, isList, isStop, isStart.
  rewrite !(calls_other _ _ "SYNO.FileStation.Search" _ _ H) by (left; discriminate).
  auto.
Qed.

Lemma isStart_quiet req : isStart req = true -> namesTask req = false.
Proof.
  intros H. unfold namesTask, isStatus, isList, isStop.
  rewrite !(calls_other _ _ "SYNO.FileStation.Search" _ _ H) by (right; discriminate).
  reflexivity.
Qed.

Lemma namesTask_false req :
  namesTask req = false -> isStatus req = false /\ isList req = false /\ isStop req = false.
Proof.
  unfold namesTask. destruct (isStatus req), (isList req), (isStop req); cbn; auto; discriminate.
Qed.

Lemma ordered_other fin lst stp req resp rest :
  namesTask req = false ->
  ordered fin lst stp ((req, resp) :: rest) = ordered fin lst stp rest.
Proof.
  intros H. apply namesTask_false in H as (H1 & H2 & H3). cbn. now rewrite H1, H2, H3.
Qed.

Lemma ordered_status fin lst stp req resp rest :
  isStatus req = true ->
  ordered fin lst stp ((req, resp) :: rest) =
  ordered (fin || reportsFinished resp) lst stp rest.
Proof.
  intros H. cbn. unfold isList, isStop.
  rewrite !(calls_other _ _ "SYNO.FileStation.Search" _ _ H) by (right; discriminate).
  now rewrite H.
Qed.

Lemma ordered_list fin lst stp req resp rest :
  isList req = true ->
  ordered fin lst stp ((req, resp) :: rest) = fin && ordered fin true stp rest.
Proof. intros H. cbn. now rewrite H. Qed.

Lemma ordered_stop fin lst stp req resp rest :
  isStop req = true ->
  ordered fin lst stp ((req, resp) :: rest) = lst && negb stp && ordered fin lst true rest.
Proof.
  intros H. cbn. unfold isList.
  rewrite (calls_other _ _ "SYNO.FileStation.Search" "list" _ H) by (right; discriminate).
  now rewrite H.
Qed.

Lemma ordered_pre (P : Request -> bool) fin lst stp pre t :
  (forall req, P req = true -> namesTask req = false) ->
  Forall (fun ex => P (fst ex) = true) pre ->
  ordered fin lst stp (pre ++ t) = ordered fin lst stp t.
Proof.
  intros HP H. induction H as [|[req resp] pre Hx _ IH]; [reflexivity|].
  cbn [app]. rewrite ordered_other; auto.
Qed.

Lemma ordered_polls statusReq fin lst stp polls t :
  isStatus statusReq = true ->
  Forall (unfinished statusReq) polls ->
  ordered fin lst stp (polls ++ t) = ordered fin lst stp t.
Proof.
  intros Hs H. induction H as [|[req resp] polls [Hreq Hu] _ IH]; [reflexivity|].
  cbn [app fst snd] in *. subst req. rewrite ordered_status by assumption.
  now rewrite Hu, orb_false_r.
Qed.

(** The ends of a search are in order. *)
Lemma ordered_tail statusReq listReq stopReq k tail :
  isStatus statusReq = true -> isList listReq = true -> isStop stopReq = true ->
  PollTail statusReq listReq stopReq k tail ->
  ordered false false false tail = true.
Proof.
  intros Hs Hl Hp [(-> & _)|[(r1 & -> & _)|[(r1 & r2 & -> & Hf & _)|(r1 & r2 & r3 & -> & Hf & _)]]].
  - reflexivity.
  - now rewrite ordered_status.
  - rewrite ordered_status, ordered_list by assumption. now rewrite Hf.
  - rewrite ordered_status, ordered_list, ordered_stop by assumption. now rewrite Hf.
Qed.

(** The exchanges of a search invocation are in order. *)
Lemma SearchTrace_ordered isPre idOf fuel k t :
  (forall req, isPre req = true -> namesTask req = false) ->
  SearchTrace isPre idOf fuel k t ->
  ordered false false false t = true.
Proof.
  intros HP (pre & Hpre & [(-> & _)|[(sq & sr & Hs & -> & _)|
    (sq & body & id & q1 & q2 & q3 & polls & tail & Hs & _ & _ & (H1 & H2 & H3) & _ & -> & Hpolls & Htail & _)]]).
  - rewrite (app_nil_end_log pre). now rewrite (ordered_pre isPre).
  - rewrite (ordered_pre isPre) by assumption. rewrite ordered_other; [reflexivity|].
    now apply isStart_quiet.
  - rewrite (ordered_pre isPre) by assumption.
    rewrite ordered_other by now apply isStart_quiet.
    rewrite (ordered_polls q1) by assumption.
    now apply (ordered_tail q1 q2 q3 k).
Qed.

(** What [ordered] checks, said on the log itself. *)
Lemma ordered_list_spec t : forall fin lst stp,
  ordered fin lst stp t = true ->
  forall t1 ex t2, t = (t1 ++ ex :: t2)%list -> isList (fst ex) = true ->
    fin = true \/
    exists ex', In ex' t1 /\ isStatus (fst ex') = true /\ reportsFinished (snd ex') = true.
Proof.
  induction t as [|[req resp] t IH]; intros fin lst stp Ho t1 ex t2 Ht Hl.
  - now destruct t1.
  - destruct t1 as [|x t1]; cbn [app] in Ht; injection Ht as Hx Ht.
    + subst ex. cbn [fst] in Hl. rewrite ordered_list in Ho by assumption.
      apply andb_prop in Ho as [Ho _]. auto.
    + subst x. assert (Hin : forall ex', In ex' t1 -> In ex' ((req, resp) :: t1)) by (intros; now right).
      destruct (isList req) eqn:E1.
      { rewrite ordered_list in Ho by assumption. apply andb_prop in Ho as [Hf Ho].
        auto. }
      destruct (isStop req) eqn:E2.
      { rewrite ordered_stop in Ho by assumption. apply andb_prop in Ho as [_ Ho].
        destruct (IH _ _ _ Ho _ _ _ Ht Hl) as [|(ex' & ? & ?)]; eauto. }
      destruct (isStatus req) eqn:E3.
      { rewrite ordered_status in Ho by assumption.
        destruct (IH _ _ _ Ho _ _ _ Ht Hl) as [Hor|(ex' & ? & ?)]; eauto.
        apply orb_prop in Hor as [|Hr]; auto.
        right. exists (req, resp). cbn. auto. }
      rewrite ordered_other in Ho by (unfold namesTask; now rewrite E1, E2, E3).
      destruct (IH _ _ _ Ho _ _ _ Ht Hl) as [|(ex' & ? & ?)]; eauto.
Qed.

Lemma ordered_stop_spec t : forall fin lst stp,
  ordered fin lst stp t = true ->
  forall t1 ex t2, t = (t1 ++ ex :: t2)%list -> isStop (fst ex) = true ->
    lst = true \/ exists ex', In ex' t1 /\ isList (fst ex') = true.
Proof.
  induction t as [|[req resp] t IH]; intros fin lst stp Ho t1 ex t2 Ht Hl.
  - now destruct t1.
  - destruct t1 as [|x t1]; cbn [app] in Ht; injection Ht as Hx Ht.
    + subst ex. cbn [fst] in Hl. rewrite ordered_stop in Ho by assumption.
      apply andb_prop in Ho as [Ho _]. apply andb_prop in Ho as [Ho _]. auto.
    + subst x.
      destruct (isList req) eqn:E1.
      { right. exists (req, resp). cbn. auto. }
      destruct (isStop req) eqn:E2.
      { rewrite ordered_stop in Ho by assumption. apply andb_prop in Ho as [Hf Ho].
        apply andb_prop in Hf as [Hf _]. auto. }
      destruct (isStatus req) eqn:E3.
      { rewrite ordered_status in Ho by assumption.
        destruct (IH _ _ _ Ho _ _ _ Ht Hl) as [|(ex' & ? & ?)]; auto.
        right. exists ex'. cbn. auto. }
      rewrite ordered_other in Ho by (unfold namesTask; now rewrite E1, E2, E3).
      destruct (IH _ _ _ Ho _ _ _ Ht Hl) as [|(ex' & ? & ?)]; auto.
      right. exists ex'. cbn. auto.
Qed.

Lemma count_cons p (ex : Exchange) t :
  count p (ex :: t) = ((if p (fst ex) then 1 else 0) + count p t)%nat.
Proof. unfold count. cbn. now destruct (p (fst ex)). Qed.

Lemma count_app p (t1 t2 : list Exchange) :
  count p (t1 ++ t2) = (count p t1 + count p t2)%nat.
Proof. unfold count. now rewrite filter_app, length_app. Qed.

Lemma ordered_stop_count t : forall fin lst stp,
  ordered fin lst stp t = true ->
  (count isStop t <= if stp then 0 else 1)%nat.
Proof.
  induction t as [|[req resp] t IH]; intros fin lst stp Ho; [destruct stp; cbn; lia|].
  rewrite count_cons. cbn [fst].
  destruct (isList req) eqn:E1.
  { rewrite ordered_list in Ho by assumption. apply andb_prop in Ho as [_ Ho].
    unfold isStop. rewrite (calls_other _ _ "SYNO.FileStation.Search" "stop" _ E1)
      by (right; discriminate). apply (IH _ _ _ Ho). }
  destruct (isStop req) eqn:E2.
  { rewrite ordered_stop in Ho by assumption. apply andb_prop in Ho as [Hf Ho].
    apply andb_prop in Hf as [_ Hf]. apply negb_true_iff in Hf. subst stp.
    specialize (IH _ _ _ Ho). cbn in IH. lia. }
  destruct (isStatus req) eqn:E3.
  { rewrite ordered_status in Ho by assumption. apply (IH _ _ _ Ho). }
  rewrite ordered_other in Ho by (unfold namesTask; now rewrite E1, E2, E3).
  apply (IH _ _ _ Ho).
Qed.

(** The requests of a search invocation that name a task name the same. *)
Lemma SearchTrace_ids isPre idOf fuel k t :
  (forall req, isPre req = true -> namesTask req = false) ->
  SearchTrace isPre idOf fuel k t ->
  exists id, Forall (fun ex => namesTask (fst ex) = true -> param "taskid" (fst ex) = id) t.
Proof.
  intros HP (pre & Hpre & Hcases).
  assert (Hq : forall id, Forall (fun ex => namesTask (fst ex) = true ->
                                            param "taskid" (fst ex) = id) pre).
  { intros id. eapply Forall_impl; [|exact Hpre]. cbn. intros ex H1 H2.
    rewrite (HP _ H1) in H2. discriminate. }
  destruct Hcases as [(-> & _)|[(sq & sr & Hs & -> & _)|
    (sq & body & id & q1 & q2 & q3 & polls & tail & Hs & _ & _ & _ & (H1 & H2 & H3) & -> & Hpolls & Htail & _)]].
  - exists JUndefined. apply Hq.
  - exists JUndefined. apply Forall_app. split; [apply Hq|].
    constructor; [|constructor]. cbn. intros H. now rewrite (isStart_quiet _ Hs) in H.
  - exists (idOf id). apply Forall_app. split; [apply Hq|].
    constructor. { cbn. intros H. now rewrite (isStart_quiet _ Hs) in H. }
    apply Forall_app. split.
    + eapply Forall_impl; [|exact Hpolls]. intros ex [-> _] _. exact H1.
    + destruct Htail as [(-> & _)|[(r1 & -> & _)|[(r1 & r2 & -> & _)|(r1 & r2 & r3 & -> & _)]]];
        repeat constructor; cbn; auto.
Qed.

(** The ordering invariant of a search invocation, on its exchanges. *)
Lemma SearchTrace_invariant isPre idOf fuel k t :
  (forall req, isPre req = true -> namesTask req = false) ->
  SearchTrace isPre idOf fuel k t ->
  StopAfterList t /\ StopOnce t /\ ListAfterFinished t.
Proof.
  intros HP Htr.
  pose proof (SearchTrace_ordered _ _ _ _ _ HP Htr) as Ho.
  destruct (SearchTrace_ids _ _ _ _ _ HP Htr) as (id & Hid).
  rewrite Forall_forall in Hid.
  assert (Hsame : forall t1 ex t2 ex', t = (t1 ++ ex :: t2)%list -> In ex' t1 ->
            namesTask (fst ex) = true -> namesTask (fst ex') = true ->
            param "taskid" (fst ex') = param "taskid" (fst ex)).
  { intros t1 ex t2 ex' -> Hin H1 H2.
    rewrite (Hid ex), (Hid ex'); auto; apply in_or_app; cbn; auto. }
  split; [|split].
  - intros t1 ex t2 Ht Hs.
    destruct (ordered_stop_spec _ _ _ _ Ho _ _ _ Ht Hs) as [|(ex' & Hin & Hl)]; [discriminate|].
    exists ex'. repeat split; auto. apply (Hsame _ _ _ _ Ht Hin).
    + unfold namesTask. rewrite Hs. now rewrite !orb_true_r.
    + unfold namesTask. rewrite Hl. now rewrite orb_true_r.
  - apply (ordered_stop_count _ _ _ _ Ho).
  - intros t1 ex t2 Ht Hl.
    destruct (ordered_list_spec _ _ _ _ Ho _ _ _ Ht Hl) as [|(ex' & Hin & Hs & Hf)]; [discriminate|].
    exists ex'. repeat split; auto. apply (Hsame _ _ _ _ Ht Hin).
    + unfold namesTask. rewrite Hl. now rewrite orb_true_r.
    + unfold namesTask. now rewrite Hs.
Qed.

End Ordering.

(** C2: in every search invocation, whatever the NAS answers and however
    long the polling has run, a stop request comes only after the list
    request for the same task, there is at most one stop request, and a
    list request comes only after a status response for that task that
    reports it finished. *)
Theorem search_calls_ordered (env : Env) (fuel : nat) (args : json) (st : State) :
  (exists t,
     log (stateOf (Index.callTool env fuel "search" args st)) = (log st ++ t)%list /\
     StopAfterList t /\ StopOnce t /\ ListAfterFinished t) /\
  (exists t,
     log (stateOf (Part0.callTool env fuel "search_files" args st)) = (log st ++ t)%list /\
     StopAfterList t /\ StopOnce t /\ ListAfterFinished t).
Proof.
  split.
  - destruct (Index_search_trace env fuel args st) as (t & Hlog & Htr).
    exists t. split; [exact Hlog|].
    apply (SearchTrace_invariant _ _ _ _ _ (fun req H => proj1 (isLogin_quiet req H)) Htr).
  - destruct (Part0_search_trace env fuel args st) as (t & Hlog & Htr).
    exists t. split; [exact Hlog|].
    apply (SearchTrace_invariant _ _ _ _ _ (fun req H => proj1 (isSession_quiet req H)) Htr).
Qed.

(** C3, as stated: a counterexample.  The start request is answered with
    a task and the status request is rejected: both programs return an
    error result and no stop request has been sent. *)
Lemma search_failure_sends_no_stop :
  let env := labEnv statusDownNas in
  (exists res st' startReq body,
     Index.callTool env 5 "search" searchArgs fresh = Ok res st' /\
     isError res = true /\
     In (startReq, Reply body) (log st') /\ isStart startReq = true /\
     isSuccess (Reply body) = true /\ prop2 body "data" "taskid" = inr (JStr "task-1") /\
     count isStop (log st') = 0%nat) /\
  (exists res st' startReq body,
     Part0.callTool env 5 "search_files" searchFilesArgs freshPart0 = Ok res st' /\
     isError res = true /\
     In (startReq, Reply body) (log st') /\ isStart startReq = true /\
     isSuccess (Reply body) = true /\ prop2 body "data" "taskid" = inr (JStr "task-1") /\
     count isStop (log st') = 0%nat).
Proof.
  cbn zeta. split.
  - eexists _, _, _, _. split; [vm_compute; reflexivity|].
    split; [reflexivity|]. split; [right; left; reflexivity|].
    repeat split; reflexivity.
  - eexists _, _, _, _. split; [vm_compute; reflexivity|].
    split; [reflexivity|]. split; [right; left; reflexivity|].
    repeat split; reflexivity.
Qed.

Section Outcomes.

Lemma count_none p (t : list Exchange) :
  Forall (fun ex => p (fst ex) = false) t -> count p t = 0%nat.
Proof.
  intros H. induction H as [|ex t Hx _ IH]; [reflexivity|].
  rewrite count_cons, Hx, IH. reflexivity.
Qed.

Lemma count_polls statusReq polls :
  isStatus statusReq = true -> Forall (unfinished statusReq) polls ->
  count isStatus polls = length polls /\ count isStop polls = 0%nat.
Proof.
  intros Hs H. induction H as [|ex polls [Hx _] _ [IH1 IH2]]; [auto|].
  rewrite !count_cons, Hx, Hs, IH1, IH2. split; [reflexivity|].
  unfold isStop. now rewrite (calls_other _ _ "SYNO.FileStation.Search" "stop" _ Hs)
    by (right; discriminate).
Qed.

Lemma count_pre (isPre : Request -> bool) p pre :
  (forall req, isPre req = true -> p req = false) ->
  Forall (fun ex => isPre (fst ex) = true) pre -> count p pre = 0%nat.
Proof.
  intros HP H. apply count_none. eapply Forall_impl; [|exact H]. cbn. auto.
Qed.

(** A search invocation that succeeds has started a task and ends with
    the one stop request, for that task. *)
Lemma SearchTrace_returned isPre idOf fuel t :
  (forall req, isPre req = true -> namesTask req = false) ->
  SearchTrace isPre idOf fuel Returned t -> StartedAndStopped idOf t.
Proof.
  intros HP (pre & Hpre & [(_ & H)|[(sq & sr & _ & _ & H)|
    (sq & body & id & q1 & q2 & q3 & polls & tail & Hs & _ & Hid & (H1 & H2 & H3) &
     (_ & _ & I3) & -> & Hpolls & Htail & _)]]); try discriminate.
  destruct Htail as [(_ & H)|[(r1 & _ & H)|[(r1 & r2 & _ & _ & H)|(r1 & r2 & r3 & -> & _ & _)]]];
    try discriminate.
  exists pre, sq, body, id, (polls ++ [(q1, r1); (q2, r2)])%list, q3, r3.
  split; [now rewrite <- app_assoc|]. repeat split; auto.
  rewrite count_app, count_cons, count_app, !count_cons. cbn [fst count length filter].
  rewrite (count_pre isPre) by (auto; intros req H; now apply namesTask_false, HP).
  rewrite (proj2 (count_polls q1 polls H1 Hpolls)).
  pose proof (isStart_quiet _ Hs) as Q. apply namesTask_false in Q as (_ & _ & ->).
  unfold isStop at 1 2.
  rewrite (calls_other _ _ "SYNO.FileStation.Search" "stop" _ H1) by (right; discriminate).
  rewrite (calls_other _ _ "SYNO.FileStation.Search" "stop" _ H2) by (right; discriminate).
  now rewrite H3.
Qed.

(** A search invocation that is still waiting has polled [fuel] times
    without a finished status. *)
Lemma SearchTrace_waiting isPre idOf fuel t :
  (forall req, isPre req = true -> namesTask req = false) ->
  SearchTrace isPre idOf fuel Waiting t ->
  count isStatus t = fuel /\
  forall ex, In ex t -> isStatus (fst ex) = true -> reportsFinished (snd ex) = false.
Proof.
  intros HP (pre & Hpre & [(_ & H)|[(sq & sr & _ & _ & H)|
    (sq & body & id & q1 & q2 & q3 & polls & tail & Hs & _ & Hid & (H1 & H2 & H3) &
     _ & -> & Hpolls & Htail & Hlen)]]); try discriminate.
  destruct Htail as [(-> & _)|[(r1 & _ & H)|[(r1 & r2 & _ & _ & H)|(r1 & r2 & r3 & _ & _ & H)]]];
    try discriminate; try congruence.
  rewrite app_nil_r. split.
  - rewrite count_app, count_cons. cbn [fst].
    rewrite (count_pre isPre) by (auto; intros req H; now apply namesTask_false, HP).
    pose proof (isStart_quiet _ Hs) as Q. apply namesTask_false in Q as (-> & _ & _).
    rewrite (proj1 (count_polls q1 polls H1 Hpolls)). cbn. now apply Hlen.
  - intros ex Hin Hst. apply in_app_or in Hin as [Hin|[<-|Hin]].
    + rewrite Forall_forall in Hpre. apply Hpre, HP, namesTask_false in Hin as (Hin & _).
      congruence.
    + cbn in Hst. pose proof (isStart_quiet _ Hs) as Q.
      apply namesTask_false in Q as (Q & _). congruence.
    + rewrite Forall_forall in Hpolls. now apply Hpolls.
Qed.

End Outcomes.

(** C3, amended: a search invocation that succeeds has sent, as its last
    request, one stop request for the task that the start request
    returned.  (On the paths where a status or list request fails there is
    no cleanup.) *)
Theorem search_success_stops (env : Env) (fuel : nat) (args : json) (st : State) :
  (toolKind (Index.callTool env fuel "search" args st) = Returned ->
   exists t,
     log (stateOf (Index.callTool env fuel "search" args st)) = (log st ++ t)%list /\
     StartedAndStopped (fun v => v) t) /\
  (toolKind (Part0.callTool env fuel "search_files" args st) = Returned ->
   exists t,
     log (stateOf (Part0.callTool env fuel "search_files" args st)) = (log st ++ t)%list /\
     StartedAndStopped Part0.str t).
Proof.
  split; intros Hk.
  - destruct (Index_search_trace env fuel args st) as (t & Hlog & Htr).
    exists t. split; [exact Hlog|]. rewrite Hk in Htr.
    apply (SearchTrace_returned _ _ _ _ (fun req H => proj1 (isLogin_quiet req H)) Htr).
  - destruct (Part0_search_trace env fuel args st) as (t & Hlog & Htr).
    exists t. split; [exact Hlog|]. rewrite Hk in Htr.
    apply (SearchTrace_returned _ _ _ _ (fun req H => proj1 (isSession_quiet req H)) Htr).
Qed.

(** The amended C3 on the working NAS: both searches succeed within
    three rounds. *)
Lemma search_success_stops_witness :
  (exists t,
     log (stateOf (Index.callTool (labEnv healthyNas) 3 "search" searchArgs fresh))
       = (log fresh ++ t)%list /\
     StartedAndStopped (fun v => v) t) /\
  (exists t,
     log (stateOf (Part0.callTool (labEnv healthyNas) 3 "search_files" searchFilesArgs freshPart0))
       = (log freshPart0 ++ t)%list /\
     StartedAndStopped Part0.str t).
Proof.
  split.
  - apply (proj1 (search_success_stops (labEnv healthyNas) 3 searchArgs fresh)).
    vm_compute. reflexivity.
  - apply (proj2 (search_success_stops (labEnv healthyNas) 3 searchFilesArgs freshPart0)).
    vm_compute. reflexivity.
Defined.

(** * The dispatcher *)

Section EndsRules.

Lemma ends_ret {A} (P : A -> Prop) a : P a -> Ends P (ret a).
Proof. intros H st. exact H. Qed.

Lemma ends_throw {A} (P : A -> Prop) e : Ends P (throw e).
Proof. intros st. exact I. Qed.

Lemma ends_lift {A} (x : E A) : Ends (fun _ => True) (lift x).
Proof. intros st. now destruct x. Qed.

Lemma ends_http nas req : Ends (fun _ => True) (http nas req).
Proof. intros st. unfold http. now destruct (nas (log st) req). Qed.

Lemma ends_getSid : Ends (fun _ => True) getSid.
Proof. intros st. exact I. Qed.

Lemma ends_setSid v : Ends (fun _ => True) (setSid v).
Proof. intros st. exact I. Qed.

Lemma ends_bind {A B} (P : B -> Prop) (m : M A) (k : A -> M B) :
  Ends (fun _ => True) m -> (forall a, Ends P (k a)) -> Ends P (bind m k).
Proof.
  intros Hm Hk st. unfold bind. specialize (Hm st).
  destruct (m st) as [a st1|e st1|st1]; auto. apply Hk.
Qed.

Lemma ends_tryCatch {A} (P : A -> Prop) (m : M A) (h : exn -> M A) :
  Ends P m -> (forall e, Ends P (h e)) -> Ends P (tryCatch m h).
Proof.
  intros Hm Hh st. unfold tryCatch. specialize (Hm st).
  destruct (m st) as [a st1|e st1|st1]; auto. apply Hh.
Qed.

Lemma ends_any {A} (P : A -> Prop) (m : M A) : Ends P m -> Ends (fun _ => True) m.
Proof. intros H st. specialize (H st). now destruct (m st). Qed.

End EndsRules.

Create HintDb ends.

Ltac ends_step :=
  first
    [ apply ends_ret; first [reflexivity | exact I]
    | apply ends_throw
    | apply ends_lift
    | apply ends_http
    | apply ends_getSid
    | apply ends_setSid
    | solve [auto with ends]
    | apply ends_bind; [|intro]
    | apply ends_tryCatch; [|intro]
    | match goal with
      | |- Ends _ (if ?b then _ else _) => destruct b
      | |- Ends _ (match ?x with _ => _ end) => destruct x
      end
    | progress cbv zeta ].

Ltac ends := repeat ends_step.

Section EndsIndex.
Context (env : Env).

Lemma Index_login_ends : Ends (fun _ => True) (Index.login env).
Proof. unfold Index.login. ends. Qed.

Lemma Index_logout_ends : Ends (fun _ => True) (Index.logout env).
Proof. unfold Index.logout. ends. Qed.

Lemma Index_entry_ends ps : Ends (fun _ => True) (Index.entry env ps).
Proof. unfold Index.entry. ends. Qed.

Lemma Index_check_ends body prefix : Ends (fun _ => True) (Index.check body prefix).
Proof. unfold Index.check. ends. Qed.

Lemma Index_parse_ends schema args : Ends (fun _ => True) (Index.parse schema args).
Proof. unfold Index.parse. ends. Qed.

Hint Resolve Index_login_ends Index_logout_ends Index_entry_ends Index_check_ends
  Index_parse_ends : ends.

Let good (r : ToolResult) : Prop := isError r = false.

(** Every case of [src/index.ts] but [search] ends, and what it returns
    carries no error mark. *)
Lemma Index_handle_ends fuel name args :
  name <> "search" -> Ends good (Index.handle env fuel name args).
Proof.
  intros Hn. unfold Index.handle.
  repeat match goal with
         | |- Ends _ (if String.eqb name ?s then _ else _) =>
             destruct (String.eqb name s) eqn:?
         end.
  - ends.
  - ends.
  - unfold Index.list_folders. ends.
  - unfold Index.get_file. ends.
  - unfold Index.upload_file. ends.
  - unfold Index.create_folder. ends.
  - unfold Index.delete_item. ends.
  - unfold Index.move_item. ends.
  - exfalso. apply Hn. now apply String.eqb_eq.
  - unfold Index.get_share_links. ends.
  - unfold Index.get_server_info. ends.
  - unfold Index.get_quota_info. ends.
  - ends.
Qed.

End EndsIndex.

Section EndsPart0.
Context (env : Env).

Lemma Part0_synoLogin_ends : Ends (fun _ => True) (Part0.synoLogin env).
Proof. unfold Part0.synoLogin. ends. Qed.

Hint Resolve Part0_synoLogin_ends : ends.

Lemma Part0_refreshSession_ends : Ends (fun _ => True) (Part0.refreshSession env).
Proof. unfold Part0.refreshSession. ends. Qed.

Lemma Part0_entry_ends v ps : Ends (fun _ => True) (Part0.entry env v ps).
Proof. unfold Part0.entry. ends. Qed.

Lemma Part0_fail_ends {A} (P : A -> Prop) body prefix : Ends P (Part0.fail body prefix).
Proof. unfold Part0.fail. ends. Qed.

Lemma Part0_parse_ends tool schema args : Ends (fun _ => True) (Part0.parse tool schema args).
Proof. unfold Part0.parse. ends. Qed.

Hint Resolve Part0_refreshSession_ends Part0_entry_ends Part0_fail_ends Part0_parse_ends : ends.

Lemma Part0_listShares_ends : Ends (fun _ => True) (Part0.listShares env).
Proof. unfold Part0.listShares, Part0.logged. ends. Qed.

Lemma Part0_listDirectory_ends p : Ends (fun _ => True) (Part0.listDirectory env p).
Proof. unfold Part0.listDirectory, Part0.logged. ends. Qed.

Lemma Part0_readFile_ends p : Ends (fun _ => True) (Part0.readFile env p).
Proof. unfold Part0.readFile, Part0.logged. ends. Qed.

Lemma Part0_writeFile_ends p c : Ends (fun _ => True) (Part0.writeFile env p c).
Proof. unfold Part0.writeFile, Part0.logged. ends. Qed.

Lemma Part0_createDirectory_ends p : Ends (fun _ => True) (Part0.createDirectory env p).
Proof. unfold Part0.createDirectory, Part0.logged. ends. Qed.

Lemma Part0_getFileInfo_ends p : Ends (fun _ => True) (Part0.getFileInfo env p).
Proof. unfold Part0.getFileInfo, Part0.logged. ends. Qed.

Let good (r : ToolResult) : Prop := isError r = false.

Lemma Part0_shaped_ends name shape v : Ends good (Part0.shaped env name shape v).
Proof. unfold Part0.shaped. ends. Qed.

Hint Resolve Part0_listShares_ends Part0_listDirectory_ends Part0_readFile_ends
  Part0_writeFile_ends Part0_createDirectory_ends Part0_getFileInfo_ends
  Part0_shaped_ends : ends.

(** Every case of the second variant but [search_files] ends, and what it
    returns carries no error mark. *)
Lemma Part0_handle_ends fuel name args :
  name <> "search_files" -> Ends good (Part0.handle env fuel name args).
Proof.
  intros Hn. unfold Part0.handle.
  repeat match goal with
         | |- Ends _ (if String.eqb name ?s then _ else _) =>
             destruct (String.eqb name s) eqn:?
         end.
  - ends.
  - ends.
  - ends.
  - ends.
  - ends.
  - exfalso. apply Hn. now apply String.eqb_eq.
  - ends.
  - ends.
Qed.

End EndsPart0.

Section Dispatcher.
Context (env : Env).

Lemma wellFormed_error m : wellFormed (mkResult ("Error: " ++ m) true).
Proof. right. split; [reflexivity|]. now exists m. Qed.

(** What the handler of [src/index.ts] gives back. *)
Lemma Index_callTool_result fuel name args st :
  (exists res st', Index.callTool env fuel name args st = Ok res st' /\ wellFormed res) \/
  (exists st', Index.callTool env fuel name args st = Pending st' /\
               name = "search" /\ StillPolling fuel st st').
Proof.
  unfold Index.callTool, tryCatch, ret.
  destruct (string_dec name "search") as [->|Hn].
  - rewrite Index_handle_search.
    destruct (Index_search_run env fuel args st _ eq_refl) as (Hok & t & Hlog & Htr).
    destruct (Index.search env fuel args st) as [a st1|e st1|st1]; cbn [stateOf kind] in *.
    + left. exists a, st1. split; [reflexivity|]. left. now apply (Hok a st1).
    + left. eexists _, _. split; [reflexivity|]. apply wellFormed_error.
    + right. exists st1. split; [reflexivity|]. split; [reflexivity|].
      exists t. split; [exact Hlog|].
      apply (SearchTrace_waiting _ _ _ _ (fun req H => proj1 (isLogin_quiet req H)) Htr).
  - left. pose proof (Index_handle_ends env fuel name args Hn st) as H.
    destruct (Index.handle env fuel name args st) as [a st1|e st1|st1]; [| |contradiction].
    + exists a, st1. split; [reflexivity|]. now left.
    + eexists _, _. split; [reflexivity|]. apply wellFormed_error.
Qed.

(** What the handler of the second variant gives back. *)
Lemma Part0_callTool_result fuel name args st :
  (exists res st', Part0.callTool env fuel name args st = Ok res st' /\ wellFormed res) \/
  (exists st', Part0.callTool env fuel name args st = Pending st' /\
               name = "search_files" /\ StillPolling fuel st st').
Proof.
  unfold Part0.callTool, tryCatch, ret.
  destruct (string_dec name "search_files") as [->|Hn].
  - destruct (Part0_search_run env fuel args st _ eq_refl) as (Hok & t & Hlog & Htr).
    destruct (Part0.handle env fuel "search_files" args st) as [a st1|e st1|st1];
      cbn [stateOf kind] in *.
    + left. exists a, st1. split; [reflexivity|]. left. now apply (Hok a st1).
    + left. eexists _, _. split; [reflexivity|]. apply wellFormed_error.
    + right. exists st1. split; [reflexivity|]. split; [reflexivity|].
      exists t. split; [exact Hlog|].
      apply (SearchTrace_waiting _ _ _ _ (fun req H => proj1 (isSession_quiet req H)) Htr).
  - left. pose proof (Part0_handle_ends env fuel name args Hn st) as H.
    destruct (Part0.handle env fuel name args st) as [a st1|e st1|st1]; [| |contradiction].
    + exists a, st1. split; [reflexivity|]. now left.
    + eexists _, _. split; [reflexivity|]. apply wellFormed_error.
Qed.

End Dispatcher.

(** On a NAS that never reports the task finished, the loop of
    [src/index.ts] is still waiting after any number of rounds. *)
Lemma Index_poll_busy fuel : forall taskId sessionId keyword path st,
  exists st', Index.poll (labEnv busyNas) fuel taskId sessionId keyword path st = Pending st'.
Proof.
  induction fuel as [|fuel IH]; intros taskId sessionId keyword path st.
  - now exists st.
  - cbn [Index.poll]. run. cbn. apply IH.
Qed.

(** C7, as stated: a counterexample.  On a NAS that never reports the
    search finished, a [search] call returns no result, however many
    rounds the polling loop is given. *)
Lemma search_may_never_return :
  ~ exists fuel res st',
      Index.callTool (labEnv busyNas) fuel "search" searchArgs fresh = Ok res st'.
Proof.
  intros (fuel & res & st' & H). revert H.
  unfold Index.callTool. rewrite Index_handle_search.
  unfold Index.search, tryCatch. run. cbn -[Index.poll].
  match goal with
  | |- context [Index.poll ?e ?f ?t ?s ?k ?p ?st] =>
      destruct (Index_poll_busy f t s k p st) as (st1 & ->)
  end.
  discriminate.
Qed.

(** C7, amended: for every tool name, arguments, state and NAS, no
    exception leaves the dispatcher, and it returns a well-formed result:
    a text without the error mark, or a text [Error: <message>] with it.
    The one case in which it returns nothing is a search whose polling is
    still going on: after [fuel] rounds, [fuel] status requests have been
    sent and none was answered with a finished task. *)
Theorem callTool_result (env : Env) (fuel : nat) (name : string) (args : json) (st : State) :
  ((exists res st', Index.callTool env fuel name args st = Ok res st' /\ wellFormed res) \/
   (exists st', Index.callTool env fuel name args st = Pending st' /\
                name = "search" /\ StillPolling fuel st st')) /\
  ((exists res st', Part0.callTool env fuel name args st = Ok res st' /\ wellFormed res) \/
   (exists st', Part0.callTool env fuel name args st = Pending st' /\
                name = "search_files" /\ StillPolling fuel st st')).
Proof.
  split; [apply Index_callTool_result|apply Part0_callTool_result].
Qed.

(** * Argument validation *)

Section Validation.
Import Str StrFacts.

Lemma prefix_app_r s : forall t b, String.prefix s t = true -> String.prefix s (t ++ b) = true.
Proof.
  induction s as [|c s IH]; intros t b H.
  - now destruct (t ++ b).
  - destruct t as [|d t]; [discriminate|]. cbn in *.
    destruct (ascii_dec c d); [now apply IH|discriminate].
Qed.

Lemma includes_app_r t : forall s b, includes t s = true -> includes (t ++ b) s = true.
Proof.
  induction t as [|c t IH]; intros s b H.
  - cbn in H. destruct s; [|discriminate]. now destruct b.
  - change (String c t ++ b) with (String c (t ++ b)). cbn [includes] in *.
    destruct (String.prefix s (String c t)) eqn:E.
    + apply (prefix_app_r _ _ b) in E. cbn [append] in E. now rewrite E.
    + rewrite (IH _ b H). destruct (String.prefix s (String c (t ++ b))); reflexivity.
Qed.

Lemma includes_quoted f : includes (quoted f) f = true.
Proof. apply includes_mid. Qed.

(** An issue prints the field it is about. *)
Lemma includes_issueText i f : path i = [f] -> includes (issueText i) f = true.
Proof.
  intros H. unfold issueText. rewrite H. cbn [pathText pathItems].
  do 23 apply includes_app_l. apply includes_app_r.
  do 2 apply includes_app_l. apply includes_app_r.
  apply includes_app_l, includes_app_r, includes_quoted.
Qed.

Lemma includes_issuesText issues i f :
  In i issues -> path i = [f] -> includes (issuesText issues) f = true.
Proof.
  intros Hin Hp. induction issues as [|j rest IH]; [contradiction|].
  assert (Hj : i = j -> includes (issuesText (j :: rest)) f = true).
  { intros <-. cbn [issuesText]. destruct rest; apply includes_app_r, includes_issueText, Hp. }
  destruct Hin as [->|Hin]; [now apply Hj|].
  specialize (IH Hin). cbn [issuesText]. destruct rest as [|k rest]; [contradiction|].
  now do 3 apply includes_app_l.
Qed.

Lemma includes_zodMessage issues i f :
  In i issues -> path i = [f] -> includes (zodMessage issues) f = true.
Proof.
  intros Hin Hp. destruct issues as [|j rest]; [contradiction|].
  unfold zodMessage. do 2 apply includes_app_l.
  apply includes_app_r. now apply (includes_issuesText _ i).
Qed.

(** A required field that is missing or is no string gives an issue with
    its name as path. *)
Lemma parseFields_required fields schema f :
  In (f, Required) schema -> (forall s, Js.assoc f fields <> JStr s) ->
  exists i, In i (fst (parseFields fields schema)) /\ path i = [f].
Proof.
  intros Hin Hbad. induction schema as [|g rest IH]; [contradiction|].
  cbn [parseFields]. destruct (parseFields fields rest) as [issues data] eqn:E.
  destruct Hin as [->|Hin].
  - cbn [parseField]. destruct (Js.assoc f fields) eqn:Ea;
      try (eexists; split; [left; reflexivity|reflexivity]).
    now elim (Hbad s).
  - destruct (IH Hin) as (i & Hi & Hp). cbn [fst] in Hi.
    exists i. split; [|exact Hp].
    destruct (parseField fields g) as [|[]]; cbn; auto.
Qed.

Lemma safeParse_required fields schema f :
  In (f, Required) schema -> (forall s, Js.assoc f fields <> JStr s) ->
  exists issues, safeParse schema (JObj fields) = inl issues /\
                 includes (zodMessage issues) f = true.
Proof.
  intros Hin Hbad. destruct (parseFields_required fields schema f Hin Hbad) as (i & Hi & Hp).
  unfold safeParse. destruct (parseFields fields schema) as [issues data]. cbn [fst] in Hi.
  destruct issues as [|j rest]; [contradiction|].
  eexists. split; [reflexivity|]. now apply (includes_zodMessage _ i).
Qed.

(** Arguments that are no object at all are refused too. *)
Lemma safeParse_no_object schema v :
  (forall fields, v <> JObj fields) ->
  safeParse schema v = inl [invalidType "object" v []].
Proof. intros H. destruct v; try reflexivity. now elim (H fields). Qed.

End Validation.

Section Refusal.
Context (env : Env).
Import StrFacts.

Ltac refuse Hsp Hinc :=
  unfold tryCatch, bind; rewrite Hsp; unfold throw, ret;
  eexists; split; [reflexivity|]; split; [reflexivity|];
  cbn [text message]; do 2 apply includes_app_l; exact Hinc.

(** [src/index.ts]: arguments with a bad required field are refused before
    any request is sent, and the text names the field. *)
Lemma Index_refuses fuel st name schema f fields :
  In (f, Required) schema -> (forall s, Js.assoc f fields <> JStr s) ->
  In (name, schema) Index.tools ->
  exists res, Index.callTool env fuel name (JObj fields) st = Ok res st /\
              isError res = true /\ Str.includes (text res) f = true.
Proof.
  intros Hreq Hbad Hin.
  destruct (safeParse_required fields schema f Hreq Hbad) as (issues & Hsp & Hinc).
  unfold Index.tools in Hin. cbn [In] in Hin.
  repeat (destruct Hin as [Hin|Hin]; [injection Hin as <- <-|]); try contradiction;
    unfold Index.callTool;
    match goal with
    | |- context [Index.handle env fuel ?n ?a] =>
        let h := eval cbv beta iota delta [Index.handle String.eqb Ascii.eqb Bool.eqb]
                 in (Index.handle env fuel n a) in
        change (Index.handle env fuel n a) with h
    end.
  - unfold Index.list_folders, Index.parse. refuse Hsp Hinc.
  - unfold Index.get_file, Index.parse. refuse Hsp Hinc.
  - unfold Index.upload_file, Index.parse. refuse Hsp Hinc.
  - unfold Index.create_folder, Index.parse. refuse Hsp Hinc.
  - unfold Index.delete_item, Index.parse. refuse Hsp Hinc.
  - unfold Index.move_item, Index.parse. refuse Hsp Hinc.
  - unfold Index.search, Index.parse. refuse Hsp Hinc.
  - unfold Index.get_share_links, Index.parse. refuse Hsp Hinc.
  - unfold Index.get_quota_info, Index.parse. refuse Hsp Hinc.
Qed.

(** The second variant: the same. *)
Lemma Part0_refuses fuel st name schema f fields :
  In (f, Required) schema -> (forall s, Js.assoc f fields <> JStr s) ->
  In (name, schema) Part0.tools ->
  exists res, Part0.callTool env fuel name (JObj fields) st = Ok res st /\
              isError res = true /\ Str.includes (text res) f = true.
Proof.
  intros Hreq Hbad Hin.
  destruct (safeParse_required fields schema f Hreq Hbad) as (issues & Hsp & Hinc).
  unfold Part0.tools in Hin. cbn [In] in Hin.
  repeat (destruct Hin as [Hin|Hin]; [injection Hin as <- <-|]); try contradiction;
    unfold Part0.callTool;
    match goal with
    | |- context [Part0.handle env fuel ?n ?a] =>
        let h := eval cbv beta iota delta [Part0.handle String.eqb Ascii.eqb Bool.eqb]
                 in (Part0.handle env fuel n a) in
        change (Part0.handle env fuel n a) with h
    end;
    unfold Part0.parse, tryCatch, bind; rewrite Hsp; unfold throw, ret;
    (eexists; split; [reflexivity|]; split; [reflexivity|]);
    cbn [text message]; do 4 apply includes_app_l; exact Hinc.
Qed.

(** With no arguments at all, a tool that requires a field sends nothing
    and returns an error result. *)
Lemma absent_arguments_refused fuel st name schema f :
  In (f, Required) schema ->
  (In (name, schema) Index.tools ->
   exists res, Index.callTool env fuel name JUndefined st = Ok res st /\ isError res = true) /\
  (In (name, schema) Part0.tools ->
   exists res, Part0.callTool env fuel name JUndefined st = Ok res st /\ isError res = true).
Proof.
  intros Hreq. split; intros Hin.
  - unfold Index.tools in Hin. cbn [In] in Hin.
    repeat (destruct Hin as [Hin|Hin]; [injection Hin as <- <-|]); try contradiction;
      eexists; split; reflexivity.
  - unfold Part0.tools in Hin. cbn [In] in Hin.
    repeat (destruct Hin as [Hin|Hin]; [injection Hin as <- <-|]); try contradiction;
      eexists; split; reflexivity.
Qed.

End Refusal.

(** C8, as stated: a counterexample.  A [search] call without arguments
    misses the required [keyword]; the error text does not contain that
    name (the issue of the validation has an empty path).  The same holds
    for [pattern] of [search_files]. *)
Lemma absent_arguments_name_no_field :
  let env := labEnv healthyNas in
  (exists res,
     Index.callTool env 3 "search" JUndefined fresh = Ok res fresh /\
     isError res = true /\ Str.includes (text res) "keyword" = false) /\
  (exists res,
     Part0.callTool env 3 "search_files" JUndefined freshPart0 = Ok res freshPart0 /\
     isError res = true /\ Str.includes (text res) "pattern" = false).
Proof.
  cbn zeta. split; eexists; (split; [reflexivity|]); split; vm_compute; reflexivity.
Qed.

(** C8, amended: for every tool and every arguments object in which a
    required argument is missing or is no string, the dispatcher returns
    an error result whose text contains the name of that argument, and
    sends no request: the state, log included, is the one before. *)
Theorem invalid_arguments_refused (env : Env) (fuel : nat) (st : State)
  (name : string) (schema : Schema) (f : string) (fields : list (string * json)) :
  In (f, Required) schema ->
  (forall s, Js.assoc f fields <> JStr s) ->
  (In (name, schema) Index.tools ->
   exists res, Index.callTool env fuel name (JObj fields) st = Ok res st /\
               isError res = true /\ Str.includes (text res) f = true) /\
  (In (name, schema) Part0.tools ->
   exists res, Part0.callTool env fuel name (JObj fields) st = Ok res st /\
               isError res = true /\ Str.includes (text res) f = true).
Proof.
  intros Hreq Hbad. split; intros Hin.
  - now apply (Index_refuses env fuel st name schema f fields).
  - now apply (Part0_refuses env fuel st name schema f fields).
Qed.

(** The amended C8 on an upload without [content] and on a write whose
    [content] is a number. *)
Lemma invalid_arguments_refused_witness :
  (exists res,
     Index.callTool (labEnv healthyNas) 3 "upload_file" (obj [("path", JStr "/a.txt")]) fresh
       = Ok res fresh /\
     isError res = true /\ Str.includes (text res) "content" = true) /\
  (exists res,
     Part0.callTool (labEnv healthyNas) 3 "write_file"
       (obj [("path", JStr "/a.txt"); ("content", JNum 5)]) freshPart0
       = Ok res freshPart0 /\
     isError res = true /\ Str.includes (text res) "content" = true).
Proof.
  split.
  - apply (proj1 (invalid_arguments_refused (labEnv healthyNas) 3 fresh "upload_file"
                    Index.UploadFileArgsSchema "content" [("path", JStr "/a.txt")]
                    ltac:(right; left; reflexivity) ltac:(intros s; discriminate))).
    right; right; right; right; left. reflexivity.
  - apply (proj2 (invalid_arguments_refused (labEnv healthyNas) 3 freshPart0 "write_file"
                    Part0.WriteFileArgsSchema "content"
                    [("path", JStr "/a.txt"); ("content", JNum 5)]
                    ltac:(right; left; reflexivity) ltac:(intros s; discriminate))).
    right; right; right; left. reflexivity.
Defined.

(** * Logins within one invocation *)

Section SendsRules.
Context (Q : State -> Prop) (P : Request -> bool).

Lemma sends_nothing {A} (m : M A) : Silent m -> Sends Q P m.
Proof.
  intros H st HQ. rewrite (H st). exists []. rewrite app_nil_r. auto.
Qed.

Lemma silent_ret {A} (a : A) : Silent (ret a).
Proof. intros st. reflexivity. Qed.

Lemma silent_throw {A} e : Silent (@throw A e).
Proof. intros st. reflexivity. Qed.

Lemma silent_lift {A} (x : E A) : Silent (lift x).
Proof. intros st. now destruct x. Qed.

Lemma silent_getSid : Silent getSid.
Proof. intros st. reflexivity. Qed.

Lemma silent_bind {A B} (m : M A) (k : A -> M B) :
  Silent m -> (forall a, Silent (k a)) -> Silent (bind m k).
Proof.
  intros Hm Hk st. unfold bind. specialize (Hm st).
  destruct (m st) as [a st1|e st1|st1]; cbn in *; subst; auto. apply Hk.
Qed.

Lemma sends_http nas req : P req = true -> (forall st v, Q st -> Q (mkState (sid st) v)) ->
  Sends Q P (http nas req).
Proof.
  intros HP HQ st Hst. unfold http. exists [(req, nas (log st) req)].
  destruct (nas (log st) req); cbn; repeat split; auto.
Qed.

Lemma sends_bind {A B} (m : M A) (k : A -> M B) :
  Sends Q P m -> (forall a, Sends Q P (k a)) -> Sends Q P (bind m k).
Proof.
  intros Hm Hk st Hst. unfold bind. destruct (Hm st Hst) as (t1 & Hl1 & Hf1 & HQ1).
  destruct (m st) as [a st1|e st1|st1]; cbn [stateOf] in *; eauto.
  destruct (Hk a st1 HQ1) as (t2 & Hl2 & Hf2 & HQ2).
  exists (t1 ++ t2)%list. rewrite Hl2, Hl1, app_assoc.
  split; [reflexivity|]. split; [now apply Forall_app|assumption].
Qed.

Lemma sends_tryCatch {A} (m : M A) (h : exn -> M A) :
  Sends Q P m -> (forall e, Sends Q P (h e)) -> Sends Q P (tryCatch m h).
Proof.
  intros Hm Hh st Hst. unfold tryCatch. destruct (Hm st Hst) as (t1 & Hl1 & Hf1 & HQ1).
  destruct (m st) as [a st1|e st1|st1]; cbn [stateOf] in *; eauto.
  destruct (Hh e st1 HQ1) as (t2 & Hl2 & Hf2 & HQ2).
  exists (t1 ++ t2)%list. rewrite Hl2, Hl1, app_assoc.
  split; [reflexivity|]. split; [now apply Forall_app|assumption].
Qed.

End SendsRules.

Create HintDb sends.

Ltac silent_step :=
  first
    [ apply silent_ret | apply silent_throw | apply silent_lift | apply silent_getSid
    | solve [auto with sends]
    | apply silent_bind; [|intro]
    | match goal with
      | |- Silent (if ?b then _ else _) => destruct b
      | |- Silent (match ?x with _ => _ end) => destruct x
      end
    | progress cbv zeta ].

Ltac silent := repeat silent_step.

Ltac sends_step :=
  first
    [ solve [auto with sends]
    | apply sends_http; [reflexivity | solve [auto]]
    | apply sends_nothing; solve [silent]
    | apply sends_bind; [|intro]
    | apply sends_tryCatch; [|intro]
    | match goal with
      | |- Sends _ _ (if ?b then _ else _) => destruct b
      | |- Sends _ _ (match ?x with _ => _ end) => destruct x
      end
    | progress cbv zeta ].

Ltac sends := repeat sends_step.

Section LoginsIndex.
Context (env : Env).

Lemma cached_kept st v : cached st -> cached (mkState (sid st) v).
Proof. auto. Qed.

Hint Resolve cached_kept : core.

(** With a token cached, [login] sends nothing. *)
Lemma Index_login_sends : Sends cached notLogin (Index.login env).
Proof.
  intros st H. rewrite (Index_login_cached env st H). exists []. cbn.
  rewrite app_nil_r. auto.
Qed.

Lemma Index_logout_sends : Sends (fun _ => True) notLogin (Index.logout env).
Proof.
  intros st _. destruct (Js.truthy (sid st)) eqn:H.
  - rewrite (Index_logout_warm env st H). cbn. eexists. split; [reflexivity|].
    split; [|exact I]. repeat constructor.
  - rewrite (Index_logout_cold env st H). exists []. cbn. rewrite app_nil_r. auto.
Qed.

Lemma Index_parse_silent schema args : Silent (Index.parse schema args).
Proof. unfold Index.parse. silent. Qed.

Lemma Index_check_silent body prefix : Silent (Index.check body prefix).
Proof. unfold Index.check. silent. Qed.

Hint Resolve Index_login_sends Index_parse_silent Index_check_silent : sends.

Lemma Index_poll_sends fuel taskId sessionId keyword path :
  Sends cached notLogin (Index.poll env fuel taskId sessionId keyword path).
Proof.
  induction fuel as [|fuel IH]; cbn [Index.poll].
  - intros st H. exists []. cbn. rewrite app_nil_r. auto.
  - sends.
Qed.

Hint Resolve Index_poll_sends : sends.

(** With a token cached, no case of [src/index.ts] sends a login request. *)
Lemma Index_handle_sends fuel name args st :
  cached st ->
  exists t, log (stateOf (Index.handle env fuel name args st)) = (log st ++ t)%list /\
            Forall (fun ex => notLogin (fst ex) = true) t.
Proof.
  intros Hc.
  assert (Hw : forall m : M ToolResult, Sends cached notLogin m ->
            exists t, log (stateOf (m st)) = (log st ++ t)%list /\
                      Forall (fun ex => notLogin (fst ex) = true) t).
  { intros m Hm. destruct (Hm st Hc) as (t & ? & ? & _). eauto. }
  unfold Index.handle.
  repeat match goal with
         | |- context [if String.eqb name ?s then _ else _] =>
             destruct (String.eqb name s) eqn:?
         end.
  2:{ unfold bind. destruct (Index_logout_sends st I) as (t & Hl & Hf & _).
      exists t. destruct (Index.logout env st); cbn in *; auto. }
  all: apply Hw.
  - sends.
  - unfold Index.list_folders, Index.entry. sends.
  - unfold Index.get_file, Index.entry. sends.
  - unfold Index.upload_file. sends.
  - unfold Index.create_folder, Index.entry. sends.
  - unfold Index.delete_item, Index.entry. sends.
  - unfold Index.move_item, Index.entry. sends.
  - unfold Index.search, Index.entry. sends.
  - unfold Index.get_share_links, Index.entry. sends.
  - unfold Index.get_server_info, Index.entry. sends.
  - unfold Index.get_quota_info, Index.entry. sends.
  - sends.
Qed.

End LoginsIndex.

Section LoginsPart0.
Context (env : Env).

Let any : State -> Prop := fun _ => True.

Lemma Part0_fail_silent {A} body prefix : Silent (@Part0.fail A body prefix).
Proof. unfold Part0.fail. silent. Qed.

Lemma Part0_parse_silent tool schema args : Silent (Part0.parse tool schema args).
Proof. unfold Part0.parse. silent. Qed.

Lemma Part0_shaped_silent name shape v : Silent (Part0.shaped env name shape v).
Proof. unfold Part0.shaped. silent. Qed.

Hint Resolve Part0_fail_silent Part0_parse_silent Part0_shaped_silent : sends.

Lemma Part0_waitFinished_sends fuel taskId :
  Sends any notLogin (Part0.waitFinished env fuel taskId).
Proof.
  induction fuel as [|fuel IH]; cbn [Part0.waitFinished].
  - intros st H. exists []. cbn. rewrite app_nil_r. auto.
  - unfold Part0.searchCall, Part0.entry. sends.
Qed.

Hint Resolve Part0_waitFinished_sends : sends.

(** A wrapper of the second variant: [refreshSession], then requests that
    are no login. *)
Lemma Part0_wrapper_cycle {A} (body : M A) :
  Sends any notLogin body ->
  OneCycle env (Part0.logged (bind (Part0.refreshSession env) (fun _ => body))).
Proof.
  intros Hb st. rewrite logged_run. unfold bind.
  destruct (Part0_refreshSession_run env st) as (b & st1 & -> & Hlog).
  destruct (Hb st1 I) as (rest & Hl & Hf & _).
  eexists. split; [rewrite Hl, Hlog, <- !app_assoc; reflexivity|].
  right. cbn zeta. exists rest. cbn [app]. auto.
Qed.

Lemma cycle_silent {A} (m : M A) : Silent m -> OneCycle env m.
Proof. intros H st. rewrite (H st). exists []. rewrite app_nil_r. split; [reflexivity|now left]. Qed.

Lemma cycle_after_silent {A B} (m : M A) (k : A -> M B) :
  Silent m -> (forall a, OneCycle env (k a)) -> OneCycle env (bind m k).
Proof.
  intros Hm Hk st. unfold bind. specialize (Hm st).
  destruct (m st) as [a st1|e st1|st1]; cbn in Hm; subst st1.
  - apply Hk.
  - exists []. cbn. rewrite app_nil_r. split; [reflexivity|now left].
  - exists []. cbn. rewrite app_nil_r. split; [reflexivity|now left].
Qed.

Lemma cycle_then_silent {A B} (m : M A) (k : A -> M B) :
  OneCycle env m -> (forall a, Silent (k a)) -> OneCycle env (bind m k).
Proof.
  intros Hm Hk st. unfold bind. destruct (Hm st) as (t & Hl & Hc).
  destruct (m st) as [a st1|e st1|st1]; cbn [stateOf] in *; eauto.
  rewrite (Hk a st1). eauto.
Qed.

Lemma cycle_caught {A} (m : M A) (h : exn -> M A) :
  OneCycle env m -> (forall e, Silent (h e)) -> OneCycle env (tryCatch m h).
Proof.
  intros Hm Hh st. unfold tryCatch. destruct (Hm st) as (t & Hl & Hc).
  destruct (m st) as [a st1|e st1|st1]; cbn [stateOf] in *; eauto.
  rewrite (Hh e st1). eauto.
Qed.

Lemma Part0_listShares_cycle : OneCycle env (Part0.listShares env).
Proof. apply Part0_wrapper_cycle. unfold Part0.entry. sends. Qed.

Lemma Part0_listDirectory_cycle p : OneCycle env (Part0.listDirectory env p).
Proof. apply Part0_wrapper_cycle. unfold Part0.entry. sends. Qed.

Lemma Part0_readFile_cycle p : OneCycle env (Part0.readFile env p).
Proof. apply Part0_wrapper_cycle. unfold Part0.entry. sends. Qed.

Lemma Part0_writeFile_cycle p c : OneCycle env (Part0.writeFile env p c).
Proof. apply Part0_wrapper_cycle. sends. Qed.

Lemma Part0_createDirectory_cycle p : OneCycle env (Part0.createDirectory env p).
Proof. apply Part0_wrapper_cycle. unfold Part0.entry. sends. Qed.

Lemma Part0_searchFiles_cycle fuel p pat : OneCycle env (Part0.searchFiles env fuel p pat).
Proof.
  apply Part0_wrapper_cycle.
  unfold Part0.finishSearch, Part0.searchCall, Part0.entry. sends.
Qed.

Lemma Part0_getFileInfo_cycle p : OneCycle env (Part0.getFileInfo env p).
Proof. apply Part0_wrapper_cycle. sends. Qed.

(** Every call of a tool of the second variant is one authentication
    cycle, or sends nothing. *)
Lemma Part0_callTool_cycle fuel name args : OneCycle env (Part0.callTool env fuel name args).
Proof.
  unfold Part0.callTool. apply cycle_caught; [|intro; apply silent_ret].
  unfold Part0.handle.
  repeat match goal with
         | |- context [if String.eqb name ?s then _ else _] =>
             destruct (String.eqb name s) eqn:?
         end.
  - apply cycle_then_silent; [apply Part0_listShares_cycle|intro; silent].
  - apply cycle_after_silent; [silent|intro].
    apply cycle_then_silent; [apply Part0_listDirectory_cycle|intro; silent].
  - apply cycle_after_silent; [silent|intro].
    apply cycle_then_silent; [apply Part0_readFile_cycle|intro; silent].
  - apply cycle_after_silent; [silent|intro].
    apply cycle_then_silent; [apply Part0_writeFile_cycle|intro; silent].
  - apply cycle_after_silent; [silent|intro].
    apply cycle_then_silent; [apply Part0_createDirectory_cycle|intro; silent].
  - apply cycle_after_silent; [silent|intro].
    apply cycle_then_silent; [apply Part0_searchFiles_cycle|intro; silent].
  - apply cycle_after_silent; [silent|intro].
    apply cycle_then_silent; [apply Part0_getFileInfo_cycle|intro; silent].
  - apply cycle_silent. silent.
Qed.

End LoginsPart0.

(** * Session timeout (error 119) *)

Section Timeout.
Context (env : Env).
Import StrFacts.

(** What an error envelope with code 119 looks like. *)
Lemma timedOut_inv resp :
  timedOut resp = true ->
  exists fields error,
    resp = Reply (JObj fields) /\
    Js.truthy (Js.assoc "success" fields) = false /\
    Js.assoc "error" fields = error /\ Js.truthy error = true /\
    Js.prop error "code" = inr (JNum 119).
Proof.
  unfold timedOut, Part0.sessionExpired. destruct resp as [body|]; [|discriminate].
  destruct (Js.truthy body) eqn:Hb; cbn [negb]; [|discriminate].
  destruct body as [| |b|n|s|items|fields]; try discriminate; cbn [Js.prop bindE Js.truthy negb];
    try discriminate.
  destruct (Js.truthy (Js.assoc "success" fields)) eqn:Hs; [discriminate|].
  destruct (Js.truthy (Js.assoc "error" fields)) eqn:He; cbn [negb]; [|discriminate].
  destruct (Js.prop (Js.assoc "error" fields) "code") as [|code] eqn:Hc; cbn [bindE]; [discriminate|].
  destruct code; try discriminate. intros H. apply Z.eqb_eq in H. subst.
  exists fields, (Js.assoc "error" fields). auto.
Qed.

Lemma timedOut_needsLogin resp : timedOut resp = true -> Part0.needsLogin resp = true.
Proof.
  unfold timedOut, Part0.needsLogin. destruct resp as [body|]; [|discriminate].
  now destruct (Part0.sessionExpired body) as [|[]].
Qed.

Lemma optProp_any v key : exists x, Js.optProp v key = inr x.
Proof. destruct v; cbn; eauto. Qed.

Lemma optIndex0_any v : exists x, Js.optIndex0 v = inr x.
Proof.
  destruct v as [| | | |s|items|]; cbn; eauto.
  - destruct s; eauto.
  - destruct items; eauto.
Qed.

Lemma firstMessage_object fields : exists m, Index.firstMessage (JObj fields) = inr m.
Proof.
  unfold Index.firstMessage. cbn [Js.prop bindE].
  destruct (optProp_any (Js.assoc "error" fields) "errors") as (x & ->). cbn [bindE].
  destruct (optIndex0_any x) as (y & ->). cbn [bindE].
  destruct (optProp_any y "message") as (z & ->). cbn [bindE]. eauto.
Qed.

Lemma count_notLogin (t : list Exchange) :
  Forall (fun ex => notLogin (fst ex) = true) t -> count isLogin t = 0%nat.
Proof.
  intros H. apply count_none. eapply Forall_impl; [|exact H].
  cbn. intros ex Hn. now apply negb_true_iff in Hn.
Qed.

(** [src/index.ts] with a token cached: no tool call sends a login
    request, whatever the NAS answers. *)
Lemma Index_no_relogin fuel name args st :
  cached st ->
  exists t, log (stateOf (Index.callTool env fuel name args st)) = (log st ++ t)%list /\
            count isLogin t = 0%nat.
Proof.
  intros Hc. destruct (Index_handle_sends env fuel name args st Hc) as (t & Hl & Hf).
  exists t. split; [|now apply count_notLogin].
  unfold Index.callTool, tryCatch, ret.
  now destruct (Index.handle env fuel name args st).
Qed.

(** [list_folders] with a token cached, when the list request is answered
    with error 119: one request, and an error result with the code. *)
Lemma Index_list_folders_119 fuel args parsed st :
  cached st ->
  safeParse Index.ListFoldersArgsSchema args = inr parsed ->
  (forall req, calls "SYNO.FileStation.List" "list" req = true ->
               timedOut (nas env (log st) req) = true) ->
  exists res st' req,
    Index.callTool env fuel "list_folders" args st = Ok res st' /\
    isError res = true /\ Str.includes (text res) "119" = true /\
    calls "SYNO.FileStation.List" "list" req = true /\
    log st' = (log st ++ [(req, nas env (log st) req)])%list.
Proof.
  intros Hc Hsp H119.
  unfold Index.callTool.
  change (Index.handle env fuel "list_folders" args) with (Index.list_folders env args).
  unfold Index.list_folders, Index.parse. rewrite Hsp.
  unfold tryCatch, bind at 1. unfold ret at 1. unfold bind at 1.
  rewrite (Index_login_cached env st Hc). unfold Index.entry. run.
  set (req := mkRequest GET EntryCgi _).
  assert (Hreq : calls "SYNO.FileStation.List" "list" req = true) by reflexivity.
  destruct (timedOut_inv _ (H119 req Hreq)) as (fields & error & Hr & Hs & He & Het & Hcode).
  rewrite Hr. cbn [Js.prop]. run. rewrite Hs. cbn [negb].
  unfold errorCode. cbn [Js.prop]. rewrite He.
  assert (Hopt : Js.optProp error "code" = inr (JNum 119)).
  { destruct error; try discriminate; exact Hcode. }
  rewrite Hopt. run.
  destruct (firstMessage_object fields) as (m & ->). run.
  eexists _, _, req. split; [reflexivity|]. split; [reflexivity|].
  split; [|split; [exact Hreq|cbn [log]; now rewrite Hr]].
  cbn [text message]. do 2 apply includes_app_l. apply includes_here.
Qed.

(** [list_directory] when the probe finds the session in order and the
    list request is answered with error 119: the probe and the list
    request, and an error result with the code. *)
Lemma Part0_list_directory_119 fuel args parsed st :
  let probe := Part0.probeRequest (sid st) in
  let r0 := nas env (log st) probe in
  safeParse Part0.ListDirectoryArgsSchema args = inr parsed ->
  Part0.needsLogin r0 = false ->
  (forall req, calls "SYNO.FileStation.List" "list" req = true ->
               timedOut (nas env (log st ++ [(probe, r0)])%list req) = true) ->
  exists res st' req,
    Part0.callTool env fuel "list_directory" args st = Ok res st' /\
    res = mkResult "Error: Failed to list directory: 119" true /\
    calls "SYNO.FileStation.List" "list" req = true /\
    log st' = (log st ++ [(probe, r0); (req, nas env (log st ++ [(probe, r0)]) req)])%list.
Proof.
  cbn zeta. intros Hsp Hn H119.
  unfold Part0.callTool.
  change (Part0.handle env fuel "list_directory" args) with
    (bind (Part0.parse "list_directory" Part0.ListDirectoryArgsSchema args)
       (fun parsed => bind (Part0.listDirectory env (field "path" parsed))
                        (fun files => Part0.shaped env "files" Part0.entryShape files))).
  unfold Part0.parse. rewrite Hsp.
  unfold tryCatch, bind at 1. unfold ret at 1. unfold bind at 1.
  unfold Part0.listDirectory. rewrite logged_run. unfold bind at 1.
  destruct (Part0_refreshSession_run env st) as (b & st1 & -> & Hlog).
  rewrite Hn, app_nil_r in Hlog.
  unfold Part0.entry. run. rewrite Hlog.
  set (req := mkRequest GET EntryCgi _).
  assert (Hreq : calls "SYNO.FileStation.List" "list" req = true) by reflexivity.
  destruct (timedOut_inv _ (H119 req Hreq)) as (fields & error & Hr & Hs & He & Het & Hcode).
  rewrite Hr. unfold Part0.succeeded. cbn [Js.truthy Js.prop bindE]. rewrite Hs. run.
  cbn [negb]. unfold Part0.fail, prop2. cbn [Js.prop]. rewrite He, Hcode. run.
  eexists _, _, req. split; [reflexivity|]. split; [reflexivity|].
  split; [exact Hreq|]. cbn [log]. now rewrite Hr, <- app_assoc.
Qed.

End Timeout.

(** C6, as stated: a counterexample.  A token is cached and the NAS
    answers the list request with error 119.  Both programs return an
    error result; the log holds the list request once and no login
    request (in the second variant the probe, which found the session in
    order, comes first). *)
Lemma session_timeout_not_recovered :
  let env := labEnv expiredNas in
  let st := mkState (JStr "old") [] in
  let args := obj [("path", JStr "/photos")] in
  timedOut (Reply (errorBody 119)) = true /\
  (exists res st' req,
     Index.callTool env 3 "list_folders" args st = Ok res st' /\ isError res = true /\
     log st' = [(req, Reply (errorBody 119))] /\ count isLogin (log st') = 0%nat) /\
  (exists res st' probe req,
     Part0.callTool env 3 "list_directory" args st = Ok res st' /\ isError res = true /\
     log st' = [(probe, Reply (okBody [])); (req, Reply (errorBody 119))] /\
     isProbe probe = true /\ count isLogin (log st') = 0%nat).
Proof.
  cbn zeta. split; [reflexivity|]. split.
  - eexists _, _, _. split; [vm_compute; reflexivity|]. repeat split; reflexivity.
  - eexists _, _, _, _. split; [vm_compute; reflexivity|]. repeat split; reflexivity.
Qed.

(** C6, amended.  The second variant checks the session with a probe
    before the operation: every tool call sends nothing, or the probe, then
    one login request exactly when the probe is answered with error 119 (or
    gets no answer), then requests none of which is a login: one
    authentication cycle for the whole request.  [src/index.ts] with a
    token cached sends no login request at all.  An error 119 in the answer
    to the operation's own request is not recovered: a listing sends its
    request once and returns an error result that carries the code. *)
Theorem session_timeout_handling (env : Env) (fuel : nat) (name : string)
  (args : json) (st : State) :
  (exists t,
     log (stateOf (Part0.callTool env fuel name args st)) = (log st ++ t)%list /\
     Cycle env st t) /\
  (forall resp, timedOut resp = true -> Part0.needsLogin resp = true) /\
  (cached st ->
   exists t,
     log (stateOf (Index.callTool env fuel name args st)) = (log st ++ t)%list /\
     count isLogin t = 0%nat) /\
  (forall parsed,
     cached st ->
     safeParse Index.ListFoldersArgsSchema args = inr parsed ->
     (forall req, calls "SYNO.FileStation.List" "list" req = true ->
                  timedOut (nas env (log st) req) = true) ->
     exists res st' req,
       Index.callTool env fuel "list_folders" args st = Ok res st' /\
       isError res = true /\ Str.includes (text res) "119" = true /\
       calls "SYNO.FileStation.List" "list" req = true /\
       log st' = (log st ++ [(req, nas env (log st) req)])%list) /\
  (forall parsed,
     let probe := Part0.probeRequest (sid st) in
     let r0 := nas env (log st) probe in
     safeParse Part0.ListDirectoryArgsSchema args = inr parsed ->
     Part0.needsLogin r0 = false ->
     (forall req, calls "SYNO.FileStation.List" "list" req = true ->
                  timedOut (nas env (log st ++ [(probe, r0)])%list req) = true) ->
     exists res st' req,
       Part0.callTool env fuel "list_directory" args st = Ok res st' /\
       res = mkResult "Error: Failed to list directory: 119" true /\
       calls "SYNO.FileStation.List" "list" req = true /\
       log st' = (log st ++ [(probe, r0); (req, nas env (log st ++ [(probe, r0)]) req)])%list).
Proof.
  split; [apply Part0_callTool_cycle|].
  split; [apply timedOut_needsLogin|].
  split; [apply Index_no_relogin|].
  split.
  - intros parsed. apply Index_list_folders_119.
  - intros parsed. apply Part0_list_directory_119.
Qed.

(** On the NAS whose session has timed out, every list request is
    answered with error 119. *)
Lemma expired_list h req :
  calls "SYNO.FileStation.List" "list" req = true ->
  timedOut (nas (labEnv expiredNas) h req) = true.
Proof.
  intros H. unfold labEnv, nas, expiredNas, isLogin, isProbe.
  rewrite (calls_other _ _ "SYNO.API.Auth" "login" _ H) by (left; discriminate).
  rewrite (calls_other _ _ "SYNO.API.Info" "query" _ H) by (left; discriminate).
  reflexivity.
Qed.

(** The amended C6 on the NAS whose session has timed out, with a token
    cached: both listings end with an error result that carries the
    code, and [src/index.ts] has sent no login request. *)
Lemma session_timeout_handling_witness :
  (exists res st',
     Index.callTool (labEnv expiredNas) 3 "list_folders" (obj [("path", JStr "/photos")])
       (mkState (JStr "old") []) = Ok res st' /\
     isError res = true /\ Str.includes (text res) "119" = true) /\
  (exists st',
     Part0.callTool (labEnv expiredNas) 3 "list_directory" (obj [("path", JStr "/photos")])
       (mkState (JStr "old") []) =
     Ok (mkResult "Error: Failed to list directory: 119" true) st').
Proof.
  destruct (session_timeout_handling (labEnv expiredNas) 3 "list_folders"
              (obj [("path", JStr "/photos")]) (mkState (JStr "old") []))
    as (_ & _ & _ & HA & HB).
  split.
  - destruct (HA [("path", "/photos")] eq_refl eq_refl (expired_list _))
      as (res & st' & req & H & He & Hi & _).
    exists res, st'. auto.
  - destruct (HB [("path", "/photos")] eq_refl eq_refl (expired_list _))
      as (res & st' & req & H & -> & _).
    exists st'. exact H.
Defined.

(** * The scenario of three polls *)

Section ThreePolls.
Context (env : Env).

Lemma statusAnswer_inv resp b :
  statusAnswer resp = Some b ->
  exists body ok d f,
    resp = Reply body /\ Js.truthy body = true /\
    Js.prop body "success" = inr ok /\ Js.truthy ok = true /\
    Js.prop body "data" = inr d /\ Js.prop d "finished" = inr f /\ Js.truthy f = b.
Proof.
  unfold statusAnswer, isSuccess. destruct resp as [body|]; [|discriminate].
  destruct (Js.prop body "success") as [|ok] eqn:Hs; [discriminate|].
  destruct (Js.truthy ok) eqn:Hok; [|discriminate].
  destruct (Js.prop body "data") as [|d] eqn:Hd; [discriminate|].
  destruct (Js.prop d "finished") as [|f] eqn:Hf; [discriminate|].
  intros [= <-]. exists body, ok, d, f. repeat split; auto.
  destruct body; try discriminate; try reflexivity;
    cbn in Hs; injection Hs as <-; discriminate.
Qed.

Lemma startsTask_inv resp :
  startsTask resp = true ->
  exists body ok taskId,
    resp = Reply body /\ Js.truthy body = true /\
    Js.prop body "success" = inr ok /\ Js.truthy ok = true /\
    prop2 body "data" "taskid" = inr taskId.
Proof.
  unfold startsTask, isSuccess, prop2. destruct resp as [body|]; [|now rewrite andb_false_r].
  destruct (Js.prop body "success") as [|ok] eqn:Hs; [discriminate|].
  destruct (Js.prop body "data") as [|d] eqn:Hd; [now rewrite andb_false_r|].
  destruct (Js.prop d "taskid") as [|id] eqn:Hi; [now rewrite andb_false_r|].
  rewrite andb_true_r. intros Hok. exists body, ok, id.
  split; [reflexivity|]. split; [|split; [exact Hs|split; [exact Hok|now rewrite Hd]]].
  destruct body; try discriminate; try reflexivity;
    cbn in Hs; injection Hs as <-; discriminate.
Qed.

Lemma listsFiles_inv resp :
  listsFiles resp = true ->
  exists body ok items,
    resp = Reply body /\ Js.truthy body = true /\
    Js.prop body "success" = inr ok /\ Js.truthy ok = true /\
    prop2 body "data" "files" = inr (JArr items) /\ forallb isObject items = true.
Proof.
  unfold listsFiles, isSuccess, prop2. destruct resp as [body|]; [|now rewrite andb_false_r].
  destruct (Js.prop body "success") as [|ok] eqn:Hs; [discriminate|].
  destruct (Js.prop body "data") as [|d] eqn:Hd; [now rewrite andb_false_r|].
  destruct (Js.prop d "files") as [|[]] eqn:Hi; try now rewrite andb_false_r.
  intros H. apply andb_prop in H as [Hok Hall]. exists body, ok, items.
  split; [reflexivity|].
  split; [|split; [exact Hs|split; [exact Hok|split; [now rewrite Hd|exact Hall]]]].
  destruct body; try discriminate; try reflexivity;
    cbn in Hs; injection Hs as <-; discriminate.
Qed.

(** The lines of a listing of objects are always there. *)
Lemma appendLines_objects key items : forall result,
  forallb isObject items = true ->
  exists s, appendLines (Index.entryLine key) items result = inr s.
Proof.
  induction items as [|x items IH]; intros result H; cbn [appendLines]; [eauto|].
  cbn in H. apply andb_prop in H as [Hx H]. destruct x; try discriminate.
  cbn. apply IH, H.
Qed.

Lemma searchText_objects keyword path items :
  forallb isObject items = true ->
  exists s, Index.searchText keyword path (JArr items) = inr s.
Proof.
  intros H. unfold Index.searchText. cbn [Js.elements bindE].
  destruct (appendLines_objects "path" items
              ("Search results for " ++ dq ++ keyword ++ dq ++ " in " ++ path ++ ":" ++ nl) H)
    as (s & ->).
  cbn [bindE]. eauto.
Qed.

Section Index.
Context (taskId sessionId : json) (keyword path : string).

Let statusReq := Index.searchRequest "status" taskId sessionId.
Let listReq := Index.searchRequest "list" taskId sessionId.
Let stopReq := Index.searchRequest "stop" taskId sessionId.
Let poll fuel := Index.poll env fuel taskId sessionId keyword path.

Lemma Index_poll_unfinished fuel st :
  statusAnswer (nas env (log st) statusReq) = Some false ->
  poll (S fuel) st =
  poll fuel (mkState (sid st) (log st ++ [(statusReq, nas env (log st) statusReq)])).
Proof.
  intros H. destruct (statusAnswer_inv _ _ H) as (body & ok & d & f & E & _ & _ & _ & Hd & Hf & Ht).
  unfold poll. cbn [Index.poll]. run. fold statusReq. rewrite E.
  unfold prop2. rewrite Hd, Hf. run. now rewrite Ht.
Qed.

Lemma Index_poll_finished fuel st :
  let r1 := nas env (log st) statusReq in
  let h1 := (log st ++ [(statusReq, r1)])%list in
  let r2 := nas env h1 listReq in
  statusAnswer r1 = Some true ->
  listsFiles r2 = true ->
  exists r3,
    log (stateOf (poll (S fuel) st)) =
    (log st ++ [(statusReq, r1); (listReq, r2); (stopReq, r3)])%list.
Proof.
  cbn zeta. intros H1 H2.
  destruct (statusAnswer_inv _ _ H1) as (body & ok & d & f & E & _ & _ & _ & Hd & Hf & Ht).
  destruct (listsFiles_inv _ H2) as (body2 & ok2 & items & E2 & _ & Hs2 & Hok2 & Hfiles & Hall).
  destruct (searchText_objects keyword path items Hall) as (s & Hs).
  unfold poll. cbn [Index.poll]. run. fold statusReq listReq stopReq.
  rewrite E in *. unfold prop2 at 1. rewrite Hd, Hf. run. rewrite Ht. run. cbn [log sid].
  rewrite E2. run. rewrite Hs2. run. rewrite Hok2, Hfiles. run. rewrite Hs. run. cbn [log sid].
  match goal with
  | |- context [nas env ?h stopReq] =>
      exists (nas env h stopReq); destruct (nas env h stopReq)
  end; cbn [stateOf log]; rewrite <- !app_assoc; reflexivity.
Qed.

(** Three rounds of the loop of [src/index.ts] in the scenario: three
    status requests, the list request and the stop request. *)
Lemma Index_poll_three fuel st0 t0 st :
  log st = (log st0 ++ t0)%list -> count isStatus t0 = 0%nat ->
  ThirdPollFinishes env st0 ->
  exists r1 r2 r3 r4 r5,
    log (stateOf (poll (S (S (S fuel))) st)) =
    (log st ++ [(statusReq, r1); (statusReq, r2); (statusReq, r3);
                (listReq, r4); (stopReq, r5)])%list.
Proof.
  intros Hl Hc (_ & _ & Hstatus & Hlist).
  assert (Hst : isStatus statusReq = true) by reflexivity.
  assert (A1 : statusAnswer (nas env (log st) statusReq) = Some false).
  { rewrite Hl, (Hstatus t0 statusReq Hst), Hc. reflexivity. }
  rewrite (Index_poll_unfinished _ _ A1).
  set (r1 := nas env (log st) statusReq) in *.
  set (st1 := mkState (sid st) (log st ++ [(statusReq, r1)])).
  assert (Hl1 : log st1 = (log st0 ++ (t0 ++ [(statusReq, r1)]))%list).
  { unfold st1. cbn [log]. now rewrite Hl, app_assoc. }
  assert (A2 : statusAnswer (nas env (log st1) statusReq) = Some false).
  { rewrite Hl1, (Hstatus _ statusReq Hst), count_app, Hc. reflexivity. }
  rewrite (Index_poll_unfinished _ _ A2).
  set (r2 := nas env (log st1) statusReq) in *.
  set (st2 := mkState (sid st1) (log st1 ++ [(statusReq, r2)])).
  assert (Hl2 : log st2 = (log st0 ++ (t0 ++ [(statusReq, r1); (statusReq, r2)]))%list).
  { unfold st2. cbn [log]. rewrite Hl1, <- !app_assoc. reflexivity. }
  assert (A3 : statusAnswer (nas env (log st2) statusReq) = Some true).
  { rewrite Hl2, (Hstatus _ statusReq Hst), count_app, Hc. reflexivity. }
  destruct (Index_poll_finished fuel st2 A3 (Hlist _ listReq eq_refl)) as (r5 & H5).
  eexists r1, r2, _, _, r5. rewrite H5. unfold st2, st1. cbn [log].
  rewrite <- !app_assoc. reflexivity.
Qed.

End Index.

Lemma searchCalls_app t1 t2 : searchCalls (t1 ++ t2) = (searchCalls t1 ++ searchCalls t2)%list.
Proof. unfold searchCalls. now rewrite filter_app, map_app. Qed.

Lemma stateOf_caught {A} (m : M A) (h : exn -> A) st :
  stateOf (tryCatch m (fun e => ret (h e)) st) = stateOf (m st).
Proof. unfold tryCatch, ret. now destruct (m st). Qed.

Lemma stateOf_then_silent {A B} (m : M A) (k : A -> M B) st :
  (forall a, Silent (k a)) -> stateOf (bind m k st) = stateOf (m st).
Proof. intros H. unfold bind. destruct (m st); auto. apply H. Qed.

(** A [search] call of [src/index.ts] in the scenario. *)
Lemma Index_three_polls fuel args parsed st :
  ThirdPollFinishes env st -> (3 <= fuel)%nat ->
  safeParse Index.SearchArgsSchema args = inr parsed ->
  exists t,
    log (stateOf (Index.callTool env fuel "search" args st)) = (log st ++ t)%list /\
    searchCalls t = ["start"; "status"; "status"; "status"; "list"; "stop"].
Proof.
  intros Hsc Hfuel Hsp. destruct fuel as [|[|[|fuel]]]; try lia.
  unfold Index.callTool. rewrite stateOf_caught, Index_handle_search.
  unfold Index.search, Index.parse. rewrite Hsp.
  unfold bind at 1. unfold ret at 1. unfold bind at 1.
  assert (Hlogin : exists sessionId st1 pre,
            Index.login env st = Ok sessionId st1 /\ log st1 = (log st ++ pre)%list /\
            count isStatus pre = 0%nat /\ searchCalls pre = []).
  { destruct (Js.truthy (sid st)) eqn:Hc.
    - exists (sid st), st, []. rewrite Index_login_cached, app_nil_r by assumption. auto.
    - destruct (Index_login_granted env st Hc (proj1 Hsc (log st) (Index.loginRequest env) eq_refl)) as (s & _ & ->).
      eexists _, _, _. split; [reflexivity|]. split; [reflexivity|]. split; reflexivity. }
  destruct Hlogin as (sessionId & st1 & pre & -> & Hl1 & Hc1 & Hs1).
  unfold Index.entry. run.
  set (startReq := mkRequest GET EntryCgi _).
  assert (Hstart : isStart startReq = true) by reflexivity.
  destruct (startsTask_inv _ (proj1 (proj2 Hsc) (log st1) startReq Hstart))
    as (body & ok & taskId & -> & _ & Hok1 & Hok2 & Htask).
  unfold Index.check. run. rewrite Hok1. run. rewrite Hok2. run. rewrite Htask. run.
  set (st2 := mkState (sid st1) (log st1 ++ [(startReq, Reply body)])).
  destruct (Index_poll_three taskId sessionId (field "keyword" parsed) (field "path" parsed)
              fuel st (pre ++ [(startReq, Reply body)]) st2) as (r1 & r2 & r3 & r4 & r5 & H);
    [unfold st2; cbn [log]; now rewrite Hl1, app_assoc
    |now rewrite count_app, Hc1
    |assumption|].
  destruct (Index.poll env _ taskId sessionId _ _ st2); cbn [stateOf] in *;
    rewrite H; unfold st2; cbn [log]; rewrite Hl1, <- !app_assoc;
    (eexists; split; [reflexivity|]); rewrite searchCalls_app, Hs1; reflexivity.
Qed.

End ThreePolls.

Section ThreePollsPart0.
Context (env : Env) (taskId : json).

Let statusReq s := Part0.searchRequest GET "status" taskId s.
Let listReq s := Part0.searchRequest GET "list" taskId s.
Let stopReq s := Part0.searchRequest POST "stop" taskId s.

Lemma Part0_wait_unfinished fuel st :
  statusAnswer (nas env (log st) (statusReq (sid st))) = Some false ->
  Part0.waitFinished env (S fuel) taskId st =
  Part0.waitFinished env fuel taskId
    (mkState (sid st) (log st ++ [(statusReq (sid st), nas env (log st) (statusReq (sid st)))])).
Proof.
  intros H. destruct (statusAnswer_inv _ _ H) as (body & ok & d & f & E & _ & Hs & Hok & Hd & Hf & Ht).
  cbn [Part0.waitFinished]. unfold Part0.searchCall, Part0.entry. run.
  change (mkRequest GET EntryCgi _) with (statusReq (sid st)). rewrite E.
  rewrite Hs. run. rewrite Hok. cbn [negb]. unfold prop2. rewrite Hd, Hf. run. now rewrite Ht.
Qed.

Lemma Part0_wait_finished fuel st :
  statusAnswer (nas env (log st) (statusReq (sid st))) = Some true ->
  Part0.waitFinished env (S fuel) taskId st =
  Ok tt (mkState (sid st) (log st ++ [(statusReq (sid st), nas env (log st) (statusReq (sid st)))])).
Proof.
  intros H. destruct (statusAnswer_inv _ _ H) as (body & ok & d & f & E & _ & Hs & Hok & Hd & Hf & Ht).
  cbn [Part0.waitFinished]. unfold Part0.searchCall, Part0.entry. run.
  change (mkRequest GET EntryCgi _) with (statusReq (sid st)). rewrite E.
  rewrite Hs. run. rewrite Hok. cbn [negb]. unfold prop2. rewrite Hd, Hf. run. now rewrite Ht.
Qed.

(** [searchFiles] from the status loop on, in the scenario: three status
    requests, the list request and the stop request. *)
Lemma Part0_finish_three fuel st0 t0 st :
  log st = (log st0 ++ t0)%list -> count isStatus t0 = 0%nat ->
  ThirdPollFinishes env st0 ->
  exists r1 r2 r3 r4 r5,
    log (stateOf (Part0.finishSearch env (S (S (S fuel))) taskId st)) =
    (log st ++ [(statusReq (sid st), r1); (statusReq (sid st), r2); (statusReq (sid st), r3);
                (listReq (sid st), r4); (stopReq (sid st), r5)])%list.
Proof.
  intros Hl Hc (_ & _ & Hstatus & Hlist).
  set (q := statusReq (sid st)).
  assert (Hst : isStatus q = true) by reflexivity.
  assert (A1 : statusAnswer (nas env (log st) q) = Some false).
  { rewrite Hl, (Hstatus t0 q Hst), Hc. reflexivity. }
  unfold Part0.finishSearch, bind at 1.
  rewrite (Part0_wait_unfinished _ _ A1). fold q.
  set (r1 := nas env (log st) q) in *.
  set (st1 := mkState (sid st) (log st ++ [(q, r1)])).
  assert (Hl1 : log st1 = (log st0 ++ (t0 ++ [(q, r1)]))%list).
  { unfold st1. cbn [log]. now rewrite Hl, app_assoc. }
  assert (A2 : statusAnswer (nas env (log st1) (statusReq (sid st1))) = Some false).
  { cbn [st1 sid]. fold q. rewrite Hl1, (Hstatus _ q Hst), count_app, Hc. reflexivity. }
  rewrite (Part0_wait_unfinished _ _ A2). cbn [st1 sid]. fold q. fold st1.
  set (r2 := nas env (log st1) q) in *.
  set (st2 := mkState (sid st) (log st1 ++ [(q, r2)])).
  assert (Hl2 : log st2 = (log st0 ++ (t0 ++ [(q, r1); (q, r2)]))%list).
  { unfold st2. cbn [log]. rewrite Hl1, <- !app_assoc. reflexivity. }
  assert (A3 : statusAnswer (nas env (log st2) (statusReq (sid st2))) = Some true).
  { cbn [st2 sid]. fold q. rewrite Hl2, (Hstatus _ q Hst), count_app, Hc. reflexivity. }
  rewrite (Part0_wait_finished _ _ A3). cbn [st2 sid]. fold q. fold st2.
  set (r3 := nas env (log st2) q) in *.
  unfold Part0.searchCall, Part0.entry. run. cbn [sid log].
  change (mkRequest GET EntryCgi _) with (listReq (sid st)).
  set (h3 := (log st2 ++ [(q, r3)])%list).
  destruct (listsFiles_inv _ (Hlist h3 (listReq (sid st)) eq_refl))
    as (body2 & ok2 & items & E2 & Hb2 & Hs2 & Hok2 & Hfiles & _).
  rewrite E2. unfold Part0.succeeded. rewrite Hb2, Hs2. cbn [bindE]. run. rewrite Hok2.
  cbn [negb]. run. cbn [sid log].
  change (mkRequest POST EntryCgi _) with (stopReq (sid st)).
  exists r1, r2, r3, (Reply body2).
  match goal with
  | |- context [nas env ?h (stopReq (sid st))] =>
      exists (nas env h (stopReq (sid st))); destruct (nas env h (stopReq (sid st)))
  end.
  - rewrite Hfiles. run. cbn [stateOf log]. unfold h3, st2, st1. cbn [log].
    rewrite <- !app_assoc. reflexivity.
  - cbn [stateOf log]. unfold h3, st2, st1. cbn [log]. rewrite <- !app_assoc. reflexivity.
Qed.

End ThreePollsPart0.

Section ThreePollsCall.
Context (env : Env).

(** A [search_files] call of the second variant in the scenario. *)
Lemma Part0_three_polls fuel args parsed st :
  ThirdPollFinishes env st -> (3 <= fuel)%nat ->
  safeParse Part0.SearchFilesArgsSchema args = inr parsed ->
  exists t,
    log (stateOf (Part0.callTool env fuel "search_files" args st)) = (log st ++ t)%list /\
    searchCalls t = ["start"; "status"; "status"; "status"; "list"; "stop"].
Proof.
  intros Hsc Hfuel Hsp. destruct fuel as [|[|[|fuel]]]; try lia.
  unfold Part0.callTool. rewrite stateOf_caught, Part0_handle_search.
  unfold Part0.parse. rewrite Hsp.
  unfold bind at 1. unfold ret at 1.
  rewrite stateOf_then_silent by (intro; apply Part0_shaped_silent).
  unfold Part0.searchFiles. rewrite logged_run. unfold bind at 1.
  destruct (Part0_refreshSession_run env st) as (b & st1 & -> & Hlog1).
  assert (Hpre : exists pre, log st1 = (log st ++ pre)%list /\
                             count isStatus pre = 0%nat /\ searchCalls pre = []).
  { rewrite Hlog1, <- app_assoc. eexists. split; [reflexivity|].
    destruct (Part0.needsLogin _); split; reflexivity. }
  clear Hlog1. destruct Hpre as (pre & Hl1 & Hc1 & Hs1).
  unfold Part0.entry. run.
  set (startReq := mkRequest POST EntryCgi _).
  assert (Hstart : isStart startReq = true) by reflexivity.
  destruct (startsTask_inv _ (proj1 (proj2 Hsc) (log st1) startReq Hstart))
    as (body & ok & taskId & -> & Hb & Hok1 & Hok2 & Htask).
  unfold Part0.succeeded. rewrite Hb, Hok1. cbn [bindE]. run. rewrite Hok2. cbn [negb].
  rewrite Htask. run.
  set (st2 := mkState (sid st1) (log st1 ++ [(startReq, Reply body)])).
  destruct (Part0_finish_three env taskId fuel st (pre ++ [(startReq, Reply body)]) st2)
    as (r1 & r2 & r3 & r4 & r5 & H);
    [unfold st2; cbn [log]; now rewrite Hl1, app_assoc
    |now rewrite count_app, Hc1
    |assumption|].
  rewrite H. unfold st2. cbn [log sid]. rewrite Hl1, <- !app_assoc.
  eexists. split; [reflexivity|]. rewrite searchCalls_app, Hs1. reflexivity.
Qed.

End ThreePollsCall.

(** The working NAS plays the scenario from an empty log. *)
Lemma healthy_scenario s : ThirdPollFinishes (labEnv healthyNas) (mkState s []).
Proof.
  unfold ThirdPollFinishes, labEnv, nas, healthyNas. cbn [log app].
  split; [|split; [|split]].
  - intros h req H. now rewrite H.
  - intros h req H. unfold isLogin.
    rewrite (calls_other _ _ "SYNO.API.Auth" "login" _ H) by (left; discriminate).
    now rewrite H.
  - intros t req H. unfold isLogin, isStart.
    rewrite (calls_other _ _ "SYNO.API.Auth" "login" _ H) by (left; discriminate).
    rewrite (calls_other _ _ "SYNO.FileStation.Search" "start" _ H) by (right; discriminate).
    rewrite H. cbn. now destruct (2 <=? count isStatus t)%nat.
  - intros h req H. unfold isLogin, isStart, isStatus.
    rewrite (calls_other _ _ "SYNO.API.Auth" "login" _ H) by (left; discriminate).
    rewrite (calls_other _ _ "SYNO.FileStation.Search" "start" _ H) by (right; discriminate).
    rewrite (calls_other _ _ "SYNO.FileStation.Search" "status" _ H) by (right; discriminate).
    now rewrite H.
Qed.

(** C1, as stated: a counterexample.  The status requests are answered
    unfinished, unfinished, finished, and the list request is answered
    with an error: [searchFiles] throws before the stop request, so the
    calls are three status requests and the list request, and no stop. *)
Lemma list_failure_skips_stop :
  let env := labEnv listErrorNas in
  exists res st',
    Part0.callTool env 5 "search_files" searchFilesArgs freshPart0 = Ok res st' /\
    map (fun ex => statusAnswer (snd ex))
        (filter (fun ex => isStatus (fst ex)) (log st')) =
      [Some false; Some false; Some true] /\
    searchCalls (log st') = ["start"; "status"; "status"; "status"; "list"].
Proof.
  cbn zeta. eexists _, _. split; [vm_compute; reflexivity|]. split; reflexivity.
Qed.

(** C1, amended: in a search invocation with valid arguments in which
    the status requests are answered unfinished, unfinished, finished, and
    the list request is answered with the matches (the login and start
    requests being granted), the calls of the search protocol are the start
    request, exactly three status requests, one list request and one stop
    request, in that order, and no other. *)
Theorem three_polls_then_list_then_stop (env : Env) (fuel : nat) (args : json) (st : State) :
  ThirdPollFinishes env st -> (3 <= fuel)%nat ->
  (forall parsed, safeParse Index.SearchArgsSchema args = inr parsed ->
   exists t,
     log (stateOf (Index.callTool env fuel "search" args st)) = (log st ++ t)%list /\
     searchCalls t = ["start"; "status"; "status"; "status"; "list"; "stop"]) /\
  (forall parsed, safeParse Part0.SearchFilesArgsSchema args = inr parsed ->
   exists t,
     log (stateOf (Part0.callTool env fuel "search_files" args st)) = (log st ++ t)%list /\
     searchCalls t = ["start"; "status"; "status"; "status"; "list"; "stop"]).
Proof.
  intros Hsc Hfuel. split; intros parsed Hsp.
  - now apply (Index_three_polls env fuel args parsed st).
  - now apply (Part0_three_polls env fuel args parsed st).
Qed.

(** The amended C1 on the working NAS, which plays the scenario. *)
Lemma three_polls_then_list_then_stop_witness :
  (exists t,
     log (stateOf (Index.callTool (labEnv healthyNas) 3 "search" searchArgs fresh))
       = (log fresh ++ t)%list /\
     searchCalls t = ["start"; "status"; "status"; "status"; "list"; "stop"]) /\
  (exists t,
     log (stateOf (Part0.callTool (labEnv healthyNas) 3 "search_files" searchFilesArgs freshPart0))
       = (log freshPart0 ++ t)%list /\
     searchCalls t = ["start"; "status"; "status"; "status"; "list"; "stop"]).
Proof.
  split.
  - apply (proj1 (three_polls_then_list_then_stop (labEnv healthyNas) 3 searchArgs fresh
                    (healthy_scenario JNull) (le_n 3))
             [("keyword", "report"); ("path", "/photos")]).
    reflexivity.
  - apply (proj2 (three_polls_then_list_then_stop (labEnv healthyNas) 3 searchFilesArgs
                    freshPart0 (healthy_scenario (JStr "")) (le_n 3))
             [("path", "/photos"); ("pattern", "report")]).
    reflexivity.
Defined.

(** * Line endings *)

Section LineEndings.
Import Str StrFacts.

(** Induction on strings two characters at a time. *)
Lemma string_ind2 (P : string -> Prop) :
  P "" -> (forall c, P (String c "")) ->
  (forall c d s, P s -> P (String d s) -> P (String c (String d s))) ->
  forall s, P s.
Proof.
  intros H0 H1 H2 s.
  assert (H : P s /\ forall c, P (String c s)).
  { induction s as [|d s [IH1 IH2]]; [auto|]. split; [apply IH2|]. intros c. now apply H2. }
  apply H.
Qed.

Lemma includes_cons c t s :
  includes (String c t) s = String.prefix s (String c t) || includes t s.
Proof. cbn [includes]. now destruct (String.prefix s (String c t)). Qed.

Lemma prefix_crlf c d s :
  String.prefix crlf (String c (String d s)) = Ascii.eqb c cr && Ascii.eqb d lf.
Proof.
  unfold crlf. cbn [String.prefix].
  destruct (ascii_dec cr c) as [<-|Hc].
  - rewrite Ascii.eqb_refl. destruct (ascii_dec lf d) as [<-|Hd].
    + rewrite Ascii.eqb_refl. now destruct s.
    + symmetry. apply Ascii.eqb_neq. congruence.
  - symmetry. apply andb_false_intro1, Ascii.eqb_neq. congruence.
Qed.

Lemma prefix_crlf_one c : String.prefix crlf (String c "") = false.
Proof. unfold crlf. cbn [String.prefix]. now destruct (ascii_dec cr c). Qed.

Lemma normalize_cons c d s :
  normalizeLineEndings (String c (String d s)) =
  if Ascii.eqb c cr && Ascii.eqb d lf then String lf (normalizeLineEndings s)
  else String c (normalizeLineEndings (String d s)).
Proof. reflexivity. Qed.

(** X1: [normalizeLineEndings] leaves a text without carriage return and
    line feed in a row as it is. *)
Theorem normalizeLineEndings_unix (text : string) :
  Str.includes text crlf = false -> normalizeLineEndings text = text.
Proof.
  induction text as [| c | c d s IH1 IH2] using string_ind2; intros H; try reflexivity.
  rewrite includes_cons, prefix_crlf in H. apply orb_false_elim in H as [Hm Hr].
  rewrite normalize_cons, Hm. now rewrite IH2.
Qed.

Lemma normalizeLineEndings_unix_witness :
  Str.includes "a b" crlf = false /\ normalizeLineEndings "a b" = "a b".
Proof. split; [reflexivity|apply (normalizeLineEndings_unix "a b"); reflexivity]. Defined.

(** When the result starts with a line feed, the text starts with a line
    feed or with the two characters of a Windows line ending. *)
Lemma normalize_head_lf d s r :
  normalizeLineEndings (String d s) = String lf r ->
  d = lf \/ String.prefix crlf (String d s) = true.
Proof.
  destruct s as [|e s].
  - cbn. intros [= -> _]. now left.
  - rewrite normalize_cons, prefix_crlf.
    destruct (Ascii.eqb d cr && Ascii.eqb e lf); [now right|].
    intros [= -> _]. now left.
Qed.

Lemma normalize_crlf_free text :
  Str.includes text (String cr crlf) = false ->
  Str.includes (normalizeLineEndings text) crlf = false.
Proof.
  induction text as [| c | c d s IH1 IH2] using string_ind2; intros H.
  - reflexivity.
  - cbn [normalizeLineEndings]. rewrite includes_cons, prefix_crlf_one. reflexivity.
  - rewrite includes_cons in H. apply orb_false_elim in H as [Hp Hr].
    assert (Hs : includes s (String cr crlf) = false).
    { rewrite includes_cons in Hr. now apply orb_false_elim in Hr as [_ Hr]. }
    rewrite normalize_cons. destruct (Ascii.eqb c cr && Ascii.eqb d lf) eqn:Hm.
    + rewrite includes_cons, (IH1 Hs), orb_false_r.
      destruct (normalizeLineEndings s) as [|e r]; [apply prefix_crlf_one|].
      rewrite prefix_crlf. reflexivity.
    + rewrite includes_cons, (IH2 Hr), orb_false_r.
      destruct (normalizeLineEndings (String d s)) as [|e r] eqn:En; [apply prefix_crlf_one|].
      rewrite prefix_crlf.
      destruct (Ascii.eqb c cr) eqn:Hc; [|reflexivity].
      destruct (Ascii.eqb e lf) eqn:He; [|reflexivity].
      apply Ascii.eqb_eq in Hc, He. subst c e. exfalso.
      destruct (normalize_head_lf _ _ _ En) as [->|Hcr].
      * cbn in Hm. discriminate.
      * revert Hp. change (String.prefix (String cr crlf) (String cr (String d s)))
          with (if ascii_dec cr cr then String.prefix crlf (String d s) else false).
        destruct (ascii_dec cr cr); [|congruence]. rewrite Hcr. discriminate.
Qed.

(** X2: when no carriage return stands before a Windows line ending, the
    result of [normalizeLineEndings] holds no Windows line ending, and
    normalising it again changes nothing. *)
Theorem normalizeLineEndings_clean (text : string) :
  Str.includes text (String cr crlf) = false ->
  Str.includes (normalizeLineEndings text) crlf = false /\
  normalizeLineEndings (normalizeLineEndings text) = normalizeLineEndings text.
Proof.
  intros H. pose proof (normalize_crlf_free text H) as Hc.
  split; [exact Hc|].
  generalize dependent (normalizeLineEndings text). clear.
  induction s as [| c | c d s IH1 IH2] using string_ind2; intros H; try reflexivity.
  rewrite includes_cons, prefix_crlf in H. apply orb_false_elim in H as [Hm Hr].
  rewrite normalize_cons, Hm. now rewrite IH2.
Qed.

Lemma normalizeLineEndings_clean_witness :
  Str.includes ("a" ++ crlf ++ "b") (String cr crlf) = false /\
  Str.includes (normalizeLineEndings ("a" ++ crlf ++ "b")) crlf = false /\
  normalizeLineEndings (normalizeLineEndings ("a" ++ crlf ++ "b")) =
  normalizeLineEndings ("a" ++ crlf ++ "b").
Proof.
  split; [reflexivity|].
  apply (normalizeLineEndings_clean ("a" ++ crlf ++ "b")).
  reflexivity.
Defined.

(** The hypothesis of X2 is needed: after a second carriage return the
    result still holds a Windows line ending. *)
Example normalizeLineEndings_cr_cr_lf :
  normalizeLineEndings (String cr crlf) = crlf.
Proof. reflexivity. Qed.

End LineEndings.

(** * More on paths and sizes *)

Section PathsMore.
Import Str StrFacts.

Lemma append_empty (s : string) : s ++ "" = s.
Proof. induction s as [|c s IH]; simpl; [reflexivity|now rewrite IH]. Qed.

Lemma length_append_str (a b : string) :
  String.length (a ++ b) = (String.length a + String.length b)%nat.
Proof. induction a as [|c a IH]; simpl; [reflexivity|now rewrite IH]. Qed.

(** X3: whatever the path, [formatSynoPath] gives a path that starts
    with a slash; of the empty path it makes the root. *)
Theorem formatSynoPath_starts (p : string) :
  Str.startsWith (formatSynoPath p) "/" = true /\ formatSynoPath "" = "/".
Proof. split; [apply formatSynoPath_slash|reflexivity]. Qed.

(** X4: a slash put behind a path that starts with a slash is taken away
    again by [formatSynoPath], and nothing else is changed. *)
Theorem formatSynoPath_trailing (p : string) :
  Str.startsWith p "/" = true -> formatSynoPath (p ++ "/") = p.
Proof. apply formatSynoPath_strip. Qed.

Lemma formatSynoPath_trailing_witness :
  Str.startsWith "/photos/2024" "/" = true /\
  formatSynoPath ("/photos/2024" ++ "/") = "/photos/2024".
Proof. split; [reflexivity|apply (formatSynoPath_trailing "/photos/2024"); reflexivity]. Defined.

Lemma toFixedParsed_whole (n : Z) : toFixedParsed n 1 2 = ofZ n.
Proof.
  unfold toFixedParsed. change (10 ^ Z.of_nat 2) with 100.
  assert (H : (2 * n * 100 + 1) / (2 * 1) = n * 100).
  { symmetry. apply Z.div_unique with (r := 1); lia. }
  rewrite H, Z.mod_mul, Z.div_mul by lia.
  change (stripZeros (fracDigits 2 0)) with "". cbn [String.eqb]. apply append_empty.
Qed.

(** X5: a count of 1 to 1023 bytes is printed as it is, followed by
    [" Bytes"]. *)
Theorem formatBytes_below_KB (bytes : Z) :
  0 < bytes < 1024 -> formatBytes bytes = Str.ofZ bytes ++ " Bytes".
Proof.
  intros H. unfold formatBytes, formatBytes_dec.
  replace (bytes =? 0)%Z with false by (symmetry; apply Z.eqb_neq; lia).
  replace (bytes <? 0)%Z with false by (symmetry; apply Z.ltb_ge; lia).
  cbn zeta.
  assert (Hi : Z.log2 bytes / 10 = 0).
  { apply Z.div_small. split; [apply Z.log2_nonneg|].
    apply Z.log2_lt_pow2; [lia|]. change (2 ^ 10) with 1024. lia. }
  rewrite Hi. change (1024 ^ 0) with 1. change (Z.to_nat (if (2 <? 0)%Z then 0 else 2)) with 2%nat.
  now rewrite toFixedParsed_whole.
Qed.

Lemma formatBytes_below_KB_witness :
  0 < 512 < 1024 /\ formatBytes 512 = Str.ofZ 512 ++ " Bytes".
Proof. split; [lia|apply (formatBytes_below_KB 512); lia]. Defined.

End PathsMore.

(** * Folder and name of a path *)

Section FolderAndName.
Import Str StrFacts.

Lemma includes_char_cons d s c :
  includes (String d s) (String c "") = Ascii.eqb d c || includes s (String c "").
Proof.
  rewrite includes_cons. f_equal. cbn [String.prefix].
  destruct (ascii_dec c d) as [<-|Hn].
  - rewrite Ascii.eqb_refl. now destruct s.
  - symmetry. apply Ascii.eqb_neq. congruence.
Qed.

Lemma lastIndexFrom_none c s : forall i found,
  includes s (String c "") = false -> lastIndexFrom i s c found = found.
Proof.
  induction s as [|d s IH]; intros i found H; [reflexivity|].
  rewrite includes_char_cons in H. apply orb_false_elim in H as [Hd Hs].
  cbn [lastIndexFrom]. rewrite Hd. now apply IH.
Qed.

Lemma lastIndexFrom_last c b a : forall i found,
  includes b (String c "") = false ->
  lastIndexFrom i (a ++ String c b) c found = i + Z.of_nat (String.length a).
Proof.
  induction a as [|d a IH]; intros i found H.
  - cbn [append lastIndexFrom String.length]. rewrite Ascii.eqb_refl.
    rewrite lastIndexFrom_none by exact H. cbn. lia.
  - change (String d a ++ String c b) with (String d (a ++ String c b)).
    cbn [lastIndexFrom]. rewrite IH by exact H. cbn [String.length]. lia.
Qed.

(** A string in which [c] occurs is cut at the last [c]. *)
Lemma split_last c p :
  includes p (String c "") = true ->
  exists a b, p = a ++ String c b /\ includes b (String c "") = false.
Proof.
  induction p as [|d p IH]; [discriminate|].
  rewrite includes_char_cons. intros H.
  destruct (includes p (String c "")) eqn:Hp.
  - destruct (IH eq_refl) as (a & b & -> & Hb). now exists (String d a), b.
  - rewrite orb_false_r in H. apply Ascii.eqb_eq in H. subst d. now exists "", p.
Qed.

Lemma substring_all s : String.substring 0 (String.length s) s = s.
Proof. induction s as [|c s IH]; [reflexivity|]. cbn. now rewrite IH. Qed.

Lemma substring_nothing s : String.substring 0 0 s = "".
Proof. now destruct s. Qed.

Lemma substring_prefix a r : String.substring 0 (String.length a) (a ++ r) = a.
Proof.
  induction a as [|c a IH]; [apply substring_nothing|]. cbn. now rewrite IH.
Qed.

Lemma substring_skip a r :
  String.substring (String.length a) (String.length r) (a ++ r) = r.
Proof. induction a as [|c a IH]; [apply substring_all|]. exact IH. Qed.

Lemma folderOf_cut a b :
  includes b "/" = false -> folderOf (a ++ String "/" b) = a /\ nameOf (a ++ String "/" b) = b.
Proof.
  intros Hb. unfold folderOf, nameOf, substringFrom, substring, lastIndexOf, clamp.
  rewrite (lastIndexFrom_last "/" b a 0 (-1) Hb), length_append_str. cbn [String.length].
  rewrite Z.add_0_l. split.
  - rewrite Nat2Z.id. cbn [Z.to_nat].
    rewrite Nat.min_0_l, Nat.max_0_l, Nat.sub_0_r.
    rewrite Nat.min_l by lia. apply substring_prefix.
  - rewrite Nat2Z.id.
    replace (Z.to_nat (Z.of_nat (String.length a) + 1)) with (S (String.length a)) by lia.
    rewrite (Nat.min_l (S _)) by lia. rewrite Nat.min_id.
    rewrite Nat.min_l, Nat.max_r by lia.
    replace (String.length a + S (String.length b) - S (String.length a))%nat
      with (String.length b) by lia.
    change (a ++ String "/" b) with (a ++ "/" ++ b). rewrite <- app_assoc_str.
    replace (S (String.length a)) with (String.length (a ++ "/"))
      by (rewrite length_append_str; cbn; lia).
    apply substring_skip.
Qed.

Lemma folderOf_plain p :
  includes p "/" = false -> folderOf p = "" /\ nameOf p = p.
Proof.
  intros Hp. unfold folderOf, nameOf, substringFrom, substring, lastIndexOf, clamp.
  rewrite (lastIndexFrom_none "/" p 0 (-1) Hp).
  change (-1 + 1) with 0. change (Z.to_nat (-1)) with 0%nat. change (Z.to_nat 0) with 0%nat.
  rewrite Nat2Z.id, !Nat.min_0_l, Nat.min_id, !Nat.max_0_l, !Nat.sub_0_r.
  split; [apply substring_nothing|apply substring_all].
Qed.

(** X6: the folder and the name that [upload_file] and [move_item] cut
    out of a path.  The name holds no slash.  A path with a slash is the
    folder, a slash and the name; a path without one has the empty
    folder and is its own name. *)
Theorem folder_and_name (p : string) :
  Str.includes (nameOf p) "/" = false /\
  (Str.includes p "/" = true -> folderOf p ++ "/" ++ nameOf p = p) /\
  (Str.includes p "/" = false -> folderOf p = "" /\ nameOf p = p).
Proof.
  destruct (includes p "/") eqn:Hp.
  - destruct (split_last "/" p Hp) as (a & b & -> & Hb).
    destruct (folderOf_cut a b Hb) as [-> ->].
    split; [exact Hb|]. split; [reflexivity|discriminate].
  - destruct (folderOf_plain p Hp) as [Hf Hn]. rewrite Hn.
    split; [exact Hp|]. split; [discriminate|auto].
Qed.

End FolderAndName.

(** * More on sessions and on the dispatchers *)

Section SessionsMore.
Context (env : Env).

Lemma Part0_synoLogin_outcome (st : State) :
  exists b st1,
    Part0.synoLogin env st = Ok b st1 /\
    log st1 = (log st ++ [(Part0.loginRequest env,
                           nas env (log st) (Part0.loginRequest env))])%list /\
    (b = true -> exists s, sid st1 = JStr s) /\
    (isSuccess (nas env (log st) (Part0.loginRequest env)) = false ->
     b = false /\ sid st1 = sid st).
Proof.
  unfold Part0.synoLogin, isSuccess. run.
  destruct (nas env (log st) _) as [body|reason].
  2:{ do 2 eexists. split; [reflexivity|]. cbn. repeat split; auto; discriminate. }
  destruct (Js.truthy body) eqn:Hb; run.
  - destruct (Js.prop body "success") as [e|ok]; run.
    { do 2 eexists. split; [reflexivity|]. cbn. repeat split; auto; discriminate. }
    destruct (Js.truthy ok).
    2:{ do 2 eexists. split; [reflexivity|]. cbn. repeat split; auto; discriminate. }
    destruct (prop2 body "data" "sid") as [e|v]; run.
    { do 2 eexists. split; [reflexivity|]. cbn. repeat split; auto; discriminate. }
    destruct v; cbn [Part0.sidPrefix]; run;
      do 2 eexists; (split; [reflexivity|]); cbn;
      (split; [reflexivity|]); (split; [|discriminate]);
      try discriminate; eauto.
  - rewrite Hb.
    do 2 eexists. split; [reflexivity|]. cbn. repeat split; auto; discriminate.
Qed.

(** X7: [synoLogin] never throws and sends exactly one request, the
    login.  When it returns [true] the cached token is a string; when the
    answer is no success body it returns [false] and keeps the token it
    had. *)
Theorem synoLogin_outcome (st : State) :
  exists b st1,
    Part0.synoLogin env st = Ok b st1 /\
    log st1 = (log st ++ [(Part0.loginRequest env,
                           nas env (log st) (Part0.loginRequest env))])%list /\
    (b = true -> exists s, sid st1 = JStr s) /\
    (isSuccess (nas env (log st) (Part0.loginRequest env)) = false ->
     b = false /\ sid st1 = sid st).
Proof. apply Part0_synoLogin_outcome. Qed.

(** [login] of [src/index.ts] without a cached token, on an answer that
    is no success body: the one error message, and the token kept. *)
Lemma Index_login_refused st :
  Js.truthy (sid st) = false ->
  isSuccess (nas env (log st) (Index.loginRequest env)) = false ->
  Index.login env st =
  Thrown (Error "Failed to authenticate with Synology NAS")
    (mkState (sid st)
       (log st ++ [(Index.loginRequest env, nas env (log st) (Index.loginRequest env))])).
Proof.
  intros Hs. unfold Index.login, isSuccess. run. rewrite Hs. run.
  destruct (nas env (log st) _) as [body|reason]; [|reflexivity].
  destruct (Js.prop body "success") as [e|ok]; run; [reflexivity|].
  intros ->. destruct (errorCode body); reflexivity.
Qed.

(** X8: [src/index.ts], no token cached and the login answered with
    anything but a success body.  Every tool but [logout], called with
    arguments its schema accepts, then sends nothing after the login
    request and answers with the same error text, whatever went wrong. *)
Theorem login_failure_stops_tool (fuel : nat) (st : State)
    (name : string) (schema : Schema) (args : json) :
  In (name, schema) Index.tools -> name <> "logout" ->
  (schema = [] \/ exists parsed, safeParse schema args = inr parsed) ->
  Js.truthy (sid st) = false ->
  isSuccess (nas env (log st) (Index.loginRequest env)) = false ->
  Index.callTool env fuel name args st =
  Ok (mkResult "Error: Failed to authenticate with Synology NAS" true)
     (mkState (sid st)
        (log st ++ [(Index.loginRequest env, nas env (log st) (Index.loginRequest env))])).
Proof.
  intros Hin Hname Hargs Hs Hr.
  pose proof (Index_login_refused st Hs Hr) as L.
  unfold Index.tools in Hin. cbn [In] in Hin.
  repeat (destruct Hin as [Hin|Hin]; [injection Hin as <- <-|]); try contradiction;
    try (now elim Hname);
    unfold Index.callTool;
    match goal with
    | |- context [Index.handle env fuel ?n ?a] =>
        let h := eval cbv beta iota delta [Index.handle String.eqb Ascii.eqb Bool.eqb]
                 in (Index.handle env fuel n a) in
        change (Index.handle env fuel n a) with h
    end;
    try (destruct Hargs as [Hnil|[parsed Hsp]]; [discriminate Hnil|]);
    unfold Index.list_folders, Index.get_file, Index.upload_file, Index.create_folder,
      Index.delete_item, Index.move_item, Index.search, Index.get_share_links,
      Index.get_server_info, Index.get_quota_info, Index.parse;
    try rewrite Hsp; unfold tryCatch, bind, ret; cbn beta iota; rewrite L; reflexivity.
Qed.

(** X9: a name that is none of the tools listed is refused by both
    dispatchers with an error result that repeats the name; nothing is
    sent and the session is left as it is. *)
Theorem unknown_tool_refused (fuel : nat) (st : State) (name : string) (args : json) :
  (~ In name (map fst Index.tools) ->
   Index.callTool env fuel name args st =
   Ok (mkResult ("Error: Unknown tool: " ++ name) true) st) /\
  (~ In name (map fst Part0.tools) ->
   Part0.callTool env fuel name args st =
   Ok (mkResult ("Error: Unknown tool: " ++ name) true) st).
Proof.
  split; intros H; cbn [map fst Index.tools Part0.tools In] in H.
  - unfold Index.callTool, Index.handle.
    repeat match goal with
           | |- context [String.eqb name ?t] =>
               destruct (String.eqb_spec name t) as [->|_]; [exfalso; apply H; tauto|]
           end.
    reflexivity.
  - unfold Part0.callTool, Part0.handle.
    repeat match goal with
           | |- context [String.eqb name ?t] =>
               destruct (String.eqb_spec name t) as [->|_]; [exfalso; apply H; tauto|]
           end.
    reflexivity.
Qed.

(** X10: the [logout] tool of [src/index.ts] always answers
    ["Successfully logged out"], also when the NAS rejects the logout
    request or answers it with an error; it sends at most the one logout
    request. *)
Theorem logout_tool_always_succeeds (fuel : nat) (st : State) (args : json) :
  exists st1,
    Index.callTool env fuel "logout" args st =
    Ok (mkResult "Successfully logged out" false) st1 /\
    (log st1 = log st \/
     log st1 = (log st ++ [(Index.logoutRequest (sid st),
                            nas env (log st) (Index.logoutRequest (sid st)))])%list).
Proof.
  unfold Index.callTool.
  change (Index.handle env fuel "logout" args)
    with (bind (Index.logout env) (fun _ => ret (Index.success "Successfully logged out"))).
  unfold Index.logout. run.
  destruct (Js.truthy (sid st)); cbn [negb]; run; [|eauto].
  destruct (nas env (log st) _) as [body|reason]; eexists; (split; [reflexivity|]);
    right; reflexivity.
Qed.

End SessionsMore.

(** * The text of a listing *)

Section Listings.
Context (env : Env).
Import StrFacts.

Lemma concat_cons (l : string) (ls : list string) :
  String.concat "" (l :: ls) = l ++ String.concat "" ls.
Proof. destruct ls; cbn [String.concat append]; [now rewrite append_empty|reflexivity]. Qed.

(** The loop that appends one line per item puts the lines behind the
    text it starts from, in the order of the items. *)
Lemma appendLines_concat line items : forall lines result,
  Forall2 (fun item l => line item = inr l) items lines ->
  appendLines line items result = inr (result ++ String.concat "" lines).
Proof.
  induction items as [|x items IH]; intros lines result H; inversion H; subst.
  - cbn. now rewrite append_empty.
  - cbn [appendLines]. rewrite H2. cbn [bindE]. rewrite (IH _ _ H4).
    now rewrite concat_cons, app_assoc_str.
Qed.

(** Every object has its line. *)
Lemma entryLine_objects key items :
  forallb isObject items = true ->
  exists lines, Forall2 (fun item l => Index.entryLine key item = inr l) items lines.
Proof.
  induction items as [|x items IH]; intros H; [exists []; constructor|].
  cbn in H. apply andb_prop in H as [Hx H]. destruct (IH H) as (lines & Hl).
  destruct x; try discriminate. eexists (_ :: lines). constructor; [reflexivity|exact Hl].
Qed.

(** X11: [list_folders] with a cached token, on an answer that lists
    objects: the text is the header with the path, then one line per
    entry in the order of the answer, [[DIR]] or [[FILE]] and the name. *)
Theorem list_folders_listing (fuel : nat) (st : State)
    (fields : list (string * json)) (p : string) (items : list json) :
  Js.assoc "path" fields = JStr p ->
  Js.truthy (sid st) = true ->
  listedFiles (nas env (log st)
                 (mkRequest GET EntryCgi
                    (api3 "SYNO.FileStation.List" "2" "list" ++
                     [("folder_path", JStr p); ("_sid", sid st)]))) = Some items ->
  forallb isObject items = true ->
  exists lines,
    Forall2 (fun item l => Index.entryLine "name" item = inr l) items lines /\
    Index.callTool env fuel "list_folders" (JObj fields) st =
    Ok (mkResult ("Items in " ++ p ++ ":" ++ nl ++ String.concat "" lines) false)
       (mkState (sid st)
          (log st ++
           [(mkRequest GET EntryCgi
               (api3 "SYNO.FileStation.List" "2" "list" ++
                [("folder_path", JStr p); ("_sid", sid st)]),
             nas env (log st)
               (mkRequest GET EntryCgi
                  (api3 "SYNO.FileStation.List" "2" "list" ++
                   [("folder_path", JStr p); ("_sid", sid st)])))])).
Proof.
  intros Hp Hs Hl Hall.
  destruct (entryLine_objects "name" items Hall) as (lines & Hlines).
  exists lines. split; [exact Hlines|].
  unfold Index.callTool.
  change (Index.handle env fuel "list_folders" (JObj fields))
    with (Index.list_folders env (JObj fields)).
  unfold Index.list_folders, Index.parse, safeParse.
  cbn [parseFields Index.ListFoldersArgsSchema parseField]. rewrite Hp. cbn [fst].
  unfold bind at 1, tryCatch. cbn [ret]. unfold bind at 1, ret at 1.
  unfold bind at 1. rewrite (Index_login_cached env st Hs).
  change (field "path" [("path", p)]) with p.
  unfold Index.entry. run. revert Hl. unfold listedFiles, isSuccess.
  destruct (nas env (log st) _) as [body|reason]; [|discriminate].
  destruct (Js.prop body "success") as [e|ok]; [discriminate|].
  destruct (Js.truthy ok); [|discriminate]. run.
  destruct (prop2 body "data" "files") as [e|[]]; try discriminate.
  intros [= ->]. run. cbn [Js.elements].
  rewrite (appendLines_concat _ _ _ _ Hlines).
  rewrite !app_assoc_str. reflexivity.
Qed.

(** The line of an entry that is an object. *)
Lemma entryLine_object key fields :
  Index.entryLine key (JObj fields) =
  inr ((if Js.truthy (Js.assoc "isdir" fields) then "[DIR]" else "[FILE]") ++ " " ++
       Js.toStr (Js.assoc key fields) ++ nl).
Proof. reflexivity. Qed.

(** X12: the text of the search results of [src/index.ts] for matches
    that are objects: the header with keyword and path, then for each
    match, in the order of the answer, [[DIR]] when its [isdir] is set
    and [[FILE]] otherwise, a blank and its [path], and
    ["No results found."] when there is no match. *)
Theorem searchText_lines (keyword path : string) (matches : list (list (string * json))) :
  Index.searchText keyword path (JArr (map JObj matches)) =
  inr ("Search results for " ++ dq ++ keyword ++ dq ++ " in " ++ path ++ ":" ++ nl ++
       String.concat ""
         (map (fun fields =>
                 (if Js.truthy (Js.assoc "isdir" fields) then "[DIR]" else "[FILE]") ++ " " ++
                 Js.toStr (Js.assoc "path" fields) ++ nl) matches) ++
       match matches with [] => "No results found." ++ nl | _ => "" end).
Proof.
  unfold Index.searchText. cbn [Js.elements bindE].
  rewrite (appendLines_concat (Index.entryLine "path") (map JObj matches)
             (map (fun fields =>
                     (if Js.truthy (Js.assoc "isdir" fields) then "[DIR]" else "[FILE]") ++ " " ++
                     Js.toStr (Js.assoc "path" fields) ++ nl) matches)).
  - cbn [bindE]. destruct matches; cbn [map]; rewrite !app_assoc_str;
      [reflexivity|now rewrite append_empty].
  - induction matches as [|fields matches IH]; cbn [map]; constructor;
      [apply entryLine_object|exact IH].
Qed.

End Listings.

Lemma list_folders_listing_witness :
  exists st1,
    Index.callTool (labEnv folderNas) 0 "list_folders" (obj [("path", JStr "/photos")])
      (mkState (JStr "s3cr3t") []) =
    Ok (mkResult ("Items in /photos:" ++ nl ++ "[DIR] 2024" ++ nl ++ "[FILE] a.txt" ++ nl)
          false) st1.
Proof.
  destruct (list_folders_listing (labEnv folderNas) 0 (mkState (JStr "s3cr3t") [])
              [("path", JStr "/photos")] "/photos"
              [obj [("name", JStr "2024"); ("isdir", JBool true)];
               obj [("name", JStr "a.txt"); ("isdir", JBool false)]]
              eq_refl eq_refl eq_refl eq_refl) as (lines & Hl & Hr).
  eexists. unfold obj. rewrite Hr.
  inversion Hl as [|x l xs ls Hx Hxs]; subst.
  inversion Hxs as [|x' l' xs' ls' Hx' Hxs']; subst. inversion Hxs'; subst.
  injection Hx as <-. injection Hx' as <-. reflexivity.
Defined.

Lemma searchText_lines_witness :
  Index.searchText "report" "/photos"
    (JArr [obj [("path", JStr "/photos/2024"); ("isdir", JBool true)];
           obj [("path", JStr "/photos/report.txt"); ("isdir", JBool false)]]) =
  inr ("Search results for " ++ dq ++ "report" ++ dq ++ " in /photos:" ++ nl ++
       "[DIR] /photos/2024" ++ nl ++ "[FILE] /photos/report.txt" ++ nl).
Proof.
  exact (searchText_lines "report" "/photos"
           [[("path", JStr "/photos/2024"); ("isdir", JBool true)];
            [("path", JStr "/photos/report.txt"); ("isdir", JBool false)]]).
Defined.

(** * The paths the second variant sends *)

Section PathsSent.
Context (env : Env).

Lemma safeSession_kept st v : safeSession st -> safeSession (mkState (sid st) v).
Proof. auto. Qed.

Lemma safeToken_written v : safeToken v = true -> urlSafe (Js.toStr v) = true.
Proof. destruct v; try discriminate. auto. Qed.

(** The token read from a safe session is written with unreserved
    characters. *)
Lemma sends_getSid_safe {A} P (k : json -> M A) :
  (forall s, urlSafe (Js.toStr s) = true -> Sends safeSession P (k s)) ->
  Sends safeSession P (bind getSid k).
Proof. intros H st Hst. unfold bind, getSid. apply H; [now apply safeToken_written|exact Hst]. Qed.

Ltac addressed :=
  unfold wellAddressed, slashed, tokenParam, param, Part0.probeRequest, Part0.str;
  cbn -[formatSynoPath Str.startsWith urlSafe Js.toStr];
  rewrite ?formatSynoPath_slash;
  repeat match goal with
         | H : urlSafe (Js.toStr _) = true |- _ => rewrite H
         end;
  reflexivity.

Ltac paths_step :=
  first
    [ solve [auto with sends]
    | apply sends_getSid_safe; intros ? ?
    | apply sends_http; [solve [reflexivity | addressed] | exact safeSession_kept]
    | apply sends_nothing; solve [silent]
    | apply sends_bind; [|intro]
    | apply sends_tryCatch; [|intro]
    | match goal with
      | |- Sends _ _ (if ?b then _ else _) => destruct b
      | |- Sends _ _ (match ?x with _ => _ end) => destruct x
      end
    | progress cbv zeta ].

Ltac paths := repeat paths_step.

(** [synoLogin] sends the login request and caches nothing but a token
    that the NAS granted. *)
Lemma Part0_synoLogin_paths :
  GrantsSafeTokens env -> Sends safeSession wellAddressed (Part0.synoLogin env).
Proof.
  intros Hg st Hst. unfold Part0.synoLogin. run.
  destruct (nas env (log st) (Part0.loginRequest env)) as [body|reason] eqn:E.
  2:{ eexists. split; [reflexivity|]. split; [repeat constructor|exact Hst]. }
  assert (Hkeep : forall r : Result bool,
            stateOf r = mkState (sid st) (log st ++ [(Part0.loginRequest env, Reply body)]) ->
            exists t, log (stateOf r) = (log st ++ t)%list /\
                      Forall (fun ex => wellAddressed (fst ex) = true) t /\
                      safeSession (stateOf r)).
  { intros r ->. eexists. split; [reflexivity|]. split; [repeat constructor|exact Hst]. }
  destruct (Js.truthy body); run.
  - destruct (Js.prop body "success") as [e|ok]; run; [now apply Hkeep|].
    destruct (Js.truthy ok); [|now apply Hkeep].
    destruct (prop2 body "data" "sid") as [e|v] eqn:Hv; run; [now apply Hkeep|].
    pose proof (Hg _ _ _ E Hv) as Hsafe.
    destruct (Part0.sidPrefix v); run;
      (eexists; split; [reflexivity|]; split; [repeat constructor|exact Hsafe]).
  - destruct (Js.truthy body); [|now apply Hkeep].
    destruct (prop2 body "data" "sid") as [e|v] eqn:Hv; run; [now apply Hkeep|].
    pose proof (Hg _ _ _ E Hv) as Hsafe.
    destruct (Part0.sidPrefix v); run;
      (eexists; split; [reflexivity|]; split; [repeat constructor|exact Hsafe]).
Qed.

Lemma Part0_refreshSession_paths :
  GrantsSafeTokens env -> Sends safeSession wellAddressed (Part0.refreshSession env).
Proof.
  intros Hg. pose proof (Part0_synoLogin_paths Hg) as Hlogin.
  unfold Part0.refreshSession. paths.
Qed.

Lemma Part0_waitFinished_paths fuel taskId :
  Sends safeSession wellAddressed (Part0.waitFinished env fuel taskId).
Proof.
  induction fuel as [|fuel IH]; cbn [Part0.waitFinished].
  - intros st H. exists []. cbn. rewrite app_nil_r. auto.
  - unfold Part0.searchCall, Part0.entry. paths.
Qed.

Hint Resolve Part0_waitFinished_paths Part0_fail_silent
  Part0_parse_silent Part0_shaped_silent : sends.

(** X13: the second variant puts every path through [formatSynoPath]
    before it is sent.  [listShares], [listDirectory], [readFile],
    [writeFile] and [getFileInfo] write the session token into the URL as
    it is, so the requests are read off the URL for tokens of unreserved
    characters only.  When the cached token and every token the NAS
    grants are strings of such characters, each request of a tool other
    than [create_directory] carries such a token, and names no folder and
    no path, or ones that start with a slash. *)
Theorem paths_sent_start_with_slash (fuel : nat) (name : string) (args : json) (st : State) :
  name <> "create_directory" ->
  GrantsSafeTokens env ->
  safeToken (sid st) = true ->
  exists t,
    log (stateOf (Part0.callTool env fuel name args st)) = (log st ++ t)%list /\
    Forall (fun ex => slashed (fst ex) = true /\ tokenParam (fst ex) = true) t.
Proof.
  intros Hname Hg Hst.
  assert (H : Sends safeSession wellAddressed (Part0.callTool env fuel name args)).
  { pose proof (Part0_refreshSession_paths Hg) as Hrefresh.
    unfold Part0.callTool, Part0.handle.
    destruct (String.eqb_spec name "create_directory") as [->|_]; [now elim Hname|].
    unfold Part0.listShares, Part0.listDirectory, Part0.readFile, Part0.writeFile,
      Part0.searchFiles, Part0.getFileInfo, Part0.finishSearch, Part0.searchCall,
      Part0.logged, Part0.entry.
    paths. }
  destruct (H st Hst) as (t & Hl & Hf & _). exists t. split; [exact Hl|].
  eapply Forall_impl; [|exact Hf]. intros ex Hex.
  now apply andb_prop in Hex.
Qed.

End PathsSent.

Lemma paths_sent_start_with_slash_witness :
  exists t,
    log (stateOf (Part0.callTool (labEnv healthyNas) 0 "list_directory"
                    (obj [("path", JStr "photos/")]) freshPart0)) = (log freshPart0 ++ t)%list /\
    Forall (fun ex => slashed (fst ex) = true /\ tokenParam (fst ex) = true) t.
Proof.
  apply (paths_sent_start_with_slash (labEnv healthyNas) 0 "list_directory").
  - discriminate.
  - intros h body v Hb Hv. injection Hb as <-. injection Hv as <-. reflexivity.
  - reflexivity.
Defined.

(** * Downloads *)

Section Downloads.
Context (env : Env).

(** X14: [read_file] of the second variant does not look at what the
    download says.  After [refreshSession], the body of whatever answer
    the NAS gives to the download request is decoded and returned as the
    content of the file, an error envelope as well. *)
Theorem read_file_returns_any_answer (fuel : nat) (st : State)
    (fields : list (string * json)) (p : string) :
  Js.assoc "path" fields = JStr p ->
  exists b st1,
    Part0.refreshSession env st = Ok b st1 /\
    forall body,
      nas env (log st1)
        (mkRequest GET EntryCgi
           ((api3 "SYNO.FileStation.Download" "2" "download" ++
             [("path", JStr (formatSynoPath p)); ("mode", JStr "download")]) ++
            [("_sid", Part0.str (sid st1))])) = Reply body ->
      exists st2,
        Part0.callTool env fuel "read_file" (JObj fields) st =
        Ok (mkResult (bodyText env body) false) st2.
Proof.
  intros Hp. destruct (Part0_refreshSession_run env st) as (b & st1 & E & _).
  exists b, st1. split; [exact E|]. intros body Hb.
  unfold Part0.callTool.
  change (Part0.handle env fuel "read_file" (JObj fields))
    with (bind (Part0.parse "read_file" Part0.ReadFileArgsSchema (JObj fields))
            (fun parsed => bind (Part0.readFile env (field "path" parsed))
                             (fun content => ret (Part0.success content)))).
  unfold Part0.parse, safeParse.
  cbn [parseFields Part0.ReadFileArgsSchema parseField]. rewrite Hp. cbn [fst].
  eexists. unfold Part0.readFile, Part0.logged, Part0.entry. run. rewrite E. cbn [sid log].
  change (field "path" [("path", p)]) with p.
  rewrite Hb. reflexivity.
Qed.

(** X15: [get_file] of [src/index.ts] checks the answer about the file
    and not the download.  With a token cached and the file found, the
    body of whatever the NAS answers to the download request is the text
    of the result. *)
Theorem get_file_returns_any_answer (fuel : nat) (st : State)
    (fields : list (string * json)) (p : string) (body : json) :
  Js.assoc "path" fields = JStr p ->
  Js.truthy (sid st) = true ->
  isSuccess (nas env (log st)
               (mkRequest GET EntryCgi
                  (api3 "SYNO.FileStation.List" "2" "getinfo" ++
                   [("path", JStr p); ("_sid", sid st)]))) = true ->
  nas env
    (log st ++
     [(mkRequest GET EntryCgi
         (api3 "SYNO.FileStation.List" "2" "getinfo" ++ [("path", JStr p); ("_sid", sid st)]),
       nas env (log st)
         (mkRequest GET EntryCgi
            (api3 "SYNO.FileStation.List" "2" "getinfo" ++
             [("path", JStr p); ("_sid", sid st)])))])%list
    (mkRequest GET EntryCgi
       (api3 "SYNO.FileStation.Download" "2" "download" ++
        [("path", JStr p); ("mode", JStr "open"); ("_sid", sid st)])) = Reply body ->
  exists st2,
    Index.callTool env fuel "get_file" (JObj fields) st =
    Ok (mkResult (bodyText env body) false) st2.
Proof.
  intros Hp Hs Hi Hb. unfold isSuccess in Hi.
  destruct (nas env (log st) _) as [info|reason] eqn:Ei; [|discriminate].
  destruct (Js.prop info "success") as [e|ok] eqn:Eok; [discriminate|].
  eexists. unfold Index.callTool.
  change (Index.handle env fuel "get_file" (JObj fields))
    with (Index.get_file env (JObj fields)).
  unfold Index.get_file, Index.parse, safeParse.
  cbn [parseFields Index.GetFileArgsSchema parseField]. rewrite Hp. cbn [fst].
  unfold bind at 1, tryCatch. cbn [ret]. unfold bind at 1, ret at 1.
  unfold bind at 1. rewrite (Index_login_cached env st Hs).
  change (field "path" [("path", p)]) with p.
  unfold Index.entry. run. rewrite Ei. run. rewrite Eok. run. rewrite Hi. cbn [negb log sid].
  rewrite Hb. reflexivity.
Qed.

End Downloads.

Lemma read_file_returns_any_answer_witness :
  exists st2,
    Part0.callTool (labEnv expiredNas) 0 "read_file" (obj [("path", JStr "/a.txt")])
      (mkState (JStr "s3cr3t") []) =
    Ok (mkResult (Js.toStr (errorBody 119)) false) st2.
Proof.
  destruct (read_file_returns_any_answer (labEnv expiredNas) 0 (mkState (JStr "s3cr3t") [])
              [("path", JStr "/a.txt")] "/a.txt" eq_refl) as (b & st1 & E & H).
  injection E as <- <-. apply (H (errorBody 119)). reflexivity.
Defined.

Lemma get_file_returns_any_answer_witness :
  exists st2,
    Index.callTool (labEnv folderNas) 0 "get_file" (obj [("path", JStr "/a.txt")])
      (mkState (JStr "s3cr3t") []) =
    Ok (mkResult (bodyText (labEnv folderNas)
                    (okBody [("files", JArr [obj [("name", JStr "2024"); ("isdir", JBool true)];
                                             obj [("name", JStr "a.txt"); ("isdir", JBool false)]])]))
          false) st2.
Proof.
  apply (get_file_returns_any_answer (labEnv folderNas) 0 (mkState (JStr "s3cr3t") [])
           [("path", JStr "/a.txt")] "/a.txt"); reflexivity.
Defined.

(** * More on the search of [src/index.ts] *)

Section SearchMore.
Context (env : Env).

Lemma isFailure_inv resp :
  isFailure resp = true ->
  exists body ok, resp = Reply body /\ Js.prop body "success" = inr ok /\ Js.truthy ok = false.
Proof.
  unfold isFailure. destruct resp as [body|]; [|discriminate].
  destruct (Js.prop body "success") as [|ok] eqn:E; [discriminate|].
  intros H. exists body, ok. repeat split; auto. now destruct (Js.truthy ok).
Qed.

(** X16: [search] of [src/index.ts] swallows a failure of the list
    call.  When the task is started and reported finished, the list
    request is answered with a body that says it failed, and the stop
    request is answered, the result is the empty text and no error. *)
Theorem search_list_failure_empty_text (fuel : nat) (st : State) (args : json)
    (parsed : list (string * string)) :
  safeParse Index.SearchArgsSchema args = inr parsed ->
  Js.truthy (sid st) = true ->
  (forall h req, isStart req = true -> startsTask (nas env h req) = true) ->
  (forall h req, isStatus req = true -> statusAnswer (nas env h req) = Some true) ->
  (forall h req, isList req = true -> isFailure (nas env h req) = true) ->
  (forall h req, isStop req = true -> isAnswer (nas env h req) = true) ->
  exists st1,
    Index.callTool env (S fuel) "search" args st = Ok (mkResult "" false) st1 /\
    count isStop (log st1) = S (count isStop (log st)).
Proof.
  intros Hsp Hs Hstart Hstatus Hlist Hstop.
  assert (H : forall r, r = Index.callTool env (S fuel) "search" args st ->
                exists st1, r = Ok (mkResult "" false) st1 /\
                            count isStop (log st1) = S (count isStop (log st))).
  2:{ apply (H _ eq_refl). }
  intros r. unfold Index.callTool. rewrite Index_handle_search.
  unfold Index.search, Index.parse, Index.entry, Index.check. rewrite Hsp.
  cbn [Index.poll]. run. rewrite (Index_login_cached env st Hs).
  match goal with
  | |- context [nas env (log st) ?q] =>
      destruct (startsTask_inv _ (Hstart (log st) q eq_refl))
        as (body & ok & taskId & E & _ & Hok & Hokt & Htask); rewrite E
  end.
  cbn beta iota. rewrite Hok. cbn beta iota. rewrite Hokt. cbn beta iota.
  rewrite Htask. cbn beta iota. cbn [log sid].
  match goal with
  | |- context [nas env ?h (Index.searchRequest "status" ?t ?s)] =>
      destruct (statusAnswer_inv _ _ (Hstatus h (Index.searchRequest "status" t s) eq_refl))
        as (b1 & ok1 & d1 & f1 & E1 & _ & _ & _ & Hd1 & Hf1 & Ht1); rewrite E1
  end.
  cbn beta iota. unfold prop2 at 1. rewrite Hd1, Hf1. cbn beta iota. rewrite Ht1.
  cbn beta iota. cbn [log sid].
  match goal with
  | |- context [nas env ?h (Index.searchRequest "list" ?t ?s)] =>
      destruct (isFailure_inv _ (Hlist h (Index.searchRequest "list" t s) eq_refl))
        as (b2 & ok2 & E2 & Hok2 & Ht2); rewrite E2
  end.
  cbn beta iota. rewrite Hok2. cbn beta iota. rewrite Ht2. cbn beta iota. cbn [log sid].
  match goal with
  | |- context [nas env ?h (Index.searchRequest "stop" ?t ?s)] =>
      pose proof (Hstop h (Index.searchRequest "stop" t s) eq_refl) as H3;
      destruct (nas env h (Index.searchRequest "stop" t s)) as [b3|]; [|discriminate]
  end.
  intros ->. eexists. split; [reflexivity|].
  cbn [log]. rewrite !count_app. cbn. lia.
Qed.

(** The first exchange of a request and what follows it. *)
Lemma http_first {A} (Q : State -> Prop) (P : Request -> bool) remote req
    (k : json -> M A) st :
  Q st -> (forall st v, Q st -> Q (mkState (sid st) v)) ->
  (forall a, Sends Q P (k a)) ->
  exists rest,
    log (stateOf (bind (http remote req) k st)) =
    (log st ++ (req, remote (log st) req) :: rest)%list.
Proof.
  intros HQ Hkeep Hk. unfold bind, http.
  destruct (remote (log st) req) as [data|reason]; [|exists []; reflexivity].
  destruct (Hk data _ (Hkeep st (log st ++ [(req, Reply data)])%list HQ)) as (t & Hl & _).
  exists t. rewrite Hl. cbn [log]. now rewrite <- app_assoc.
Qed.

(** X17: [search] of [src/index.ts] called without a path searches the
    root: with a token cached, the first request is the start of a
    search for the keyword in ["/"]. *)
Theorem search_default_root (fuel : nat) (st : State)
    (fields : list (string * json)) (k : string) :
  Js.assoc "keyword" fields = JStr k ->
  Js.assoc "path" fields = JUndefined ->
  Js.truthy (sid st) = true ->
  exists resp rest,
    log (stateOf (Index.callTool env fuel "search" (JObj fields) st)) =
    (log st ++
     (mkRequest GET EntryCgi
        (api3 "SYNO.FileStation.Search" "2" "start" ++
         [("folder_path", JStr "/"); ("pattern", JStr k); ("_sid", sid st)]), resp)
     :: rest)%list.
Proof.
  intros Hk Hp Hs. unfold Index.callTool. rewrite stateOf_caught, Index_handle_search.
  unfold Index.search, Index.parse, safeParse.
  cbn [parseFields Index.SearchArgsSchema parseField]. rewrite Hk, Hp. cbn [fst].
  unfold bind at 1, ret at 1. unfold bind at 1. rewrite (Index_login_cached env st Hs).
  change (field "path" [("keyword", k); ("path", "/")]) with "/".
  change (field "keyword" [("keyword", k); ("path", "/")]) with k.
  unfold Index.entry. eexists.
  apply (http_first cached notLogin); [exact Hs|auto|].
  intro body. pose proof (Index_poll_sends env) as Hpoll.
  pose proof (Index_check_silent) as Hcheck. sends.
Qed.

End SearchMore.

Lemma search_list_failure_empty_text_witness :
  exists st1,
    Index.callTool (labEnv listDownNas) 1 "search" searchArgs (mkState (JStr "s3cr3t") []) =
    Ok (mkResult "" false) st1 /\
    count isStop (log st1) = S (count isStop []).
Proof.
  apply (search_list_failure_empty_text (labEnv listDownNas) 0 (mkState (JStr "s3cr3t") [])
           searchArgs [("keyword", "report"); ("path", "/photos")]).
  - reflexivity.
  - reflexivity.
  - intros h req H. cbn [nas labEnv]. unfold listDownNas, isList.
    rewrite (calls_other _ _ "SYNO.FileStation.Search" "list" _ H) by (right; discriminate).
    reflexivity.
  - intros h req H. cbn [nas labEnv]. unfold listDownNas, isList.
    rewrite (calls_other _ _ "SYNO.FileStation.Search" "list" _ H) by (right; discriminate).
    reflexivity.
  - intros h req H. cbn [nas labEnv]. unfold listDownNas. rewrite H. reflexivity.
  - intros h req H. cbn [nas labEnv]. unfold listDownNas. destruct (isList req); reflexivity.
Defined.

Lemma search_default_root_witness :
  exists resp rest,
    log (stateOf (Index.callTool (labEnv healthyNas) 3 "search" (JObj [("keyword", JStr "report")])
                    (mkState (JStr "s3cr3t") []))) =
    ([] ++
     (mkRequest GET EntryCgi
        (api3 "SYNO.FileStation.Search" "2" "start" ++
         [("folder_path", JStr "/"); ("pattern", JStr "report"); ("_sid", JStr "s3cr3t")]), resp)
     :: rest)%list.
Proof.
  apply (search_default_root (labEnv healthyNas) 3 (mkState (JStr "s3cr3t") [])
           [("keyword", JStr "report")] "report"); reflexivity.
Defined.

(** * Logins of a tool call of [src/index.ts] *)

Section OneLogin.
Context (env : Env).

Let any : State -> Prop := fun _ => True.

Lemma once_silent {A} (m : M A) : Silent m -> LogsInOnce m.
Proof.
  intros H st. rewrite (H st). exists []. rewrite app_nil_r. split; [reflexivity|cbn; lia].
Qed.

Lemma once_quiet {A} (m : M A) : Sends any notLogin m -> LogsInOnce m.
Proof.
  intros H st. destruct (H st I) as (t & Hl & Hf & _). exists t.
  split; [exact Hl|]. rewrite (count_notLogin t Hf). lia.
Qed.

Lemma once_after_silent {A B} (m : M A) (k : A -> M B) :
  Silent m -> (forall a, LogsInOnce (k a)) -> LogsInOnce (bind m k).
Proof.
  intros Hm Hk st. unfold bind. specialize (Hm st).
  destruct (m st) as [a st1|e st1|st1]; cbn in Hm; subst st1.
  - apply Hk.
  - exists []. cbn. rewrite app_nil_r. split; [reflexivity|lia].
  - exists []. cbn. rewrite app_nil_r. split; [reflexivity|lia].
Qed.

(** [login], then requests that are no login. *)
Lemma once_login {A} (k : json -> M A) :
  (forall s, Sends any notLogin (k s)) -> LogsInOnce (bind (Index.login env) k).
Proof.
  intros Hk st. unfold bind.
  pose proof (Index_login_run env st) as L. cbn zeta in L. destruct L as [_ L].
  assert (H1 : exists t1, log (stateOf (Index.login env st)) = (log st ++ t1)%list /\
                          (count isLogin t1 <= 1)%nat).
  { destruct L as [[L _]|[_ L]]; rewrite L.
    - exists []. rewrite app_nil_r. split; [reflexivity|cbn; lia].
    - eexists. split; [reflexivity|]. apply count_one. }
  destruct H1 as (t1 & Hl1 & Hc1).
  destruct (Index.login env st) as [s st1|e st1|st1]; cbn [stateOf] in *; eauto.
  destruct (Hk s st1 I) as (t2 & Hl2 & Hf2 & _).
  exists (t1 ++ t2)%list. rewrite Hl2, Hl1, app_assoc. split; [reflexivity|].
  rewrite count_app, (count_notLogin t2 Hf2). lia.
Qed.

Lemma Index_poll_quiet fuel taskId sessionId keyword path :
  Sends any notLogin (Index.poll env fuel taskId sessionId keyword path).
Proof.
  induction fuel as [|fuel IH]; cbn [Index.poll].
  - intros st H. exists []. cbn. rewrite app_nil_r. auto.
  - sends.
Qed.

Hint Resolve Index_poll_quiet Index_parse_silent Index_check_silent : sends.

(** X18: whatever the state, the arguments and the answers of the NAS,
    one call of a tool of [src/index.ts] sends at most one login
    request. *)
Theorem tool_call_logs_in_once (fuel : nat) (name : string) (args : json) (st : State) :
  exists t,
    log (stateOf (Index.callTool env fuel name args st)) = (log st ++ t)%list /\
    (count isLogin t <= 1)%nat.
Proof.
  unfold Index.callTool. rewrite stateOf_caught.
  revert st. change (LogsInOnce (Index.handle env fuel name args)).
  unfold Index.handle.
  repeat match goal with
         | |- context [if String.eqb name ?s then _ else _] =>
             destruct (String.eqb name s) eqn:?
         end.
  2:{ apply once_quiet, sends_bind; [apply Index_logout_sends|intro; sends]. }
  all: unfold Index.list_folders, Index.get_file, Index.upload_file, Index.create_folder,
         Index.delete_item, Index.move_item, Index.search, Index.get_share_links,
         Index.get_server_info, Index.get_quota_info, Index.entry;
       try (apply once_after_silent; [solve [silent]|intro]);
       try (apply once_login; intro; sends).
  apply once_silent. silent.
Qed.

End OneLogin.

(** * Start and end of the process *)

Section Process.
Context (env : Env).

(** X19: [runServer] of the second variant always comes to an end of its
    own: it serves, or exits with code 1.  It serves only after a login
    that the NAS answered with a success body, with a string cached as
    the token and the transport connected; when the login is answered
    otherwise it exits with code 1 after that one request. *)
Theorem runServer_serves_logged_in (connect : E unit) (st : State) :
  exists o st1,
    Startup.runServer env connect st = Ok o st1 /\
    (o = Serving \/ o = Exit 1) /\
    (o = Serving ->
     isSuccess (nas env (log st) (Part0.loginRequest env)) = true /\
     (exists s, sid st1 = JStr s) /\ connect = inr tt) /\
    (isSuccess (nas env (log st) (Part0.loginRequest env)) = false ->
     o = Exit 1 /\
     log st1 = (log st ++ [(Part0.loginRequest env,
                            nas env (log st) (Part0.loginRequest env))])%list).
Proof.
  unfold Startup.runServer. unfold tryCatch, bind at 1.
  destruct (Part0_synoLogin_outcome env st) as (b & st1 & -> & Hlog & Htrue & Hfalse).
  destruct b; cbn [negb].
  - destruct connect as [e|[]]; run.
    + destruct (Js.truthy (sid st1)) eqn:Hs.
      * rewrite (Part0_synoLogout_warm env st1 Hs). cbn zeta.
        do 2 eexists. split; [reflexivity|]. split; [now right|].
        split; [discriminate|]. intros Hn. now destruct (Hfalse Hn).
      * rewrite (Part0_synoLogout_cold env st1 Hs).
        do 2 eexists. split; [reflexivity|]. split; [now right|].
        split; [discriminate|]. intros Hn. now destruct (Hfalse Hn).
    + do 2 eexists. split; [reflexivity|]. split; [now left|]. split.
      * intros _. split; [|split; [now apply Htrue|reflexivity]].
        destruct (isSuccess _) eqn:Hn; [reflexivity|]. now destruct (Hfalse eq_refl).
      * intros Hn. now destruct (Hfalse Hn).
  - run. do 2 eexists. split; [reflexivity|]. split; [now right|].
    split; [discriminate|]. intros _. auto.
Qed.

(** X20: on [SIGINT] and [SIGTERM] the second variant always exits with
    code 0, whatever the NAS answers to the logout.  It sends the logout
    request when a token is cached and nothing otherwise, and drops the
    token when the answer is a success body. *)
Theorem signal_exits_zero (st : State) :
  exists st1,
    Startup.onSignal env st = Ok (Exit 0) st1 /\
    (if Js.truthy (sid st)
     then log st1 = (log st ++ [(Part0.logoutRequest (sid st),
                                 nas env (log st) (Part0.logoutRequest (sid st)))])%list /\
          (isSuccess (nas env (log st) (Part0.logoutRequest (sid st))) = true ->
           sid st1 = JStr "")
     else st1 = st).
Proof.
  unfold Startup.onSignal, bind, ret.
  destruct (Js.truthy (sid st)) eqn:Hs.
  - rewrite (Part0_synoLogout_warm env st Hs). cbn zeta.
    eexists. split; [reflexivity|]. cbn [log sid]. split; [reflexivity|].
    now intros ->.
  - rewrite (Part0_synoLogout_cold env st Hs). eauto.
Qed.

(** X21: [refreshSession] sends the probe.  When the probe is rejected,
    reports error 119 or cannot be read, what follows is one [synoLogin],
    whose result is returned; otherwise it returns [true], keeps the
    token and sends nothing more. *)
Theorem refreshSession_outcome (st : State) :
  Part0.refreshSession env st =
  (if Part0.needsLogin (nas env (log st) (Part0.probeRequest (sid st)))
   then Part0.synoLogin env else ret true)
    (mkState (sid st)
       (log st ++ [(Part0.probeRequest (sid st),
                    nas env (log st) (Part0.probeRequest (sid st)))])).
Proof.
  unfold Part0.refreshSession. run.
  destruct (nas env (log st) _) as [body|reason]; cbn [Part0.needsLogin]; [|reflexivity].
  destruct (Part0.sessionExpired body) as [e|[]]; run; try reflexivity.
  match goal with
  | |- context [Part0.synoLogin env ?s] =>
      destruct (Part0_synoLogin_run env s) as (b & st1 & -> & _)
  end.
  reflexivity.
Qed.

End Process.

Lemma login_failure_stops_tool_witness :
  Index.callTool (labEnv deadNas) 0 "list_folders" (obj [("path", JStr "/photos")]) fresh =
  Ok (mkResult "Error: Failed to authenticate with Synology NAS" true)
     (mkState JNull [(Index.loginRequest (labEnv deadNas), Rejected "connect ECONNREFUSED")]).
Proof.
  apply (login_failure_stops_tool (labEnv deadNas) 0 fresh "list_folders" Index.ListFoldersArgsSchema).
  - cbn. auto.
  - discriminate.
  - right. eexists. reflexivity.
  - reflexivity.
  - reflexivity.
Defined.
